(** * CementGPT chat client (static/script.js): a shallow embedding

    The client is one class, [CementGPT], bound to the elements of a page.
    Strings are JavaScript strings (sequences of UTF-16 code units), server
    responses are JSON values, the page is the part of the DOM the class
    touches, and an [async] method is cut at its [await]: the function of
    its name runs up to the request, and its [_resume] runs the rest once
    the request has an outcome.  In between, the event loop takes any other
    event: input, clicks, other responses, timers. *)

From Stdlib Require Import String Ascii DecimalString.
From Stdlib Require Import List ZArith NArith Bool Lia.
Import ListNotations.

Open Scope list_scope.

(* ------------------------------------------------------------------ *)
(** ** JavaScript strings *)

(** A string is its sequence of UTF-16 code units. *)
Definition jsstring := list N.

(** A literal of the source (ASCII text). *)
Definition js (s : string) : jsstring :=
  map N_of_ascii (list_ascii_of_string s).

Fixpoint str_eqb (a b : jsstring) : bool :=
  match a, b with
  | [], [] => true
  | x :: a', y :: b' => N.eqb x y && str_eqb a' b'
  | _, _ => false
  end.

(** [s.startsWith(p)] *)
Fixpoint starts_with (p s : jsstring) : bool :=
  match p, s with
  | [], _ => true
  | x :: p', y :: s' => N.eqb x y && starts_with p' s'
  | _ :: _, [] => false
  end.

(** [s.includes(p)] *)
Fixpoint includes (p s : jsstring) : bool :=
  starts_with p s ||
  match s with
  | [] => false
  | _ :: s' => includes p s'
  end.

(** ECMAScript LineTerminator: LF, CR, LS, PS. *)
Definition is_line_terminator (c : N) : bool :=
  N.eqb c 10 || N.eqb c 13 || N.eqb c 8232 || N.eqb c 8233.

(** ECMAScript WhiteSpace (TAB, VT, FF, SP, NBSP, ZWNBSP and the Unicode
    space separators), all of them single code units. *)
Definition is_white_space (c : N) : bool :=
  N.eqb c 9 || N.eqb c 11 || N.eqb c 12 || N.eqb c 32 || N.eqb c 160 ||
  N.eqb c 5760 || (N.leb 8192 c && N.leb c 8202) || N.eqb c 8239 ||
  N.eqb c 8287 || N.eqb c 12288 || N.eqb c 65279.

Fixpoint trim_start (s : jsstring) : jsstring :=
  match s with
  | c :: s' => if is_white_space c || is_line_terminator c then trim_start s' else s
  | [] => []
  end.

(** [s.trim()] *)
Definition trim (s : jsstring) : jsstring :=
  rev (trim_start (rev (trim_start s))).

(** Decimal rendering of an integer that a double holds exactly and that is
    below 10^21, where the rendering turns to the exponent form (a clock
    reading, a length, a height in pixels), as in a template literal. *)
Definition decimal (n : Z) : jsstring :=
  js (NilZero.string_of_int (Z.to_int n)).

(* ------------------------------------------------------------------ *)
(** ** Regular expressions: the fragment the source uses

    The five patterns of [formatMessage] are built from literal code units,
    the dot, a lazy star over one code unit, one capturing group and
    concatenation. *)

Inductive atom : Type :=
| Chr (c : N)     (* an escaped or plain literal: \* ` \n *)
| Dot.            (* .  (no s flag): any code unit but a line terminator *)

Inductive regex : Type :=
| Atom (a : atom)
| LazyStar (a : atom)        (* a*? *)
| Group (r : regex)          (* ( r ), group 1 *)
| Cat (r1 r2 : regex).

Definition atom_matches (a : atom) (c : N) : bool :=
  match a with
  | Chr d => N.eqb c d
  | Dot => negb (is_line_terminator c)
  end.

(** The backtracking loop of [a*?]: the continuation is tried first, and one
    more unit is consumed only when it fails. *)
Fixpoint lazy_loop {R : Type} (a : atom) (k : jsstring -> option R)
    (s : jsstring) : option R :=
  match k s with
  | Some r => Some r
  | None =>
      match s with
      | c :: s' => if atom_matches a c then lazy_loop a k s' else None
      | [] => None
      end
  end.

(** [run r s cap k]: match [r] at the front of [s], then continue with [k] on
    what is left; [cap] is the text of group 1 so far. *)
Fixpoint run {R : Type} (r : regex) (s : jsstring) (cap : option jsstring)
    (k : jsstring -> option jsstring -> option R) : option R :=
  match r with
  | Atom a =>
      match s with
      | c :: s' => if atom_matches a c then k s' cap else None
      | [] => None
      end
  | LazyStar a => lazy_loop a (fun s' => k s' cap) s
  | Group r1 =>
      run r1 s cap
        (fun s' _ => k s' (Some (firstn (length s - length s') s)))
  | Cat r1 r2 => run r1 s cap (fun s' cap' => run r2 s' cap' k)
  end.

(** A match anchored at the front of [s]: what follows it, and group 1. *)
Definition exec (r : regex) (s : jsstring) : option (jsstring * option jsstring) :=
  run r s None (fun s' cap => Some (s', cap)).

(** A replacement string, cut at its [$1]. *)
Inductive piece : Type :=
| Lit (s : jsstring)
| Group1.

Definition expand (t : list piece) (cap : option jsstring) : jsstring :=
  flat_map (fun p =>
              match p with
              | Lit s => s
              | Group1 => match cap with Some x => x | None => [] end
              end) t.

(** [s.replace(/r/g, t)]: left to right, the first match at each position;
    after a match the scan continues behind it ([skip] counts the units of
    the match still to pass over), after an empty match one unit further. *)
Fixpoint replace_from (r : regex) (t : list piece) (skip : nat) (s : jsstring)
    : jsstring :=
  match skip with
  | S n =>
      match s with
      | _ :: s' => replace_from r t n s'
      | [] => []
      end
  | O =>
      match exec r s with
      | Some (rest, cap) =>
          expand t cap ++
          match s with
          | [] => []
          | c :: s' =>
              match length s - length rest with
              | O => c :: replace_from r t 0 s'
              | S n => replace_from r t n s'
              end
          end
      | None =>
          match s with
          | [] => []
          | c :: s' => c :: replace_from r t 0 s'
          end
      end
  end.

Definition replace_all (r : regex) (t : list piece) (s : jsstring) : jsstring :=
  replace_from r t 0 s.

(** A pattern that is a sequence of literals. *)
Fixpoint lits (d : jsstring) (r : regex) : regex :=
  match d with
  | [] => r
  | c :: d' => Cat (Atom (Chr c)) (lits d' r)
  end.

Definition star : N := 42.
Definition backtick : N := 96.
Definition newline : N := 10.

(** [/\*\*(.*?)\*\*/] *)
Definition bold_re : regex :=
  Cat (Atom (Chr star)) (Cat (Atom (Chr star))
    (Cat (Group (LazyStar Dot)) (Cat (Atom (Chr star)) (Atom (Chr star))))).

(** [/\*(.*?)\*/] *)
Definition italic_re : regex :=
  Cat (Atom (Chr star)) (Cat (Group (LazyStar Dot)) (Atom (Chr star))).

(** [/`(.*?)`/] *)
Definition code_re : regex :=
  Cat (Atom (Chr backtick)) (Cat (Group (LazyStar Dot)) (Atom (Chr backtick))).

(** [/\n\n/] and [/\n/] *)
Definition para_re : regex := Cat (Atom (Chr newline)) (Atom (Chr newline)).
Definition line_re : regex := Atom (Chr newline).

(** [formatMessage(content)] for a string [content]. *)
Definition formatMessage (content : jsstring) : jsstring :=
  let content := replace_all bold_re [Lit (js "<strong>"); Group1; Lit (js "</strong>")] content in
  let content := replace_all italic_re [Lit (js "<em>"); Group1; Lit (js "</em>")] content in
  let content := replace_all code_re [Lit (js "<code>"); Group1; Lit (js "</code>")] content in
  let content := replace_all para_re [Lit (js "</p><p>")] content in
  let content := replace_all line_re [Lit (js "<br>")] content in
  if includes (js "<br>") content || includes (js "</p>") content
  then js "<p>" ++ content ++ js "</p>"
  else content.

(* ------------------------------------------------------------------ *)
(** ** What the specification says of the formatter

    The two relations below follow the specification's words, not the code:
    a span is a delimiter, text on one line, and the nearest delimiter
    after it; a double newline is a paragraph break and a newline left
    over is a line break. *)

Definition one_line (x : jsstring) : Prop :=
  Forall (fun c => is_line_terminator c = false) x.

Definition opens_span (d s : jsstring) : Prop :=
  exists x rest, s = d ++ x ++ d ++ rest /\ one_line x.

Inductive spans_marked (d o c : jsstring) : jsstring -> jsstring -> Prop :=
| marked_nil : spans_marked d o c [] []
| marked_span (x rest out : jsstring) :
    one_line x ->
    (forall x' rest', x ++ d ++ rest = x' ++ d ++ rest' -> length x <= length x') ->
    spans_marked d o c rest out ->
    spans_marked d o c (d ++ x ++ d ++ rest) (o ++ x ++ c ++ out)
| marked_char (ch : N) (s out : jsstring) :
    ~ opens_span d (ch :: s) ->
    spans_marked d o c s out ->
    spans_marked d o c (ch :: s) (ch :: out).

Inductive breaks_marked : jsstring -> jsstring -> Prop :=
| breaks_nil : breaks_marked [] []
| breaks_para (s out : jsstring) :
    breaks_marked s out ->
    breaks_marked (newline :: newline :: s) (js "</p><p>" ++ out)
| breaks_line (s out : jsstring) :
    starts_with [newline] s = false ->
    breaks_marked s out ->
    breaks_marked (newline :: s) (js "<br>" ++ out)
| breaks_char (ch : N) (s out : jsstring) :
    ch <> newline ->
    breaks_marked s out ->
    breaks_marked (ch :: s) (ch :: out).

(** The nearest closing delimiter on the line, as a function. *)
Fixpoint find_close (d s : jsstring) : option (jsstring * jsstring) :=
  if starts_with d s then Some ([], skipn (length d) s)
  else
    match s with
    | c :: s' =>
        if is_line_terminator c then None
        else
          match find_close d s' with
          | Some (x, rest) => Some (c :: x, rest)
          | None => None
          end
    | [] => None
    end.

(** The passes of [formatMessage], one by one, and their composition: the
    converted text, before it is wrapped. *)
Definition bold_pass : jsstring -> jsstring :=
  replace_all bold_re [Lit (js "<strong>"); Group1; Lit (js "</strong>")].
Definition italic_pass : jsstring -> jsstring :=
  replace_all italic_re [Lit (js "<em>"); Group1; Lit (js "</em>")].
Definition code_pass : jsstring -> jsstring :=
  replace_all code_re [Lit (js "<code>"); Group1; Lit (js "</code>")].
Definition para_pass : jsstring -> jsstring :=
  replace_all para_re [Lit (js "</p><p>")].
Definition line_pass : jsstring -> jsstring :=
  replace_all line_re [Lit (js "<br>")].

Definition converted (content : jsstring) : jsstring :=
  line_pass (para_pass (code_pass (italic_pass (bold_pass content)))).

(** The output is the converted text inside a paragraph element. *)
Definition wraps (content : jsstring) : Prop :=
  formatMessage content = js "<p>" ++ converted content ++ js "</p>".

(** The example of the specification. *)
Definition example_input : jsstring :=
  js "**bold** and *italic* and `code`" ++ [newline; newline] ++ js "next para".

(** A delimiter pattern: [d (.*?) d] for the literal [c :: d]. *)
Fixpoint seq_re (c : N) (d : jsstring) : regex :=
  match d with
  | [] => Atom (Chr c)
  | c' :: d' => Cat (Atom (Chr c)) (seq_re c' d')
  end.

Definition delim_re (c : N) (d : jsstring) : regex :=
  lits (c :: d) (Cat (Group (LazyStar Dot)) (seq_re c d)).

(* ------------------------------------------------------------------ *)
(** ** JSON values and the JavaScript operations the client applies to them

    A response body is what [response.json()] parsed: a JSON value.  An
    object is its list of properties, one entry per name. *)

(** A number is a double.  The client does three things with one: it tests
    it (0 and NaN are false), it compares it with 0, and it prints it; a
    number is given here by what each of the three yields, so that every
    number a response can hold (a fraction, 1e21, an overflow to Infinity)
    has its own behaviour and no arithmetic on doubles is assumed. *)
Record number : Type := {
  num_zero : bool;          (* ToBoolean is false *)
  num_positive : bool;      (* [x > 0] *)
  num_text : jsstring       (* Number::toString *)
}.

(** The length of a string or of an array. *)
Definition count (n : nat) : number :=
  {| num_zero := Nat.eqb n 0;
     num_positive := Nat.ltb 0 n;
     num_text := decimal (Z.of_nat n) |}.

#[warnings="-register-all"]
Inductive json : Type :=
| JNull
| JBool (b : bool)
| JNum (x : number)
| JStr (s : jsstring)
| JArr (items : list json)
| JObj (fields : list (jsstring * json)).

(** A JavaScript value of the client: a JSON value, or [undefined]. *)
Definition jsval := option json.
Definition undefined : jsval := None.
Definition str (s : string) : jsval := Some (JStr (js s)).

Fixpoint lookup (k : jsstring) (fields : list (jsstring * json)) : jsval :=
  match fields with
  | [] => undefined
  | (k', v) :: fs => if str_eqb k k' then Some v else lookup k fs
  end.

(** An expression either has a value or throws a TypeError. *)
Inductive result (A : Type) : Type :=
| Ok (a : A)
| TypeError.
Arguments Ok {A} a.
Arguments TypeError {A}.

(** [v.k], for the property names the client reads ([status], [response],
    [message], [rag_available], [vertex_ai_initialized], [history], [length],
    [role]): reading a property of [null] or [undefined] throws; a string and
    an array have a [length]; anything else has only its own properties. *)
Definition get (v : jsval) (k : jsstring) : result jsval :=
  match v with
  | None | Some JNull => TypeError
  | Some (JObj fs) => Ok (lookup k fs)
  | Some (JArr l) =>
      Ok (if str_eqb k (js "length") then Some (JNum (count (length l))) else undefined)
  | Some (JStr s) =>
      Ok (if str_eqb k (js "length") then Some (JNum (count (length s))) else undefined)
  | Some (JBool _) | Some (JNum _) => Ok undefined
  end.

(** ToBoolean *)
Definition truthy (v : jsval) : bool :=
  match v with
  | None | Some JNull => false
  | Some (JBool b) => b
  | Some (JNum x) => negb (num_zero x)
  | Some (JStr s) => match s with [] => false | _ => true end
  | Some (JArr _) | Some (JObj _) => true
  end.

(** [v === 'lit'] *)
Definition is_string (v : jsval) (lit : string) : bool :=
  match v with
  | Some (JStr s) => str_eqb s (js lit)
  | _ => false
  end.

(** [a || b] *)
Definition or_else (a b : jsval) : jsval := if truthy a then a else b.

(** Whether an object has a property of its own of that name. *)
Definition has_own (name : string) (fields : list (jsstring * json)) : bool :=
  match lookup (js name) fields with
  | Some _ => true
  | None => false
  end.

(** ToString, as a template literal and [textContent] apply it.  An array
    joins the strings of its items ([null] gives none); an object is printed
    by [Object.prototype.toString], unless it has a [toString] of its own:
    no JSON value is a function, so the conversion then finds nothing to
    call and throws. *)
Fixpoint ToString_json (j : json) : result jsstring :=
  match j with
  | JNull => Ok (js "null")
  | JBool true => Ok (js "true")
  | JBool false => Ok (js "false")
  | JNum x => Ok (num_text x)
  | JStr s => Ok s
  | JArr l =>
      (fix join (l : list json) : result jsstring :=
         match l with
         | [] => Ok []
         | e :: l' =>
             match match e with JNull => Ok [] | _ => ToString_json e end with
             | TypeError => TypeError
             | Ok a =>
                 match l' with
                 | [] => Ok a
                 | _ :: _ =>
                     match join l' with
                     | TypeError => TypeError
                     | Ok b => Ok (a ++ js "," ++ b)
                     end
                 end
             end
         end) l
  | JObj fields =>
      if has_own "toString" fields then TypeError else Ok (js "[object Object]")
  end.

Definition ToString (v : jsval) : result jsstring :=
  match v with
  | None => Ok (js "undefined")
  | Some j => ToString_json j
  end.

(** The string of a value that has one (the callers test [ToString] before
    they use it). *)
Definition to_string (v : jsval) : jsstring :=
  match ToString v with
  | Ok text => text
  | TypeError => []
  end.

(** What assigning [v] to [textContent] shows: nothing for [null] and
    [undefined], the string of [v] otherwise. *)
Definition text_content (v : jsval) : jsstring :=
  match v with
  | None | Some JNull => []
  | Some _ => to_string v
  end.

(** Whether [textContent = v] returns: it throws when [v] has no string. *)
Definition has_text (v : jsval) : bool :=
  match v with
  | None | Some JNull => true
  | Some j => match ToString_json j with Ok _ => true | TypeError => false end
  end.

(* ------------------------------------------------------------------ *)
(** ** The page *)

(** An element that the browser parsed from a string assigned to
    [innerHTML]: its id, its class and its children (text is left out; the
    script looks elements up by id and by class only). *)
#[warnings="-register-all"]
Inductive node : Type :=
| Node (id : option jsstring) (className : jsstring) (children : list node).

Definition node_id (n : node) : option jsstring :=
  match n with Node id _ _ => id end.

Definition node_className (n : node) : jsstring :=
  match n with Node _ className _ => className end.

Definition node_children (n : node) : list node :=
  match n with Node _ _ children => children end.

(** What the script wrote to the [innerHTML] of an element of the message
    container. *)
Inductive markup : Type :=
| PageMarkup                       (* written in the page, not by the script *)
| MessageMarkup (user_avatar : bool) (messageClass body time : jsstring)
| TypingMarkup.

(** An element of the message container: [el_inner] is what was written to
    its [innerHTML], [el_children] the elements that were parsed from it and
    are still there. *)
Record element : Type := {
  el_id : option jsstring;
  el_className : jsstring;
  el_inner : markup;
  el_children : list node
}.

Definition with_children (children : list node) (e : element) : element :=
  {| el_id := el_id e; el_className := el_className e; el_inner := el_inner e;
     el_children := children |}.

(** The class names of an element: its [className] split at ASCII whitespace. *)
Definition is_ascii_space (c : N) : bool :=
  N.eqb c 32 || N.eqb c 9 || N.eqb c 10 || N.eqb c 12 || N.eqb c 13.

Fixpoint class_tokens (cur : jsstring) (s : jsstring) : list jsstring :=
  match s with
  | [] => match cur with [] => [] | _ => [cur] end
  | c :: s' =>
      if is_ascii_space c
      then match cur with [] => class_tokens [] s' | _ => cur :: class_tokens [] s' end
      else class_tokens (cur ++ [c]) s'
  end.

(** The selector [.cls] *)
Definition has_class (cls : string) (e : element) : bool :=
  existsb (str_eqb (js cls)) (class_tokens [] (el_className e)).

Definition node_has_class (cls : string) (n : node) : bool :=
  existsb (str_eqb (js cls)) (class_tokens [] (node_className n)).

Definition node_has_id (id : jsstring) (n : node) : bool :=
  match node_id n with
  | Some i => str_eqb i id
  | None => false
  end.

(** The first element in tree order that satisfies [p]: in an element and
    below it, and in a sequence of siblings. *)
Fixpoint find_node (p : node -> bool) (n : node) : option node :=
  if p n then Some n
  else
    match n with
    | Node _ _ children =>
        (fix find_first (l : list node) : option node :=
           match l with
           | [] => None
           | c :: l' =>
               match find_node p c with
               | Some x => Some x
               | None => find_first l'
               end
           end) children
    end.

Fixpoint find_nodes (p : node -> bool) (l : list node) : option node :=
  match l with
  | [] => None
  | c :: l' =>
      match find_node p c with
      | Some x => Some x
      | None => find_nodes p l'
      end
  end.

(** [x.remove()] for that first element [x]: the tree without it and what
    is below it. *)
Fixpoint remove_below (p : node -> bool) (n : node) : node :=
  match n with
  | Node id className children =>
      Node id className
        ((fix remove_first_of (l : list node) : list node :=
            match l with
            | [] => []
            | c :: l' =>
                if p c then l'
                else
                  match find_node p c with
                  | Some _ => remove_below p c :: l'
                  | None => c :: remove_first_of l'
                  end
            end) children)
  end.

Fixpoint remove_nodes (p : node -> bool) (l : list node) : list node :=
  match l with
  | [] => []
  | c :: l' =>
      if p c then l'
      else
        match find_node p c with
        | Some _ => remove_below p c :: l'
        | None => c :: remove_nodes p l'
        end
  end.

(** [querySelectorAll('.message')] over an element and what is below it,
    and [remove()] on every element found but the first: what is left, the
    elements removed, in tree order, and whether an element of the class
    was met.  [seen] tells whether one was met before.  An element below an
    element that is removed is found and removed as well. *)
Fixpoint prune (seen : bool) (n : node) : option node * list node * bool :=
  match n with
  | Node id className children =>
      let prune_siblings :=
        fix prune_siblings (seen : bool) (l : list node)
            : list node * list node * bool :=
          match l with
          | [] => ([], [], seen)
          | c :: l' =>
              match prune seen c with
              | (c', removed1, seen1) =>
                  match prune_siblings seen1 l' with
                  | (l'', removed2, seen2) =>
                      (match c' with Some x => x :: l'' | None => l'' end,
                       removed1 ++ removed2, seen2)
                  end
              end
          end in
      if existsb (str_eqb (js "message")) (class_tokens [] className) then
        match prune_siblings true children with
        | (children', removed, _) =>
            if seen then (None, n :: removed, true)
            else (Some (Node id className children'), removed, true)
        end
      else
        match prune_siblings seen children with
        | (children', removed, seen') =>
            (Some (Node id className children'), removed, seen')
        end
  end.

(** The same over a sequence of siblings. *)
Fixpoint prune_all (seen : bool) (l : list node) : list node * list node * bool :=
  match l with
  | [] => ([], [], seen)
  | c :: l' =>
      match prune seen c with
      | (c', removed1, seen1) =>
          match prune_all seen1 l' with
          | (l'', removed2, seen2) =>
              (match c' with Some x => x :: l'' | None => l'' end,
               removed1 ++ removed2, seen2)
          end
      end
  end.

Record Input : Type := {
  input_value : jsstring;
  input_disabled : bool;
  input_placeholder : jsstring
}.

Record Toast : Type := {
  toast_className : jsstring;
  toast_icon : jsstring;
  toast_message : jsstring;
  toast_show : bool               (* the class [show] *)
}.

(** A request under way, with the local variables its continuation uses. *)
Inductive request : Type :=
| StatusRequest
| ChatRequest (typingId message : jsstring)
| ClearRequest
| HistoryRequest.

Inductive failure : Type :=
| NetworkError     (* fetch rejects *)
| ParseError.      (* response.json() rejects: the body is not JSON *)

Inductive outcome : Type :=
| Rejected (e : failure)
| Resolved (data : json).

(** What the script does that the page or the network sees, in order. *)
Inductive effect : Type :=
| Fetch (url method : jsstring) (body : option json)
| ConsoleError (label : jsstring)
| Notified (type message : jsstring)          (* showToast *)
| Appended (e : element)                      (* appendChild *)
| Removed (e : element)                       (* element.remove() *)
| Detached (n : node)                         (* the same, on a parsed element *)
| TypingFlag (b : bool).                      (* this.isTyping = b *)

(** The fields of the [CementGPT] object, the elements it is bound to, and
    the browser around them: the clock, the timers set, the requests under
    way and the effects so far.  The script finds the elements of the page
    (the field, the button, the indicator, the container, the toast) by
    their ids at every call; the state holds the elements of the page's own
    markup, which the lookup is taken to meet first.  [panel_nodes] holds the
    elements parsed from the markup of the corpus panel, which a lookup by
    the id of a placeholder can meet. *)
Record State : Type := {
  isTyping : bool;
  conversationHistory : jsval;
  systemStatus : jsstring;
  messageInput : Input;
  sendBtn_disabled : bool;
  statusIndicator : jsstring * jsstring;       (* className, text *)
  messagesContainer : list element;
  panel_nodes : list node;                     (* the elements in #corporaList *)
  toast : Toast;
  now : Z;                                     (* Date.now() *)
  timers : list Z;                             (* due times of setTimeout *)
  pending : list request;
  trace : list effect
}.

Definition set_isTyping (b : bool) (s : State) : State :=
  {| isTyping := b; conversationHistory := conversationHistory s;
     systemStatus := systemStatus s; messageInput := messageInput s;
     sendBtn_disabled := sendBtn_disabled s; statusIndicator := statusIndicator s;
     messagesContainer := messagesContainer s; panel_nodes := panel_nodes s;
     toast := toast s; now := now s;
     timers := timers s; pending := pending s;
     trace := trace s ++ [TypingFlag b] |}.

Definition set_conversationHistory (h : jsval) (s : State) : State :=
  {| isTyping := isTyping s; conversationHistory := h;
     systemStatus := systemStatus s; messageInput := messageInput s;
     sendBtn_disabled := sendBtn_disabled s; statusIndicator := statusIndicator s;
     messagesContainer := messagesContainer s; panel_nodes := panel_nodes s;
     toast := toast s; now := now s;
     timers := timers s; pending := pending s; trace := trace s |}.

Definition set_messageInput (i : Input) (s : State) : State :=
  {| isTyping := isTyping s; conversationHistory := conversationHistory s;
     systemStatus := systemStatus s; messageInput := i;
     sendBtn_disabled := sendBtn_disabled s; statusIndicator := statusIndicator s;
     messagesContainer := messagesContainer s; panel_nodes := panel_nodes s;
     toast := toast s; now := now s;
     timers := timers s; pending := pending s; trace := trace s |}.

Definition set_sendBtn_disabled (b : bool) (s : State) : State :=
  {| isTyping := isTyping s; conversationHistory := conversationHistory s;
     systemStatus := systemStatus s; messageInput := messageInput s;
     sendBtn_disabled := b; statusIndicator := statusIndicator s;
     messagesContainer := messagesContainer s; panel_nodes := panel_nodes s;
     toast := toast s; now := now s;
     timers := timers s; pending := pending s; trace := trace s |}.

Definition set_statusIndicator (i : jsstring * jsstring) (s : State) : State :=
  {| isTyping := isTyping s; conversationHistory := conversationHistory s;
     systemStatus := systemStatus s; messageInput := messageInput s;
     sendBtn_disabled := sendBtn_disabled s; statusIndicator := i;
     messagesContainer := messagesContainer s; panel_nodes := panel_nodes s;
     toast := toast s; now := now s;
     timers := timers s; pending := pending s; trace := trace s |}.

Definition set_messagesContainer (l : list element) (s : State) : State :=
  {| isTyping := isTyping s; conversationHistory := conversationHistory s;
     systemStatus := systemStatus s; messageInput := messageInput s;
     sendBtn_disabled := sendBtn_disabled s; statusIndicator := statusIndicator s;
     messagesContainer := l; panel_nodes := panel_nodes s; toast := toast s;
     now := now s;
     timers := timers s; pending := pending s; trace := trace s |}.

Definition set_toast (t : Toast) (s : State) : State :=
  {| isTyping := isTyping s; conversationHistory := conversationHistory s;
     systemStatus := systemStatus s; messageInput := messageInput s;
     sendBtn_disabled := sendBtn_disabled s; statusIndicator := statusIndicator s;
     messagesContainer := messagesContainer s; panel_nodes := panel_nodes s;
     toast := t; now := now s;
     timers := timers s; pending := pending s; trace := trace s |}.

Definition set_clock (t : Z) (due : list Z) (s : State) : State :=
  {| isTyping := isTyping s; conversationHistory := conversationHistory s;
     systemStatus := systemStatus s; messageInput := messageInput s;
     sendBtn_disabled := sendBtn_disabled s; statusIndicator := statusIndicator s;
     messagesContainer := messagesContainer s; panel_nodes := panel_nodes s;
     toast := toast s; now := t;
     timers := due; pending := pending s; trace := trace s |}.

Definition set_pending (p : list request) (s : State) : State :=
  {| isTyping := isTyping s; conversationHistory := conversationHistory s;
     systemStatus := systemStatus s; messageInput := messageInput s;
     sendBtn_disabled := sendBtn_disabled s; statusIndicator := statusIndicator s;
     messagesContainer := messagesContainer s; panel_nodes := panel_nodes s;
     toast := toast s; now := now s;
     timers := timers s; pending := p; trace := trace s |}.

Definition set_panel_nodes (l : list node) (s : State) : State :=
  {| isTyping := isTyping s; conversationHistory := conversationHistory s;
     systemStatus := systemStatus s; messageInput := messageInput s;
     sendBtn_disabled := sendBtn_disabled s; statusIndicator := statusIndicator s;
     messagesContainer := messagesContainer s; panel_nodes := l; toast := toast s;
     now := now s; timers := timers s; pending := pending s; trace := trace s |}.

Definition log (e : effect) (s : State) : State :=
  {| isTyping := isTyping s; conversationHistory := conversationHistory s;
     systemStatus := systemStatus s; messageInput := messageInput s;
     sendBtn_disabled := sendBtn_disabled s; statusIndicator := statusIndicator s;
     messagesContainer := messagesContainer s; panel_nodes := panel_nodes s;
     toast := toast s; now := now s;
     timers := timers s; pending := pending s; trace := trace s ++ [e] |}.

(* ------------------------------------------------------------------ *)
(** ** Statements that may throw

    A block of the source runs on a state and ends normally or by a thrown
    exception; what it did to the page before the throw stays done. *)

Inductive completion (A : Type) : Type :=
| Ret (a : A) (s : State)
| Exc (s : State).
Arguments Ret {A} a s.
Arguments Exc {A} s.

Definition M (A : Type) : Type := State -> completion A.

Definition ret {A} (a : A) : M A := fun s => Ret a s.
Definition throw {A} : M A := fun s => Exc s.
Definition bind {A B} (m : M A) (f : A -> M B) : M B :=
  fun s => match m s with
           | Ret a s' => f a s'
           | Exc s' => Exc s'
           end.

#[local] Notation "x <- m ;; k" := (bind m (fun x => k))
  (at level 61, m at next level, right associativity).
#[local] Notation "m ;; k" := (bind m (fun _ => k))
  (at level 61, right associativity).

(** A statement that cannot throw. *)
Definition exec_ (f : State -> State) : M unit := fun s => Ret tt (f s).

(** An expression that may throw. *)
Definition eval {A} (r : result A) : M A :=
  match r with
  | Ok a => ret a
  | TypeError => throw
  end.

(** [try { body } catch (error) { handler }] *)
Definition try_catch (body handler : M unit) : M unit :=
  fun s => match body s with
           | Ret a s' => Ret a s'
           | Exc s' => handler s'
           end.

(** [... finally { final }] *)
Definition finally (body final : M unit) : M unit :=
  fun s => match body s with
           | Ret _ s' => final s'
           | Exc s' => match final s' with
                       | Ret _ s'' => Exc s''
                       | Exc s'' => Exc s''
                       end
           end.

(** The state an [async] method leaves, returned or rejected (nothing in the
    source looks at the promise of a method). *)
Definition settle (m : M unit) (s : State) : State :=
  match m s with
  | Ret _ s' => s'
  | Exc s' => s'
  end.

(** [await fetch(...)] then [await response.json()], once both are over:
    the data, or the exception of either. *)
Definition response_json (o : outcome) : M jsval :=
  match o with
  | Rejected _ => throw
  | Resolved data => ret (Some data)
  end.

(* ------------------------------------------------------------------ *)
(** ** The class [CementGPT]

    First the chat; the corpus dialog ([showCorpusModal], [refreshCorpora],
    [createCorpus], [addDocument], the loading overlay), which shares no
    field with it, follows on a state of its own.  Layout is not modelled
    ([scrollToBottom], and the [scrollHeight] that [autoResizeInput] reads). *)

Section Client.

(** The browser's renderings of a clock reading, [new Date().toISOString()]
    and [new Date().toLocaleTimeString()] (the latter depends on the locale). *)
Variable toISOString : Z -> jsstring.
Variable toLocaleTimeString : Z -> jsstring.

(** Whether the number a string converts to (ECMAScript StringToNumber, a
    floating-point value) is greater than 0. *)
Variable string_gt_zero : jsstring -> bool.

(** The browser's HTML parser: the elements that a string assigned to the
    [innerHTML] of a [div] is parsed into. *)
Variable parse_html : jsstring -> list node.

(** Whether the corpus panel comes before the message container in the
    document (the markup of the page decides; it is not part of the script). *)
Variable panel_first : bool.

(** [v > 0]: an array and an object are converted to a string first, which
    can throw as [ToString] does. *)
Definition gt_zero (v : jsval) : result bool :=
  match v with
  | None => Ok false                     (* NaN *)
  | Some JNull => Ok false               (* 0 *)
  | Some (JBool b) => Ok b               (* 0 or 1 *)
  | Some (JNum x) => Ok (num_positive x)
  | Some (JStr s) => Ok (string_gt_zero s)
  | Some (JArr l) =>
      match ToString_json (JArr l) with
      | Ok text => Ok (string_gt_zero text)
      | TypeError => TypeError
      end
  | Some (JObj fields) =>
      if has_own "toString" fields then TypeError
      else Ok false                      (* "[object Object]" is NaN *)
  end.

Definition fetch (url method : string) (body : option json) (r : request)
    (s : State) : State :=
  set_pending (pending s ++ [r]) (log (Fetch (js url) (js method) body) s).

Definition console_error (label : string) : M unit :=
  exec_ (log (ConsoleError (js label))).

(** [updateStatusIndicator(status, message)] *)
Definition updateStatusIndicator (status message : string) (s : State) : State :=
  set_statusIndicator (js "status-indicator " ++ js status, js message) s.

(** [enableChat()] *)
Definition enableChat (s : State) : State :=
  set_sendBtn_disabled false
    (set_messageInput
       {| input_value := input_value (messageInput s);
          input_disabled := false;
          input_placeholder := js "Ask me about your documents or manage your corpora..." |}
       s).

(** [disableChat()] *)
Definition disableChat (s : State) : State :=
  set_sendBtn_disabled true
    (set_messageInput
       {| input_value := input_value (messageInput s);
          input_disabled := true;
          input_placeholder := js "System is not ready. Please check configuration." |}
       s).

(** The [icons] table of [showToast]. *)
Definition icons : list (jsstring * json) :=
  [ (js "success", JStr (js "fas fa-check-circle"));
    (js "error", JStr (js "fas fa-exclamation-circle"));
    (js "warning", JStr (js "fas fa-exclamation-triangle"));
    (js "info", JStr (js "fas fa-info-circle")) ].

(** [showToast(type, message)]: the toast element is rewritten and shown, and
    a timer is set that hides it 5000 ms later. *)
Definition showToast (type : string) (message : jsval) (s : State) : State :=
  let t :=
    {| toast_className := js "toast " ++ js type;
       toast_icon := js "toast-icon " ++
                     to_string (or_else (lookup (js type) icons) (lookup (js "info") icons));
       toast_message := text_content message;
       toast_show := true |} in
  set_clock (now s) (timers s ++ [(now s + 5000)%Z])
    (log (Notified (js type) (text_content message)) (set_toast t s)).

(** [showToast(type, message)] where [message] is a value of the server:
    [textContent = message] throws when the value has no string; the icon
    is set by then, and nothing else of the toast. *)
Definition showToast_icon (type : string) (s : State) : State :=
  set_toast
    {| toast_className := toast_className (toast s);
       toast_icon :=
         js "toast-icon " ++
         to_string (or_else (lookup (js type) icons) (lookup (js "info") icons));
       toast_message := toast_message (toast s);
       toast_show := toast_show (toast s) |} s.

Definition showToast_value (type : string) (message : jsval) : M unit :=
  fun s =>
    if has_text message then Ret tt (showToast type message s)
    else Exc (showToast_icon type s).

(** The callback of that timer: [toast.classList.remove('show')]. *)
Definition hideToast (s : State) : State :=
  set_toast
    {| toast_className := toast_className (toast s);
       toast_icon := toast_icon (toast s);
       toast_message := toast_message (toast s);
       toast_show := false |} s.

Definition appendChild (e : element) (s : State) : State :=
  log (Appended e) (set_messagesContainer (messagesContainer s ++ [e]) s).

(** The template literals of [addMessage], unit by unit. *)
Definition quoted (text : jsstring) : jsstring := [34%N] ++ text ++ [34%N].

Definition line (indent : nat) (text : jsstring) : jsstring :=
  repeat 32%N indent ++ text ++ [newline].

Definition avatar_html (user_avatar : bool) : jsstring :=
  js "<i class=" ++
  quoted (if user_avatar then js "fas fa-user" else js "fas fa-robot") ++
  js "></i>".

Definition message_html (user_avatar : bool) (messageClass body time : jsstring)
    : jsstring :=
  [newline] ++
  line 12 (js "<div class=" ++ quoted (js "message-avatar") ++ js ">") ++
  line 16 (avatar_html user_avatar) ++
  line 12 (js "</div>") ++
  line 12 (js "<div class=" ++ quoted (js "message-content") ++ js ">") ++
  line 16 (js "<div class=" ++ quoted messageClass ++ js ">") ++
  line 20 body ++
  line 16 (js "</div>") ++
  line 16 (js "<div class=" ++ quoted (js "message-time") ++ js ">" ++ time ++
           js "</div>") ++
  line 12 (js "</div>") ++
  repeat 32%N 8.

(** The element [addMessage] builds: its class names the role, its markup
    holds the avatar of the role, the class of the text (marked when the
    message is an error), the formatted content and the time of day; its
    children are what the browser parses that markup into, so that a message
    whose text holds tags holds the elements of these tags. *)
Definition message_element (role : jsval) (isError : bool) (content : jsstring)
    (t : Z) : element :=
  let user_avatar := is_string role "user" in
  let messageClass :=
    if isError then js "message-text error-message" else js "message-text" in
  {| el_id := None;
     el_className := js "message " ++ to_string role ++ js "-message";
     el_inner :=
       MessageMarkup user_avatar messageClass (formatMessage content)
         (toLocaleTimeString t);
     el_children :=
       parse_html
         (message_html user_avatar messageClass (formatMessage content)
            (toLocaleTimeString t)) |}.

(** [addMessage(role, content, isError = false)]: the class is a template
    over [role], which throws when [role] has no string, and [formatMessage]
    calls [content.replace], which throws unless [content] is a string;
    nothing has been added to the page by then. *)
Definition addMessage (role content : jsval) (isError : bool) : M unit :=
  fun s =>
    match ToString role, content with
    | Ok _, Some (JStr c) =>
        Ret tt (appendChild (message_element role isError c (now s)) s)
    | _, _ => Exc s
    end.

(** The elements of the markup of [addTypingIndicator], which is constant:
    the avatar with its icon, and the content with the text, the dots and
    their three spans. *)
Definition typing_children : list node :=
  [Node None (js "message-avatar") [Node None (js "fas fa-robot") []];
   Node None (js "message-content")
     [Node None (js "message-text")
        [Node None (js "typing-dots")
           [Node None [] []; Node None [] []; Node None [] []]]]].

Definition typing_element (typingId : jsstring) : element :=
  {| el_id := Some typingId;
     el_className := js "message agent-message typing-indicator";
     el_inner := TypingMarkup;
     el_children := typing_children |}.

(** [addTypingIndicator()] *)
Definition addTypingIndicator (s : State) : jsstring * State :=
  let typingId := js "typing-" ++ decimal (now s) in
  (typingId, appendChild (typing_element typingId) s).

Definition has_id (id : jsstring) (e : element) : bool :=
  match el_id e with
  | Some i => str_eqb i id
  | None => false
  end.

(** Where [document.getElementById] finds an element: it is an element of
    the message container, an element parsed from the markup of one, or an
    element of the corpus panel. *)
Inductive found : Type :=
| InContainer (e : element)
| InMessage (n : node)
| InPanel (n : node).

(** The first element of the container, in tree order, that carries the id. *)
Fixpoint find_in_container (id : jsstring) (l : list element) : option found :=
  match l with
  | [] => None
  | e :: l' =>
      if has_id id e then Some (InContainer e)
      else
        match find_nodes (node_has_id id) (el_children e) with
        | Some n => Some (InMessage n)
        | None => find_in_container id l'
        end
  end.

(** The container without that element. *)
Fixpoint remove_in_container (id : jsstring) (l : list element) : list element :=
  match l with
  | [] => []
  | e :: l' =>
      if has_id id e then l'
      else
        match find_nodes (node_has_id id) (el_children e) with
        | Some _ =>
            with_children (remove_nodes (node_has_id id) (el_children e)) e :: l'
        | None => e :: remove_in_container id l'
        end
  end.

(** [document.getElementById(id)] for an id of a typing indicator: the first
    element of the document, in tree order, that carries it.  The document
    holds text of the user and of the server in two places, both written
    through [innerHTML]: the messages and the corpus panel.  The other
    elements of the page are its own markup, with ids of their own, none of
    them [typing-...]. *)
Definition getElementById (id : jsstring) (s : State) : option found :=
  let in_panel :=
    match find_nodes (node_has_id id) (panel_nodes s) with
    | Some n => Some (InPanel n)
    | None => None
    end in
  if panel_first then
    match in_panel with
    | Some x => Some x
    | None => find_in_container id (messagesContainer s)
    end
  else
    match find_in_container id (messagesContainer s) with
    | Some x => Some x
    | None => in_panel
    end.


(** [removeTypingIndicator(typingId)] *)
Definition removeTypingIndicator (typingId : jsstring) (s : State) : State :=
  match getElementById typingId s with
  | Some (InContainer typingElement) =>
      log (Removed typingElement)
        (set_messagesContainer
           (remove_in_container typingId (messagesContainer s)) s)
  | Some (InMessage typingElement) =>
      log (Detached typingElement)
        (set_messagesContainer
           (remove_in_container typingId (messagesContainer s)) s)
  | Some (InPanel typingElement) =>
      log (Detached typingElement)
        (set_panel_nodes (remove_nodes (node_has_id typingId) (panel_nodes s)) s)
  | None => s
  end.

(** [sendMessage()], up to the request. *)
Definition sendMessage (s : State) : State :=
  let message := trim (input_value (messageInput s)) in
  if negb (truthy (Some (JStr message))) || isTyping s then s
  else
    settle
      (exec_ (set_messageInput
                {| input_value := [];
                   input_disabled := input_disabled (messageInput s);
                   input_placeholder := input_placeholder (messageInput s) |}) ;;
       addMessage (str "user") (Some (JStr message)) false ;;
       exec_ (set_isTyping true) ;;
       exec_ (fun s1 =>
                let (typingId, s2) := addTypingIndicator s1 in
                fetch "/api/chat" "POST" (Some (JObj [(js "message", JStr message)]))
                  (ChatRequest typingId message) s2))
      s.

(** [this.conversationHistory.push(a, b)] *)
Definition push (a b : json) : M unit :=
  fun s =>
    match conversationHistory s with
    | Some (JArr l) => Ret tt (set_conversationHistory (Some (JArr (l ++ [a; b]))) s)
    | _ => Exc s
    end.

Definition history_entry (role : string) (message : jsval) (t : Z) : json :=
  JObj ((js "role", JStr (js role)) ::
        match message with
        | Some m => [(js "message", m)]
        | None => []
        end ++
        [(js "timestamp", JStr (toISOString t))]).

(** [sendMessage()], from the response on. *)
Definition sendMessage_resume (typingId message : jsstring) (o : outcome) : M unit :=
  finally
    (try_catch
       (data <- response_json o ;;
        exec_ (removeTypingIndicator typingId) ;;
        status <- eval (get data (js "status")) ;;
        if is_string status "success" then
          response <- eval (get data (js "response")) ;;
          addMessage (str "agent") response false ;;
          (fun s =>
             push (history_entry "user" (Some (JStr message)) (now s))
                  (history_entry "agent" response (now s)) s)
        else
          reason <- eval (get data (js "message")) ;;
          text <- eval (ToString reason) ;;
          addMessage (str "agent") (Some (JStr (js "Error: " ++ text))) true ;;
          showToast_value "error" reason)
       (console_error "Chat error:" ;;
        exec_ (removeTypingIndicator typingId) ;;
        addMessage (str "agent")
          (str "Sorry, I encountered an error processing your request. Please try again.")
          true ;;
        exec_ (showToast "error" (str "Failed to send message"))))
    (exec_ (set_isTyping false)).

(** [sendSuggestion(message)].  [message] stands for the text the field
    reports once it was assigned: a field keeps what it is given but for the
    line ends, which it normalises; the suggestions of the page hold none. *)
Definition sendSuggestion (message : jsstring) (s : State) : State :=
  sendMessage
    (set_messageInput
       {| input_value := message;
          input_disabled := input_disabled (messageInput s);
          input_placeholder := input_placeholder (messageInput s) |} s).

(** [checkSystemStatus()], up to the request. *)
Definition checkSystemStatus (s : State) : State :=
  fetch "/api/status" "GET" None StatusRequest s.

(** [checkSystemStatus()], from the response on. *)
Definition checkSystemStatus_resume (o : outcome) : M unit :=
  try_catch
    (data <- response_json o ;;
     rag <- eval (get data (js "rag_available")) ;;
     ready <- (if truthy rag
               then v <- eval (get data (js "vertex_ai_initialized")) ;; ret (truthy v)
               else ret false) ;;
     if ready : bool then
       exec_ (updateStatusIndicator "online" "System Ready") ;;
       exec_ enableChat
     else
       exec_ (updateStatusIndicator "offline" "System Unavailable") ;;
       exec_ disableChat ;;
       reason <- eval (get data (js "message")) ;;
       showToast_value "error" (or_else reason (str "System is not ready")))
    (console_error "Status check failed:" ;;
     exec_ (updateStatusIndicator "offline" "Connection Failed") ;;
     exec_ disableChat ;;
     exec_ (showToast "error" (str "Failed to connect to server"))).

(** [messagesContainer.querySelectorAll('.message')] with every element but
    the first of them removed: what stays, and the calls of [remove()], in
    the order of the list, which is tree order.  The list holds the elements
    of the container and the elements parsed from the markup of messages
    alike; one below an element that was removed is removed from it. *)
Fixpoint keep_first_message (seen : bool) (l : list element)
    : list element * list effect :=
  match l with
  | [] => ([], [])
  | e :: l' =>
      if has_class "message" e then
        match prune_all true (el_children e) with
        | (children, inner, _) =>
            let (kept, removed) := keep_first_message true l' in
            if seen then (kept, Removed e :: map Detached inner ++ removed)
            else (with_children children e :: kept, map Detached inner ++ removed)
        end
      else
        match prune_all seen (el_children e) with
        | (children, inner, seen') =>
            let (kept, removed) := keep_first_message seen' l' in
            (with_children children e :: kept, map Detached inner ++ removed)
        end
  end.

Definition remove_messages (s : State) : State :=
  let (kept, removed) := keep_first_message false (messagesContainer s) in
  fold_left (fun s e => log e s) removed (set_messagesContainer kept s).

(** [clearConversation()], up to the request; [confirmed] is the answer to
    the [confirm] dialog. *)
Definition clearConversation (confirmed : bool) (s : State) : State :=
  if negb confirmed then s
  else fetch "/api/clear-conversation" "POST" None ClearRequest s.

(** [clearConversation()], from the response on. *)
Definition clearConversation_resume (o : outcome) : M unit :=
  try_catch
    (data <- response_json o ;;
     status <- eval (get data (js "status")) ;;
     if is_string status "success" then
       exec_ remove_messages ;;
       exec_ (set_conversationHistory (Some (JArr []))) ;;
       exec_ (showToast "success" (str "Conversation cleared"))
     else ret tt)
    (console_error "Clear conversation error:" ;;
     exec_ (showToast "error" (str "Failed to clear conversation"))).

(** [loadConversationHistory()], up to the request. *)
Definition loadConversationHistory (s : State) : State :=
  fetch "/api/conversation-history" "GET" None HistoryRequest s.

(** [history.forEach(f)]: only an array has the method. *)
Fixpoint for_each (f : json -> M unit) (l : list json) : M unit :=
  match l with
  | [] => ret tt
  | item :: l' => f item ;; for_each f l'
  end.

Definition forEach (history : jsval) (f : json -> M unit) : M unit :=
  match history with
  | Some (JArr l) => for_each f l
  | _ => throw
  end.

(** [loadConversationHistory()], from the response on. *)
Definition loadConversationHistory_resume (o : outcome) : M unit :=
  try_catch
    (data <- response_json o ;;
     status <- eval (get data (js "status")) ;;
     nonempty <- (if is_string status "success"
                  then history <- eval (get data (js "history")) ;;
                       n <- eval (get history (js "length")) ;;
                       eval (gt_zero n)
                  else ret false) ;;
     if nonempty : bool then
       history <- eval (get data (js "history")) ;;
       exec_ (set_conversationHistory history) ;;
       forEach history
         (fun item =>
            role <- eval (get (Some item) (js "role")) ;;
            message <- eval (get (Some item) (js "message")) ;;
            addMessage role message false)
     else ret tt)
    (console_error "Load history error:").

(** *** The page as loaded, and the constructor *)

(** What the page's markup decides and the script does not. *)
Record Page : Type := {
  page_messageInput : Input;
  page_sendBtn_disabled : bool;
  page_statusIndicator : jsstring * jsstring;
  page_toast : Toast;
  page_time : Z
}.

(** Modelled from the spec: the page's markup (it is not under src/), of
    which the specification says that the first rendered message is a fixed
    welcome message; like every message it is an element of class [message].
    Of the elements inside it none is taken to carry an id of a typing
    indicator or the class [message]; they are left out. *)
Definition welcome : element :=
  {| el_id := None;
     el_className := js "message agent-message";
     el_inner := PageMarkup;
     el_children := [] |}.

(** [new CementGPT()] (the listeners it installs are the events of [step]). *)
Definition new_CementGPT (page : Page) : State :=
  loadConversationHistory
    (checkSystemStatus
       {| isTyping := false;
          conversationHistory := Some (JArr []);
          systemStatus := js "checking";
          messageInput := page_messageInput page;
          sendBtn_disabled := page_sendBtn_disabled page;
          statusIndicator := page_statusIndicator page;
          messagesContainer := [welcome];
          panel_nodes := [];
          toast := page_toast page;
          now := page_time page;
          timers := [];
          pending := [];
          trace := [] |}).

(** *** The event loop *)

Inductive event : Type :=
| Typed (text : jsstring)            (* the user edits the input field *)
| EnterKey                           (* keypress Enter, without Shift *)
| SendClick                          (* click on the send button *)
| SuggestionClick (message : jsstring)   (* onclick="sendSuggestion(...)" *)
| ClearClick (confirmed : bool)      (* click on the clear button *)
| Settles (i : nat) (o : outcome)    (* the i-th request under way is over *)
| Elapses (ms : N).                  (* time passes *)

Definition resume (r : request) (o : outcome) : M unit :=
  match r with
  | StatusRequest => checkSystemStatus_resume o
  | ChatRequest typingId message => sendMessage_resume typingId message o
  | ClearRequest => clearConversation_resume o
  | HistoryRequest => loadConversationHistory_resume o
  end.

Fixpoint remove_nth {A} (i : nat) (l : list A) : list A :=
  match l, i with
  | [], _ => []
  | _ :: l', O => l'
  | x :: l', S i' => x :: remove_nth i' l'
  end.

(** Time passes: the timers that fall due run. *)
Definition elapse (ms : N) (s : State) : State :=
  let t := (now s + Z.of_N ms)%Z in
  let s' := set_clock t (filter (fun due => Z.ltb t due) (timers s)) s in
  if existsb (fun due => Z.leb due t) (timers s) then hideToast s' else s'.

(** One turn of the event loop.  A disabled field takes no input and a
    disabled button no click: the browser does not run their listeners. *)
Definition step (e : event) (s : State) : State :=
  match e with
  | Typed text =>
      if input_disabled (messageInput s) then s
      else set_messageInput
             {| input_value := text;
                input_disabled := false;
                input_placeholder := input_placeholder (messageInput s) |} s
  | EnterKey => if input_disabled (messageInput s) then s else sendMessage s
  | SendClick => if sendBtn_disabled s then s else sendMessage s
  | SuggestionClick message => sendSuggestion message s
  | ClearClick confirmed => clearConversation confirmed s
  | Settles i o =>
      match nth_error (pending s) i with
      | Some r => settle (resume r o) (set_pending (remove_nth i (pending s)) s)
      | None => s
      end
  | Elapses ms => elapse ms s
  end.

Definition run_events (es : list event) (s : State) : State :=
  fold_left (fun s e => step e s) es s.

Inductive reachable (page : Page) : State -> Prop :=
| reach_new : reachable page (new_CementGPT page)
| reach_step (e : event) (s : State) :
    reachable page s -> reachable page (step e s).

(** *** The words of the claims *)

(** A property of the response object, as the specification's table of
    endpoints names it; a response that is no object has none. *)
Definition field (data : json) (name : string) : jsval :=
  match data with
  | JObj fs => lookup (js name) fs
  | _ => undefined
  end.

(** The status response reports both readiness flags true. *)
Definition status_ready (o : outcome) : bool :=
  match o with
  | Resolved data =>
      truthy (field data "rag_available") && truthy (field data "vertex_ai_initialized")
  | Rejected _ => false
  end.


Definition chat_enabled (s : State) : bool :=
  negb (input_disabled (messageInput s)) && negb (sendBtn_disabled s).

Definition is_chat (r : request) : bool :=
  match r with
  | ChatRequest _ _ => true
  | _ => false
  end.

(** The typing placeholder: what [addTypingIndicator] builds. *)
Definition is_placeholder (e : element) : bool :=
  match el_inner e with
  | TypingMarkup => true
  | _ => false
  end.

Definition is_array (v : jsval) : Prop := exists l, v = Some (JArr l).

(** The rendered messages: the elements [.message] of the container but
    the typing placeholder. *)
Definition transcript (s : State) : list element :=
  filter (fun e => has_class "message" e && negb (is_placeholder e))
    (messagesContainer s).

Definition chat_requests (t : list effect) : list effect :=
  filter (fun e => match e with
                   | Fetch url _ _ => str_eqb url (js "/api/chat")
                   | _ => false
                   end) t.

Definition notifications (t : list effect) : list effect :=
  filter (fun e => match e with Notified _ _ => true | _ => false end) t.


(** What the [catch] block of [sendMessage] does. *)
Definition chat_failed (typingId : jsstring) (s : State) : State :=
  let s1 := removeTypingIndicator typingId (log (ConsoleError (js "Chat error:")) s) in
  showToast "error" (str "Failed to send message")
    (appendChild
       (message_element (str "agent") true
          (js "Sorry, I encountered an error processing your request. Please try again.")
          (now s1))
       s1).

(** *** What holds of every state the client reaches *)

Definition placeholders (s : State) : list element :=
  filter is_placeholder (messagesContainer s).

(** One send at a time: the flag is set exactly while one chat request is
    under way, and the only placeholder the page can show is that request's. *)
Definition single_flight (s : State) : Prop :=
  match filter is_chat (pending s) with
  | [] => isTyping s = false /\ placeholders s = []
  | [ChatRequest typingId _] =>
      isTyping s = true /\
      (placeholders s = [] \/ placeholders s = [typing_element typingId])
  | _ => False
  end.

(** The container holds the welcome message first, then elements of class
    [message], of which only placeholders carry an id. *)
Definition id_ok (e : element) : Prop :=
  el_id e = None \/ exists typingId, e = typing_element typingId.

Definition container_ok (l : list element) : Prop :=
  (exists rest, l = welcome :: rest) /\
  Forall (fun e => has_class "message" e = true) l /\
  Forall id_ok l.

(** The part of it that reads the flag and the requests only. *)
Definition one_flight (s : State) : Prop :=
  match filter is_chat (pending s) with
  | [] => isTyping s = false
  | [ChatRequest _ _] => isTyping s = true
  | _ => False
  end.

Definition invariant (s : State) : Prop :=
  one_flight s /\ container_ok (messagesContainer s) /\
  systemStatus s = js "checking".



(** The calls of [remove()] of a clear over elements that all go: each
    element, then the elements of class [message] inside it. *)
Definition cleared (l : list element) : list effect :=
  flat_map
    (fun e =>
       Removed e :: map Detached (snd (fst (prune_all true (el_children e))))) l.

(** A block keeps [P], however it ends. *)
Definition preserves {A} (P : State -> Prop) (m : M A) : Prop :=
  forall s, P s ->
  match m s with
  | Ret _ s' => P s'
  | Exc s' => P s'
  end.


(** The fields the invariant reads. *)
Definition core (s : State) : bool * list request * list element * jsstring :=
  (isTyping s, pending s, messagesContainer s, systemStatus s).

Definition stable (P : State -> Prop) : Prop :=
  forall s s', core s' = core s -> P s -> P s'.

Definition keeps (P : State -> Prop) (f : State -> State) : Prop :=
  forall s, P s -> P (f s).

Definition page_ok (s : State) : Prop :=
  container_ok (messagesContainer s) /\ systemStatus s = js "checking".

(** What a method other than [sendMessage] leaves as it is: the flag, the
    chat requests under way, and the placeholder (which only a clear may
    take away). *)
Definition flight_kept (b : bool) (q : list request) (ph : list element)
    (s : State) : Prop :=
  page_ok s /\ isTyping s = b /\ filter is_chat (pending s) = q /\
  (placeholders s = [] \/ placeholders s = ph).


(** The state [sendMessage] leaves once its response is in, path by path:
    first what follows a parsed response, the placeholder already removed. *)
Definition chat_resolved (typingId message : jsstring) (data : json) (s1 : State)
    : State :=
  match data with
  | JNull => chat_failed typingId s1
  | _ =>
      if is_string (field data "status") "success" then
        match field data "response" with
        | Some (JStr r) =>
            let s2 := appendChild (message_element (str "agent") false r (now s1)) s1 in
            match conversationHistory s2 with
            | Some (JArr l) =>
                set_conversationHistory
                  (Some (JArr (l ++ [history_entry "user" (Some (JStr message)) (now s2);
                                     history_entry "agent" (Some (JStr r)) (now s2)])))
                  s2
            | _ => chat_failed typingId s2
            end
        | _ => chat_failed typingId s1
        end
      else
        match ToString (field data "message") with
        | Ok text =>
            showToast "error" (field data "message")
              (appendChild
                 (message_element (str "agent") true (js "Error: " ++ text) (now s1))
                 s1)
        | TypeError => chat_failed typingId s1
        end
  end.

Definition chat_settled (typingId message : jsstring) (o : outcome) (s : State) : State :=
  set_isTyping false
    match o with
    | Rejected _ => chat_failed typingId s
    | Resolved data => chat_resolved typingId message data (removeTypingIndicator typingId s)
    end.



Definition is_error_message (e : element) : bool :=
  match el_inner e with
  | MessageMarkup _ cls _ _ => str_eqb cls (js "message-text error-message")
  | _ => false
  end.


Definition removals (t : list effect) : list effect :=
  filter (fun e => match e with Removed _ => true | _ => false end) t.


(** The message of the notification a failed status check shows: the
    server's reason when it has one that can be shown, the default when it
    has none, and the connection failure when the request, its body or the
    showing of the reason fails. *)
Definition status_reason (o : outcome) : jsstring :=
  match o with
  | Resolved JNull | Rejected _ => js "Failed to connect to server"
  | Resolved data =>
      let reason := or_else (field data "message") (str "System is not ready") in
      if has_text reason then text_content reason
      else js "Failed to connect to server"
  end.

(** Nothing the user sees has changed once the history response is in. *)
Definition history_silent (o : outcome) (s : State) : Prop :=
  let s' := settle (loadConversationHistory_resume o) s in
  conversationHistory s' = conversationHistory s /\
  messagesContainer s' = messagesContainer s /\
  toast s' = toast s /\
  notifications (trace s') = notifications (trace s).

(** A status response of a backend that is not ready. *)
Definition not_ready_response : json :=
  JObj [(js "rag_available", JBool false);
        (js "vertex_ai_initialized", JBool false);
        (js "message", JStr (js "RAG agent is not configured"))].

(** An event that respects the table of endpoints: a history response that
    is a success carries a sequence. *)
Definition history_well_formed (e : event) (s : State) : Prop :=
  forall i data,
    e = Settles i (Resolved data) ->
    nth_error (pending s) i = Some HistoryRequest ->
    is_string (field data "status") "success" = true ->
    is_array (field data "history").

(* ------------------------------------------------------------------ *)
(** ** The corpus dialog

    The methods of the corpus dialog work on elements of their own: the
    modal, the panel that lists the corpora, the loading overlay and three
    text fields.  With the chat they share the toast, the console and the
    network, so the whole client is the chat state and these elements. *)

(** [corporaList.innerHTML], by the four things the script writes there. *)
Inductive panel : Type :=
| PanelMarkup                        (* as the page has it *)
| PanelLoading                       (* <div class="loading">Loading corpora...</div> *)
| PanelResponse (html : jsstring)    (* <div class="corpora-response">html</div> *)
| PanelError (text : jsstring).      (* <div class="error">text</div> *)

(** A request of the dialog under way, with what its continuation uses. *)
Inductive corpus_request : Type :=
| ListRequest
| CreateRequest (corpusName : jsstring)
| AddRequest.

Record Client : Type := {
  chat : State;
  corpusModal_show : bool;             (* the class [show] of the modal *)
  corporaList : panel;
  loadingOverlay_show : bool;          (* the class [show] of the overlay *)
  newCorpusName : jsstring;            (* the values of the three fields *)
  targetCorpus : jsstring;
  documentUrl : jsstring;
  corpus_pending : list corpus_request
}.

Definition set_chat (s : State) (a : Client) : Client :=
  {| chat := s; corpusModal_show := corpusModal_show a; corporaList := corporaList a;
     loadingOverlay_show := loadingOverlay_show a; newCorpusName := newCorpusName a;
     targetCorpus := targetCorpus a; documentUrl := documentUrl a;
     corpus_pending := corpus_pending a |}.

Definition set_corpusModal_show (b : bool) (a : Client) : Client :=
  {| chat := chat a; corpusModal_show := b; corporaList := corporaList a;
     loadingOverlay_show := loadingOverlay_show a; newCorpusName := newCorpusName a;
     targetCorpus := targetCorpus a; documentUrl := documentUrl a;
     corpus_pending := corpus_pending a |}.

(** The elements of the panel: those of the page's own markup are none the
    script looks for; the loading text is one [div]; a response and an error
    hold text of the server, which the browser parses. *)
Definition panel_children (p : panel) : list node :=
  match p with
  | PanelMarkup => []
  | PanelLoading => [Node None (js "loading") []]
  | PanelResponse html =>
      parse_html (js "<div class=" ++ quoted (js "corpora-response") ++ js ">" ++
                  html ++ js "</div>")
  | PanelError text =>
      parse_html (js "<div class=" ++ quoted (js "error") ++ js ">" ++
                  text ++ js "</div>")
  end.

(** [corporaList.innerHTML = ...] *)
Definition set_corporaList (p : panel) (a : Client) : Client :=
  {| chat := set_panel_nodes (panel_children p) (chat a);
     corpusModal_show := corpusModal_show a; corporaList := p;
     loadingOverlay_show := loadingOverlay_show a; newCorpusName := newCorpusName a;
     targetCorpus := targetCorpus a; documentUrl := documentUrl a;
     corpus_pending := corpus_pending a |}.

Definition set_loadingOverlay_show (b : bool) (a : Client) : Client :=
  {| chat := chat a; corpusModal_show := corpusModal_show a; corporaList := corporaList a;
     loadingOverlay_show := b; newCorpusName := newCorpusName a;
     targetCorpus := targetCorpus a; documentUrl := documentUrl a;
     corpus_pending := corpus_pending a |}.

Definition set_newCorpusName (v : jsstring) (a : Client) : Client :=
  {| chat := chat a; corpusModal_show := corpusModal_show a; corporaList := corporaList a;
     loadingOverlay_show := loadingOverlay_show a; newCorpusName := v;
     targetCorpus := targetCorpus a; documentUrl := documentUrl a;
     corpus_pending := corpus_pending a |}.

Definition set_targetCorpus (v : jsstring) (a : Client) : Client :=
  {| chat := chat a; corpusModal_show := corpusModal_show a; corporaList := corporaList a;
     loadingOverlay_show := loadingOverlay_show a; newCorpusName := newCorpusName a;
     targetCorpus := v; documentUrl := documentUrl a;
     corpus_pending := corpus_pending a |}.

Definition set_documentUrl (v : jsstring) (a : Client) : Client :=
  {| chat := chat a; corpusModal_show := corpusModal_show a; corporaList := corporaList a;
     loadingOverlay_show := loadingOverlay_show a; newCorpusName := newCorpusName a;
     targetCorpus := targetCorpus a; documentUrl := v;
     corpus_pending := corpus_pending a |}.

Definition set_corpus_pending (p : list corpus_request) (a : Client) : Client :=
  {| chat := chat a; corpusModal_show := corpusModal_show a; corporaList := corporaList a;
     loadingOverlay_show := loadingOverlay_show a; newCorpusName := newCorpusName a;
     targetCorpus := targetCorpus a; documentUrl := documentUrl a;
     corpus_pending := p |}.

(** A statement of the chat class, run on the whole client. *)
Definition on_chat (f : State -> State) (a : Client) : Client :=
  set_chat (f (chat a)) a.

(** Blocks of the dialog's methods: they end normally or by an exception. *)
Inductive outcome_of (A : Type) : Type :=
| Done (x : A) (a : Client)
| Raised (a : Client).
Arguments Done {A} x a.
Arguments Raised {A} a.

Definition Block (A : Type) : Type := Client -> outcome_of A.

Definition done {A} (x : A) : Block A := fun a => Done x a.
Definition raise {A} : Block A := fun a => Raised a.
Definition and_then {A B} (m : Block A) (f : A -> Block B) : Block B :=
  fun a => match m a with
           | Done x a' => f x a'
           | Raised a' => Raised a'
           end.

#[local] Notation "x <~ m ;; k" := (and_then m (fun x => k))
  (at level 61, m at next level, right associativity).
#[local] Notation "m ~;; k" := (and_then m (fun _ => k))
  (at level 61, right associativity).

Definition perform (f : Client -> Client) : Block unit := fun a => Done tt (f a).

Definition value_of {A} (r : result A) : Block A :=
  match r with
  | Ok x => done x
  | TypeError => raise
  end.

(** [try { body } catch (error) { handler }] *)
Definition try_else (body handler : Block unit) : Block unit :=
  fun a => match body a with
           | Done x a' => Done x a'
           | Raised a' => handler a'
           end.

(** [... finally { final }] *)
Definition at_last (body final : Block unit) : Block unit :=
  fun a => match body a with
           | Done _ a' => final a'
           | Raised a' => match final a' with
                          | Done _ a'' => Raised a''
                          | Raised a'' => Raised a''
                          end
           end.

Definition finish (m : Block unit) (a : Client) : Client :=
  match m a with
  | Done _ a' => a'
  | Raised a' => a'
  end.

(** A statement of the chat class that may throw, run on the whole client. *)
Definition on_chat_block (m : M unit) : Block unit :=
  fun a => match m (chat a) with
           | Ret _ s => Done tt (set_chat s a)
           | Exc s => Raised (set_chat s a)
           end.

Definition json_of (o : outcome) : Block jsval :=
  match o with
  | Rejected _ => raise
  | Resolved data => done (Some data)
  end.

(** [fetch(url, ...)] by a method of the dialog. *)
Definition corpus_fetch (url method : string) (body : option json)
    (r : corpus_request) (a : Client) : Client :=
  set_corpus_pending (corpus_pending a ++ [r])
    (on_chat (log (Fetch (js url) (js method) body)) a).

(** [this.formatMessage(v)] for any value: [v.replace] is a function only
    when [v] is a string. *)
Definition formatMessage_of (v : jsval) : result jsstring :=
  match v with
  | Some (JStr c) => Ok (formatMessage c)
  | _ => TypeError
  end.

(** [showLoadingOverlay()] and [hideLoadingOverlay()] *)
Definition showLoadingOverlay (a : Client) : Client := set_loadingOverlay_show true a.
Definition hideLoadingOverlay (a : Client) : Client := set_loadingOverlay_show false a.

(** [refreshCorpora()], up to the request. *)
Definition refreshCorpora (a : Client) : Client :=
  corpus_fetch "/api/corpus/list" "GET" None ListRequest
    (set_corporaList PanelLoading a).

(** [refreshCorpora()], from the response on. *)
Definition refreshCorpora_resume (o : outcome) : Block unit :=
  try_else
    (data <~ json_of o ;;
     status <~ value_of (get data (js "status")) ;;
     if is_string status "success" then
       response <~ value_of (get data (js "response")) ;;
       html <~ value_of (formatMessage_of response) ;;
       perform (set_corporaList (PanelResponse html))
     else
       reason <~ value_of (get data (js "message")) ;;
       text <~ value_of (ToString reason) ;;
       perform (set_corporaList (PanelError (js "Failed to load corpora: " ++ text))))
    (perform (on_chat (log (ConsoleError (js "Refresh corpora error:")))) ~;;
     perform (set_corporaList (PanelError (js "Failed to load corpora")))).

(** [showCorpusModal()] and [closeCorpusModal()] *)
Definition showCorpusModal (a : Client) : Client :=
  refreshCorpora (set_corpusModal_show true a).

Definition closeCorpusModal (a : Client) : Client :=
  set_corpusModal_show false a.

(** The text [Corpus "name" created successfully]. *)
Definition created_message (corpusName : jsstring) : jsstring :=
  js "Corpus " ++ [34%N] ++ corpusName ++ [34%N] ++ js " created successfully".

(** [createCorpus()], up to the request. *)
Definition createCorpus (a : Client) : Client :=
  let corpusName := trim (newCorpusName a) in
  if negb (truthy (Some (JStr corpusName))) then
    on_chat (showToast "warning" (str "Please enter a corpus name")) a
  else
    corpus_fetch "/api/corpus/create" "POST"
      (Some (JObj [(js "name", JStr corpusName)]))
      (CreateRequest corpusName)
      (showLoadingOverlay a).

(** [createCorpus()], from the response on. *)
Definition createCorpus_resume (corpusName : jsstring) (o : outcome) : Block unit :=
  at_last
    (try_else
       (data <~ json_of o ;;
        status <~ value_of (get data (js "status")) ;;
        if is_string status "success" then
          perform (on_chat (showToast "success"
                              (Some (JStr (created_message corpusName))))) ~;;
          perform (set_newCorpusName []) ~;;
          perform refreshCorpora
        else
          reason <~ value_of (get data (js "message")) ;;
          on_chat_block (showToast_value "error" reason))
       (perform (on_chat (log (ConsoleError (js "Create corpus error:")))) ~;;
        perform (on_chat (showToast "error" (str "Failed to create corpus")))))
    (perform hideLoadingOverlay).

(** [addDocument()], up to the request. *)
Definition addDocument (a : Client) : Client :=
  let corpusName := trim (targetCorpus a) in
  let url := trim (documentUrl a) in
  if negb (truthy (Some (JStr corpusName))) || negb (truthy (Some (JStr url))) then
    on_chat (showToast "warning"
               (str "Please enter both corpus name and document URL")) a
  else
    corpus_fetch "/api/corpus/add-document" "POST"
      (Some (JObj [(js "corpus_name", JStr corpusName);
                   (js "document_url", JStr url)]))
      AddRequest
      (showLoadingOverlay a).

(** [addDocument()], from the response on. *)
Definition addDocument_resume (o : outcome) : Block unit :=
  at_last
    (try_else
       (data <~ json_of o ;;
        status <~ value_of (get data (js "status")) ;;
        if is_string status "success" then
          perform (on_chat (showToast "success" (str "Document added successfully"))) ~;;
          perform (set_targetCorpus []) ~;;
          perform (set_documentUrl [])
        else
          reason <~ value_of (get data (js "message")) ;;
          on_chat_block (showToast_value "error" reason))
       (perform (on_chat (log (ConsoleError (js "Add document error:")))) ~;;
        perform (on_chat (showToast "error" (str "Failed to add document")))))
    (perform hideLoadingOverlay).

(** [autoResizeInput(e)]: the height it writes to the field, for the
    [scrollHeight] the layout reports. *)
Definition autoResizeInput (scrollHeight : Z) : jsstring :=
  decimal (Z.min scrollHeight 120) ++ js "px".

(** *** The listeners of [initializeEventListeners] and of the page *)

Inductive client_event : Type :=
| OfChat (e : event)                       (* an event of the chat, as before *)
| KeyPress (key : jsstring) (shiftKey : bool)   (* keypress on the input field *)
| CorpusClick                              (* click on the corpus button *)
| ModalClick (target : jsstring)           (* click in the modal, on the element [target] *)
| CloseClick                               (* onclick="closeCorpusModal()" *)
| CreateClick                              (* onclick="createCorpus()" *)
| AddClick                                 (* onclick="addDocument()" *)
| RefreshClick                             (* onclick="refreshCorpora()" *)
| TypedName (text : jsstring)              (* the user edits a field of the dialog *)
| TypedTarget (text : jsstring)
| TypedUrl (text : jsstring)
| CorpusSettles (i : nat) (o : outcome).   (* the i-th request of the dialog is over *)

Definition corpus_resume (r : corpus_request) (o : outcome) : Block unit :=
  match r with
  | ListRequest => refreshCorpora_resume o
  | CreateRequest corpusName => createCorpus_resume corpusName o
  | AddRequest => addDocument_resume o
  end.

(** The keypress listener: Enter without Shift is taken from the browser
    ([preventDefault], the flag returned) and sends; any other key is left to
    the browser. *)
Definition keypress (key : jsstring) (shiftKey : bool) (s : State) : bool * State :=
  if str_eqb key (js "Enter") && negb shiftKey
  then (true, sendMessage s)
  else (false, s).

Definition client_step (e : client_event) (a : Client) : Client :=
  match e with
  | OfChat e => on_chat (step e) a
  | KeyPress key shiftKey =>
      if input_disabled (messageInput (chat a)) then a
      else on_chat (fun s => snd (keypress key shiftKey s)) a
  | CorpusClick => showCorpusModal a
  | ModalClick target =>
      if str_eqb target (js "corpusModal") then closeCorpusModal a else a
  | CloseClick => closeCorpusModal a
  | CreateClick => createCorpus a
  | AddClick => addDocument a
  | RefreshClick => refreshCorpora a
  | TypedName text => set_newCorpusName text a
  | TypedTarget text => set_targetCorpus text a
  | TypedUrl text => set_documentUrl text a
  | CorpusSettles i o =>
      match nth_error (corpus_pending a) i with
      | Some r =>
          finish (corpus_resume r o)
            (set_corpus_pending (remove_nth i (corpus_pending a)) a)
      | None => a
      end
  end.

(** The client once the page is loaded and the object built; [dialog] is the
    dialog as the markup has it, nothing of it under way. *)
Definition new_client (page : Page) (dialog : Client) : Client :=
  set_corpus_pending []
    (set_corporaList (corporaList dialog) (set_chat (new_CementGPT page) dialog)).

Inductive client_reachable (page : Page) (dialog : Client) : Client -> Prop :=
| client_new : client_reachable page dialog (new_client page dialog)
| client_next (e : client_event) (a : Client) :
    client_reachable page dialog a ->
    client_reachable page dialog (client_step e a).


(** The requests of the dialog in a trace. *)
Definition corpus_requests (t : list effect) : list effect :=
  filter (fun e => match e with
                   | Fetch url _ _ => starts_with (js "/api/corpus/") url
                   | _ => false
                   end) t.

(** *** The words of the properties of the dialog *)

(** What the panel shows once the list request is over: the formatted list
    when the response is a success that carries a text, the server's reason
    after [Failed to load corpora: ] when it is no success, and the plain
    [Failed to load corpora] when anything throws. *)
Definition panel_after (o : outcome) : panel :=
  match o with
  | Rejected _ | Resolved JNull => PanelError (js "Failed to load corpora")
  | Resolved data =>
      if is_string (field data "status") "success" then
        match field data "response" with
        | Some (JStr r) => PanelResponse (formatMessage r)
        | _ => PanelError (js "Failed to load corpora")
        end
      else
        match ToString (field data "message") with
        | Ok text => PanelError (js "Failed to load corpora: " ++ text)
        | TypeError => PanelError (js "Failed to load corpora")
        end
  end.

(** The response resolves and reports success. *)
Definition succeeded (o : outcome) : bool :=
  match o with
  | Resolved data => is_string (field data "status") "success"
  | Rejected _ => false
  end.

(** The response resolves to a value that is not [null] and that is a
    success or gives a reason that can be shown: the method reads it without
    a throw. *)
Definition answered (o : outcome) : bool :=
  match o with
  | Rejected _ | Resolved JNull => false
  | Resolved data =>
      is_string (field data "status") "success" || has_text (field data "message")
  end.

(** The reason an answered response gives, as a toast shows it. *)
Definition reason_of (o : outcome) : jsstring :=
  match o with
  | Resolved data => text_content (field data "message")
  | Rejected _ => []
  end.

(** A code unit that [trim] removes. *)
Definition is_blank (c : N) : bool := is_white_space c || is_line_terminator c.

(** The chat is as it was, but for the toast, the timers and the trace. *)
Definition chat_untouched (s s' : State) : Prop :=
  core s' = core s /\
  conversationHistory s' = conversationHistory s /\
  messageInput s' = messageInput s /\
  sendBtn_disabled s' = sendBtn_disabled s /\
  statusIndicator s' = statusIndicator s /\
  now s' = now s /\
  chat_requests (trace s') = chat_requests (trace s).

(** The events of the dialog. *)
Definition of_dialog (e : client_event) : bool :=
  match e with
  | OfChat _ | KeyPress _ _ => false
  | _ => true
  end.

(** The requests of the dialog whose method shows the loading overlay. *)
Definition with_overlay (r : corpus_request) : bool :=
  match r with
  | ListRequest => false
  | CreateRequest _ | AddRequest => true
  end.

(** *** The words of the properties of the chat *)




(** A text without the characters the formatter reads. *)
Definition plain (content : jsstring) : Prop :=
  ~ In star content /\ ~ In backtick content /\ ~ In newline content.

(** *** A browser to try the theorems on: the renderings of one instant,
    and the comparison with 0 of a string of decimal digits. *)

Definition sample_toISOString : Z -> jsstring :=
  fun _ => js "2023-11-14T22:13:20.000Z".

Definition sample_toLocaleTimeString : Z -> jsstring :=
  fun _ => js "10:13:20 PM".

Definition sample_string_gt_zero : jsstring -> bool :=
  fun s => forallb (fun c => N.leb 48 c && N.leb c 57) s &&
           existsb (fun c => negb (N.eqb c 48)) s.

(** The sample browser reads markup tag by tag: an opening tag with its
    [id] and [class], a closing tag, and elements without content ([br],
    [hr], [img], [input]); what is between tags is text.  It is enough for
    the markup the script writes and for the sample texts. *)
Inductive tag : Type :=
| Open (void : bool) (id : option jsstring) (className : jsstring)
| Close.

Fixpoint until (stop : N -> bool) (s : jsstring) : jsstring :=
  match s with
  | [] => []
  | c :: s' => if stop c then [] else c :: until stop s'
  end.

(** The value of the attribute [name] in the text of a tag: quoted, or up
    to the next space. *)
Fixpoint attribute (name : jsstring) (s : jsstring) : option jsstring :=
  match s with
  | [] => None
  | c :: s' =>
      if is_ascii_space c && starts_with (name ++ [61%N]) s' then
        match skipn (length name + 1) s' with
        | 34%N :: v => Some (until (N.eqb 34) v)
        | v => Some (until is_ascii_space v)
        end
      else attribute name s'
  end.

Definition read_tag (s : jsstring) : tag :=
  match s with
  | 47%N :: _ => Close
  | _ =>
      let name := until is_ascii_space s in
      Open (str_eqb name (js "br") || str_eqb name (js "hr") ||
            str_eqb name (js "img") || str_eqb name (js "input"))
        (attribute (js "id") s)
        (match attribute (js "class") s with Some c => c | None => [] end)
  end.

(** The tags of a text, in order. *)
Fixpoint tags (inside : option jsstring) (s : jsstring) : list tag :=
  match s with
  | [] => []
  | c :: s' =>
      match inside with
      | None => if N.eqb c 60 then tags (Some []) s' else tags None s'
      | Some t =>
          if N.eqb c 62 then read_tag t :: tags None s'
          else tags (Some (t ++ [c])) s'
      end
  end.

(** The tree of the tags: [cur] holds the elements read so far at the level
    that is open, last first, [stack] the open elements and what came before
    each at its level. *)
Fixpoint close_all (cur : list node)
    (stack : list (option jsstring * jsstring * list node)) : list node :=
  match stack with
  | [] => rev cur
  | (id, className, before) :: stack' =>
      close_all (Node id className (rev cur) :: before) stack'
  end.

Fixpoint build (ts : list tag) (cur : list node)
    (stack : list (option jsstring * jsstring * list node)) : list node :=
  match ts with
  | [] => close_all cur stack
  | Open true id className :: ts' => build ts' (Node id className [] :: cur) stack
  | Open false id className :: ts' => build ts' [] ((id, className, cur) :: stack)
  | Close :: ts' =>
      match stack with
      | [] => build ts' cur []
      | (id, className, before) :: stack' =>
          build ts' (Node id className (rev cur) :: before) stack'
      end
  end.

Definition sample_parse_html (s : jsstring) : list node := build (tags None s) [] [].

(** In the sample page the messages come before the corpus dialog. *)
Definition sample_panel_first : bool := false.

(** *** A page and a run to try the theorems on *)

Definition sample_page : Page :=
  {| page_messageInput :=
       {| input_value := []; input_disabled := false;
          input_placeholder := js "Ask me about your documents or manage your corpora..." |};
     page_sendBtn_disabled := false;
     page_statusIndicator := (js "status-indicator checking", js "Checking...");
     page_toast := {| toast_className := js "toast"; toast_icon := js "toast-icon";
                      toast_message := []; toast_show := false |};
     page_time := 1700000000000 |}.

(** The user has typed "hello"; nothing is in flight. *)
Definition sample_typed : State :=
  step (Typed (js "  hello ")) (new_CementGPT sample_page).

(** The Enter key has sent it: requests 0 and 1 are the status and the
    history, request 2 is the chat. *)
Definition sample_sent : State := step EnterKey sample_typed.

Definition sample_reply : outcome :=
  Resolved (JObj [(js "status", JStr (js "success"));
                  (js "response", JStr (js "Hi, **how** can I help?"))]).

Definition sample_cleared : outcome :=
  Resolved (JObj [(js "status", JStr (js "success"))]).

Definition sample_history_empty : json :=
  JObj [(js "status", JStr (js "success")); (js "history", JArr [])].

(** What the status check decides: whether the field and the button take
    input, the placeholder of the field, and the indicator. *)
Definition controls (s : State) : bool * jsstring * bool * (jsstring * jsstring) :=
  (input_disabled (messageInput s), input_placeholder (messageInput s),
   sendBtn_disabled s, statusIndicator s).

Definition is_status (r : request) : bool :=
  match r with
  | StatusRequest => true
  | _ => false
  end.

(** The state after the status response: the request is still number 0. *)
Definition sample_offline : State :=
  step (Settles 0 (Resolved not_ready_response)) (new_CementGPT sample_page).

(** *** A dialog and runs of it to try the theorems on *)

Definition sample_dialog : Client :=
  {| chat := new_CementGPT sample_page;
     corpusModal_show := false;
     corporaList := PanelMarkup;
     loadingOverlay_show := false;
     newCorpusName := [];
     targetCorpus := [];
     documentUrl := [];
     corpus_pending := [] |}.

(** The dialog is open (request 0 of the dialog asks for the list) and the
    user has typed a name. *)
Definition sample_named : Client :=
  client_step (TypedName (js " manuals "))
    (client_step CorpusClick (new_client sample_page sample_dialog)).

(** The user has typed spaces only. *)
Definition sample_blank_name : Client :=
  client_step (TypedName (js "  ")) (new_client sample_page sample_dialog).

(** Both fields of the second form are filled. *)
Definition sample_document : Client :=
  client_step (TypedUrl (js "https://example.org/kiln.pdf "))
    (client_step (TypedTarget (js "manuals")) (new_client sample_page sample_dialog)).

(** Only the name is. *)
Definition sample_no_url : Client :=
  client_step (TypedTarget (js "manuals")) (new_client sample_page sample_dialog).

(** The creation is under way: request 1 of the dialog. *)
Definition sample_creating : Client := client_step CreateClick sample_named.

Definition sample_refused : outcome :=
  Resolved (JObj [(js "status", JStr (js "error"));
                  (js "message", JStr (js "Corpus already exists"))]).

(** A history of two turns and an item without text. *)
Definition sample_history : json :=
  JObj [(js "status", JStr (js "success"));
        (js "history",
         JArr [JObj [(js "role", JStr (js "user")); (js "message", JStr (js "hello"))];
               JObj [(js "role", JStr (js "agent")); (js "message", JStr (js "Hi"))];
               JObj [(js "role", JStr (js "agent"))];
               JObj [(js "role", JStr (js "user")); (js "message", JStr (js "again"))]])].

(** A send is in flight and the user has typed the next question. *)
Definition sample_busy : State := step (Typed (js " and then? ")) sample_sent.

(** The same runs on the whole page, the dialog closed: the text typed, the
    send, the reply, and a clear confirmed while the send is in flight. *)
Definition sample_client_typed : Client :=
  client_step (OfChat (Typed (js "  hello "))) (new_client sample_page sample_dialog).

Definition sample_client_sent : Client := client_step (OfChat EnterKey) sample_client_typed.

Definition sample_client_answered : Client :=
  client_step (OfChat (Settles 2 sample_reply)) sample_client_sent.





(** A creation that succeeds, and status responses. *)
Definition sample_created : outcome :=
  Resolved (JObj [(js "status", JStr (js "success"))]).

Definition sample_ready : outcome :=
  Resolved (JObj [(js "rag_available", JBool true);
                  (js "vertex_ai_initialized", JBool true)]).

Definition sample_half_ready : outcome :=
  Resolved (JObj [(js "rag_available", JBool true);
                  (js "vertex_ai_initialized", JBool false);
                  (js "message", JStr (js "Vertex AI is not initialized"))]).

Definition sample_silent : outcome :=
  Resolved (JObj [(js "rag_available", JBool false)]).

(* ------------------------------------------------------------------ *)
(** ** Strings and the regular expressions of the formatter *)

Lemma str_eqb_eq (a b : jsstring) : str_eqb a b = true <-> a = b.
Proof.
  revert b; induction a as [|x a IH]; destruct b as [|y b]; simpl;
    try (split; congruence).
  rewrite andb_true_iff, N.eqb_eq, IH. split.
  - intros [-> ->]; reflexivity.
  - intros H; injection H; auto.
Qed.

Lemma str_eqb_refl (a : jsstring) : str_eqb a a = true.
Proof. apply str_eqb_eq; reflexivity. Qed.

Lemma starts_with_app (p s : jsstring) : starts_with p (p ++ s) = true.
Proof. induction p; simpl; [reflexivity|]. now rewrite N.eqb_refl. Qed.

Lemma starts_with_split (p s : jsstring) :
  starts_with p s = true -> s = p ++ skipn (length p) s.
Proof.
  revert s; induction p as [|x p IH]; intros [|y s]; simpl; try congruence.
  rewrite andb_true_iff, N.eqb_eq. intros [-> H]. f_equal. auto.
Qed.

Lemma starts_with_iff (p s : jsstring) :
  starts_with p s = true <-> exists t, s = p ++ t.
Proof.
  split.
  - intros H. eexists. apply starts_with_split, H.
  - intros [t ->]. apply starts_with_app.
Qed.

Lemma bold_re_delim : bold_re = delim_re star [star].
Proof. reflexivity. Qed.

Lemma italic_re_delim : italic_re = delim_re star [].
Proof. reflexivity. Qed.

Lemma code_re_delim : code_re = delim_re backtick [].
Proof. reflexivity. Qed.

(** *** The matcher on literal prefixes *)

Lemma run_lits {R} (p : jsstring) (r : regex) (s : jsstring) cap
    (k : jsstring -> option jsstring -> option R) :
  run (lits p r) s cap k =
  if starts_with p s then run r (skipn (length p) s) cap k else None.
Proof.
  revert s; induction p as [|x p IH]; intros s; simpl; [reflexivity|].
  destruct s as [|y s]; [reflexivity|].
  rewrite (N.eqb_sym x y).
  destruct (N.eqb y x); simpl; [apply IH | reflexivity].
Qed.

Lemma run_seq_re {R} (c : N) (d : jsstring) (s : jsstring) cap
    (k : jsstring -> option jsstring -> option R) :
  run (seq_re c d) s cap k =
  if starts_with (c :: d) s then k (skipn (length (c :: d)) s) cap else None.
Proof.
  revert c s; induction d as [|x d IH]; intros c s.
  - destruct s as [|y s]; simpl; [reflexivity|].
    rewrite (N.eqb_sym c y). destruct (N.eqb y c); reflexivity.
  - destruct s as [|y s]; [reflexivity|].
    cbn [seq_re run atom_matches]. rewrite IH.
    cbn [starts_with]. rewrite (N.eqb_sym c y).
    destruct (N.eqb y c); reflexivity.
Qed.

(** *** The lazy star finds the nearest closing delimiter *)

Lemma lazy_loop_find_close (D s0 : jsstring) :
  forall s pre, s0 = pre ++ s ->
  lazy_loop Dot
    (fun s' => if starts_with D s'
               then Some (skipn (length D) s',
                          Some (firstn (length s0 - length s') s0))
               else None) s
  = match find_close D s with
    | Some (x, rest) => Some (rest, Some (pre ++ x))
    | None => None
    end.
Proof.
  induction s as [|c s IH]; intros pre E.
  - cbn [lazy_loop find_close]. destruct (starts_with D []) eqn:HD; [|reflexivity].
    subst s0. rewrite !app_nil_r, Nat.sub_0_r, firstn_all. reflexivity.
  - cbn [lazy_loop find_close]. destruct (starts_with D (c :: s)) eqn:HD.
    + subst s0. rewrite length_app, Nat.add_sub, app_nil_r.
      rewrite firstn_app, Nat.sub_diag, firstn_all. simpl. now rewrite app_nil_r.
    + cbn [atom_matches]. destruct (is_line_terminator c); [reflexivity|].
      cbn [negb]. rewrite (IH (pre ++ [c])).
      * destruct (find_close D s) as [[x rest]|]; [|reflexivity].
        now rewrite <- app_assoc.
      * now rewrite <- app_assoc.
Qed.

Lemma run_seq_re_loop {R} (c : N) (d s s0 : jsstring)
    (k : jsstring -> option jsstring -> option R) :
  lazy_loop Dot
    (fun s' => run (seq_re c d) s' (Some (firstn (length s0 - length s') s0)) k) s
  = lazy_loop Dot
      (fun s' => if starts_with (c :: d) s'
                 then k (skipn (length (c :: d)) s')
                        (Some (firstn (length s0 - length s') s0))
                 else None) s.
Proof.
  induction s as [|x s IH]; cbn [lazy_loop]; rewrite run_seq_re.
  - reflexivity.
  - rewrite IH. reflexivity.
Qed.

Lemma exec_delim (c : N) (d s : jsstring) :
  exec (delim_re c d) s =
  if starts_with (c :: d) s
  then match find_close (c :: d) (skipn (length (c :: d)) s) with
       | Some (x, rest) => Some (rest, Some x)
       | None => None
       end
  else None.
Proof.
  unfold exec, delim_re. rewrite run_lits.
  destruct (starts_with (c :: d) s); [|reflexivity].
  cbn [run].
  pose proof (lazy_loop_find_close (c :: d) (skipn (length (c :: d)) s) _ [] eq_refl) as H.
  cbn [app] in H. rewrite run_seq_re_loop. exact H.
Qed.

Lemma find_close_some (D s x rest : jsstring) :
  find_close D s = Some (x, rest) ->
  s = x ++ D ++ rest /\ one_line x /\
  (forall x' rest', s = x' ++ D ++ rest' -> length x <= length x').
Proof.
  revert x; induction s as [|c s IH]; intros x; cbn [find_close].
  - destruct (starts_with D []) eqn:HD; [|discriminate].
    intros H; injection H as <- <-. repeat split.
    + apply starts_with_split, HD.
    + constructor.
    + intros; simpl; lia.
  - destruct (starts_with D (c :: s)) eqn:HD.
    + intros H; injection H as <- <-. repeat split.
      * apply starts_with_split, HD.
      * constructor.
      * intros; simpl; lia.
    + destruct (is_line_terminator c) eqn:Hc; [discriminate|].
      destruct (find_close D s) as [[x1 r1]|]; [|discriminate].
      intros H; injection H as <- <-.
      destruct (IH x1 eq_refl) as (E & Hx & Hn). repeat split.
      * simpl. now rewrite <- E.
      * constructor; assumption.
      * intros [|c' x'] rest' E'.
        -- simpl in E'. rewrite E' in HD. now rewrite starts_with_app in HD.
        -- simpl in E'. injection E' as _ E'. simpl. apply le_n_S. eapply Hn, E'.
Qed.

Lemma find_close_none (D s : jsstring) :
  find_close D s = None ->
  ~ exists x rest, s = x ++ D ++ rest /\ one_line x.
Proof.
  induction s as [|c s IH]; cbn [find_close].
  - destruct (starts_with D []) eqn:HD; [discriminate|].
    intros _ (x & rest & E & _).
    destruct x; simpl in E; [|discriminate].
    rewrite E in HD. now rewrite starts_with_app in HD.
  - destruct (starts_with D (c :: s)) eqn:HD; [discriminate|].
    intros H (x & rest & E & Hx).
    destruct x as [|c' x]; simpl in E.
    + rewrite E in HD. now rewrite starts_with_app in HD.
    + injection E as <- E. inversion Hx as [|? ? Hc Hx']; subst.
      rewrite Hc in H.
      destruct (find_close D (x ++ D ++ rest)) as [[x1 r1]|] eqn:F; [discriminate|].
      apply IH; [assumption|]. now exists x, rest.
Qed.

(** *** The global replacement, one step at a time *)

Lemma replace_from_skip r t (l rest : jsstring) :
  replace_from r t (length l) (l ++ rest) = replace_from r t 0 rest.
Proof.
  induction l as [|c l IH]; [reflexivity|]. simpl. exact IH.
Qed.

Lemma replace_all_match r t (m rest : jsstring) cap :
  m <> [] ->
  exec r (m ++ rest) = Some (rest, cap) ->
  replace_all r t (m ++ rest) = expand t cap ++ replace_all r t rest.
Proof.
  intros Hm E. unfold replace_all.
  destruct m as [|c m]; [congruence|].
  cbn [replace_from app]. cbn [app] in E. rewrite E.
  f_equal. cbn [length]. rewrite length_app.
  replace (S (length m + length rest) - length rest) with (S (length m)) by lia.
  apply replace_from_skip.
Qed.

Lemma replace_all_nomatch r t (c : N) (s : jsstring) :
  exec r (c :: s) = None ->
  replace_all r t (c :: s) = c :: replace_all r t s.
Proof. intros E. unfold replace_all. cbn [replace_from]. now rewrite E. Qed.

Lemma replace_all_nil r t :
  exec r [] = None -> replace_all r t [] = [].
Proof. intros E. unfold replace_all. cbn [replace_from]. now rewrite E. Qed.

(** *** Every span is marked *)

Lemma replace_delim_spans (c : N) (d o cl : jsstring) (s : jsstring) :
  spans_marked (c :: d) o cl s
    (replace_all (delim_re c d) [Lit o; Group1; Lit cl] s).
Proof.
  remember (length s) as n eqn:Hn. revert s Hn.
  induction n as [n IH] using lt_wf_ind. intros s Hn.
  destruct s as [|ch s].
  - rewrite replace_all_nil by (rewrite exec_delim; reflexivity). constructor.
  - pose proof (exec_delim c d (ch :: s)) as E.
    destruct (starts_with (c :: d) (ch :: s)) eqn:HD.
    + apply starts_with_split in HD.
      remember (skipn (length (c :: d)) (ch :: s)) as s0 eqn:Hs0.
      destruct (find_close (c :: d) s0) as [[x rest]|] eqn:F.
      * destruct (find_close_some _ _ _ _ F) as (E0 & Hx & Hnear).
        assert (Es : ch :: s = ((c :: d) ++ x ++ (c :: d)) ++ rest).
        { rewrite HD, E0. now rewrite <- !app_assoc. }
        rewrite Es in E |- *.
        rewrite (replace_all_match _ _ _ _ (Some x)); [|discriminate|exact E].
        cbn [expand flat_map]. rewrite app_nil_r, <- !app_assoc.
        constructor; try assumption.
        -- intros x' rest' Ex. apply (Hnear x' rest'). now rewrite E0.
        -- eapply IH; [|reflexivity]. subst n. rewrite Es.
           rewrite !length_app. simpl. lia.
      * rewrite replace_all_nomatch by exact E.
        constructor.
        -- intros (x & rest & Ex & Hx).
           apply (find_close_none _ _ F). exists x, rest. split; [|assumption].
           rewrite Hs0, Ex.
           now rewrite skipn_app, Nat.sub_diag, skipn_all.
        -- eapply IH; [|reflexivity]. subst n. simpl. lia.
    + rewrite replace_all_nomatch by exact E.
      constructor.
      * intros (x & rest & Ex & Hx).
        rewrite Ex in HD. now rewrite starts_with_app in HD.
      * eapply IH; [|reflexivity]. subst n. simpl. lia.
Qed.

(** The relation leaves no choice: it describes one output. *)
Lemma spans_marked_functional (d o c s out1 out2 : jsstring) :
  d <> [] ->
  spans_marked d o c s out1 -> spans_marked d o c s out2 -> out1 = out2.
Proof.
  intros Hd H1. revert out2.
  induction H1 as [|x rest out Hx Hn H1 IH|ch s out Hno H1 IH]; intros out2 H2.
  - inversion H2 as [|x' rest' out' Hx' Hn' H' E|]; subst; [reflexivity|].
    destruct d; [congruence|discriminate].
  - inversion H2 as [E|x' rest' out' Hx' Hn' H' E|ch s' out' Hno' H' E]; subst.
    + destruct d; [congruence|discriminate].
    + apply app_inv_head in E.
      assert (L : length x' = length x)
        by (apply Nat.le_antisymm; [apply Hn' with rest | apply Hn with rest']; congruence).
      assert (Ex : x' = x).
      { apply (f_equal (firstn (length x))) in E.
        rewrite <- L in E at 1.
        now rewrite !firstn_app, !Nat.sub_diag, !firstn_all, !firstn_O, !app_nil_r in E. }
      subst x'. do 2 apply app_inv_head in E. subst rest'.
      do 3 f_equal. apply IH, H'.
    + exfalso. apply Hno'. rewrite E. now exists x, rest.
  - inversion H2 as [|x' rest' out' Hx' Hn' H' E|ch' s' out' Hno' H' E]; subst.
    + exfalso. apply Hno. rewrite <- E. now exists x', rest'.
    + f_equal. apply IH, H'.
Qed.

(** *** Paragraph and line breaks *)

Lemma exec_para (s : jsstring) :
  exec para_re s =
  match s with
  | a :: b :: rest =>
      if N.eqb a newline && N.eqb b newline then Some (rest, None) else None
  | _ => None
  end.
Proof.
  unfold exec, para_re. cbn [run atom_matches].
  destruct s as [|a [|b rest]]; try reflexivity.
  - destruct (N.eqb a newline); reflexivity.
  - destruct (N.eqb a newline); [|reflexivity].
    destruct (N.eqb b newline); reflexivity.
Qed.

Lemma exec_line (s : jsstring) :
  exec line_re s =
  match s with
  | a :: rest => if N.eqb a newline then Some (rest, None) else None
  | [] => None
  end.
Proof. destruct s; reflexivity. Qed.

Lemma line_pass_cons (a : N) (s : jsstring) :
  line_pass (a :: s) =
  (if N.eqb a newline then js "<br>" else [a]) ++ line_pass s.
Proof.
  unfold line_pass. destruct (N.eqb a newline) eqn:Ea.
  - change (a :: s) with ([a] ++ s).
    rewrite (replace_all_match line_re _ [a] s None).
    + cbn [expand flat_map]. now rewrite app_nil_r.
    + discriminate.
    + cbn [app]. rewrite exec_line. now rewrite Ea.
  - rewrite replace_all_nomatch; [reflexivity|].
    rewrite exec_line. now rewrite Ea.
Qed.

Lemma line_pass_nil : line_pass [] = [].
Proof. reflexivity. Qed.

Lemma line_pass_app (a b : jsstring) :
  line_pass (a ++ b) = line_pass a ++ line_pass b.
Proof.
  induction a as [|x a IH]; [reflexivity|].
  cbn [app]. rewrite !line_pass_cons, IH. now rewrite app_assoc.
Qed.

Lemma line_pass_no_newline (s : jsstring) : ~ In newline (line_pass s).
Proof.
  induction s as [|a s IH]; [intros []|].
  rewrite line_pass_cons. intros H. apply in_app_or in H as [H|H]; [|auto].
  destruct (N.eqb_spec a newline) as [->|Ha].
  - vm_compute in H. intuition discriminate.
  - destruct H as [H|[]]. congruence.
Qed.

Lemma para_pass_pair (s : jsstring) :
  para_pass (newline :: newline :: s) = js "</p><p>" ++ para_pass s.
Proof.
  unfold para_pass.
  change (newline :: newline :: s) with ([newline; newline] ++ s).
  rewrite (replace_all_match para_re _ [newline; newline] s None).
  - cbn [expand flat_map]. now rewrite app_nil_r.
  - discriminate.
  - reflexivity.
Qed.

Lemma para_pass_single (a : N) (s : jsstring) :
  (a <> newline \/ starts_with [newline] s = false) ->
  para_pass (a :: s) = a :: para_pass s.
Proof.
  intros H. unfold para_pass. apply replace_all_nomatch.
  rewrite exec_para. destruct s as [|b s]; [reflexivity|].
  destruct (N.eqb_spec a newline) as [->|Ha]; [|reflexivity].
  destruct H as [H|H]; [congruence|].
  destruct (N.eqb_spec b newline) as [->|Hb]; [|reflexivity].
  pose proof (starts_with_app [newline] s) as H'. cbn [app] in H'. congruence.
Qed.

Lemma breaks_passes (s : jsstring) :
  breaks_marked s (line_pass (para_pass s)).
Proof.
  remember (length s) as n eqn:Hn. revert s Hn.
  induction n as [n IH] using lt_wf_ind. intros s Hn.
  destruct s as [|a s]; [constructor|].
  destruct (N.eqb_spec a newline) as [->|Ha].
  - destruct (starts_with [newline] s) eqn:Hs.
    + apply starts_with_split in Hs. cbn [length skipn app] in Hs.
      rewrite Hs, para_pass_pair, line_pass_app.
      change (line_pass (js "</p><p>")) with (js "</p><p>").
      constructor. eapply IH; [|reflexivity].
      subst n. rewrite Hs at 2. cbn [length]. lia.
    + rewrite para_pass_single by (now right).
      rewrite line_pass_cons, N.eqb_refl.
      constructor; [assumption|].
      eapply IH; [|reflexivity]. subst n. simpl. lia.
  - rewrite para_pass_single by (now left).
    rewrite line_pass_cons.
    destruct (N.eqb_spec a newline); [contradiction|].
    constructor; [assumption|].
    eapply IH; [|reflexivity]. subst n. simpl. lia.
Qed.

(** *** A newline of the input always ends as a break *)

Lemma includes_cons (p : jsstring) (a : N) (s : jsstring) :
  includes p s = true -> includes p (a :: s) = true.
Proof. intros H. cbn [includes]. rewrite H. apply orb_true_r. Qed.

Lemma includes_app_r (p a s : jsstring) :
  includes p s = true -> includes p (a ++ s) = true.
Proof. induction a; [trivial|]. intros H. cbn [app]. now apply includes_cons, IHa. Qed.

Lemma includes_at (p s : jsstring) :
  starts_with p s = true -> includes p s = true.
Proof. intros H. destruct s; cbn [includes]; now rewrite H. Qed.

Lemma spans_keep_newline (c : N) (d o cl s out : jsstring) :
  ~ In newline (c :: d) ->
  spans_marked (c :: d) o cl s out -> In newline s -> In newline out.
Proof.
  intros Hd H. induction H as [|x rest out Hx Hn H IH|ch s out Hno H IH]; intros Hin.
  - destruct Hin.
  - assert (Hx' : ~ In newline x).
    { intros Hi. unfold one_line in Hx. rewrite Forall_forall in Hx.
      specialize (Hx _ Hi). discriminate. }
    rewrite !in_app_iff in Hin. rewrite !in_app_iff.
    destruct Hin as [Hin|[Hin|[Hin|Hin]]]; try contradiction. auto.
  - destruct Hin as [->|Hin]; [now left | right; auto].
Qed.

Lemma breaks_show_newline (s out : jsstring) :
  breaks_marked s out -> In newline s ->
  includes (js "<br>") out || includes (js "</p>") out = true.
Proof.
  induction 1 as [|s out H IH|s out Hs H IH|ch s out Hc H IH]; intros Hin.
  - destruct Hin.
  - apply orb_true_iff; right. now apply includes_at.
  - apply orb_true_iff; left. now apply includes_at.
  - destruct Hin as [E|Hin]; [congruence|].
    apply orb_true_iff. apply IH in Hin. apply orb_true_iff in Hin.
    destruct Hin; [left|right]; now apply includes_cons.
Qed.

(* ------------------------------------------------------------------ *)
(** ** The client *)

Arguments js : simpl never.
Arguments formatMessage : simpl never.

Lemma get_field (data : json) (name : string) :
  str_eqb (js name) (js "length") = false ->
  get (Some data) (js name) =
  match data with
  | JNull => TypeError
  | _ => Ok (field data name)
  end.
Proof.
  intros H. destruct data; cbn [get field]; try reflexivity; now rewrite H.
Qed.

(** *** checkSystemStatus *)

Lemma checkSystemStatus_resume_ready (o : outcome) (s : State) :
  status_ready o = true ->
  settle (checkSystemStatus_resume o) s =
  enableChat (updateStatusIndicator "online" "System Ready" s).
Proof.
  destruct o as [e|data]; [discriminate|].
  unfold status_ready. intros H. apply andb_true_iff in H as [H1 H2].
  unfold settle, checkSystemStatus_resume, try_catch, bind, response_json, ret.
  destruct data; try discriminate.
  rewrite !get_field by reflexivity. cbn [eval ret].
  rewrite H1. cbn [eval ret]. rewrite H2. reflexivity.
Qed.

Lemma checkSystemStatus_resume_not_ready (o : outcome) (s : State) :
  status_ready o = false ->
  settle (checkSystemStatus_resume o) s =
  let failed := fun x =>
    showToast "error" (str "Failed to connect to server")
      (disableChat
         (updateStatusIndicator "offline" "Connection Failed"
            (log (ConsoleError (js "Status check failed:")) x))) in
  match o with
  | Resolved JNull | Rejected _ => failed s
  | Resolved data =>
      let reason := or_else (field data "message") (str "System is not ready") in
      let s1 := disableChat (updateStatusIndicator "offline" "System Unavailable" s) in
      if has_text reason then showToast "error" reason s1
      else failed (showToast_icon "error" s1)
  end.
Proof.
  destruct o as [e|data]; [reflexivity|].
  unfold status_ready. intros H.
  unfold settle, checkSystemStatus_resume, try_catch, bind, response_json, ret.
  destruct data; try reflexivity;
    rewrite !get_field by reflexivity; cbn [eval ret];
    cbn [field] in *; cbn [truthy andb] in *;
    try (unfold showToast_value;
         match goal with |- context [has_text ?r] => destruct (has_text r) end;
         reflexivity).
  destruct (truthy (lookup (js "rag_available") fields)); cbn [eval ret].
  - cbn [andb] in H. rewrite H. unfold showToast_value.
    match goal with |- context [has_text ?r] => destruct (has_text r) end; reflexivity.
  - unfold showToast_value.
    match goal with |- context [has_text ?r] => destruct (has_text r) end; reflexivity.
Qed.


Lemma notifications_app (a b : list effect) :
  notifications (a ++ b) = notifications a ++ notifications b.
Proof. apply filter_app. Qed.

(** C6. [checkSystemStatus] enables the chat input exactly when the status
    response resolves with both readiness flags true (true as JavaScript
    tests it; for the booleans of the API, the value [true]), and then the
    indicator is online and nothing is notified.  On every other outcome (a
    flag false or missing, a request or a body that fails) the indicator is
    offline, the field and the button are disabled, and one error
    notification is shown: the server's reason when there is one, else the
    default message, or the connection-failure message. *)
Theorem checkSystemStatus_enables_iff_ready (o : outcome) (s : State) :
  let s' := settle (checkSystemStatus_resume o) s in
  (chat_enabled s' = true <-> status_ready o = true) /\
  (forall data b1 b2,
      o = Resolved data ->
      field data "rag_available" = Some (JBool b1) ->
      field data "vertex_ai_initialized" = Some (JBool b2) ->
      (chat_enabled s' = true <-> b1 = true /\ b2 = true)) /\
  (status_ready o = true ->
     statusIndicator s' = (js "status-indicator online", js "System Ready") /\
     input_disabled (messageInput s') = false /\
     sendBtn_disabled s' = false /\
     trace s' = trace s) /\
  (status_ready o = false ->
     fst (statusIndicator s') = js "status-indicator offline" /\
     input_disabled (messageInput s') = true /\
     sendBtn_disabled s' = true /\
     notifications (trace s') =
       notifications (trace s) ++ [Notified (js "error") (status_reason o)] /\
     toast_show (toast s') = true /\
     toast_message (toast s') = status_reason o).
Proof.
  intros s'.
  assert (En : chat_enabled s' = status_ready o).
  { subst s'. destruct (status_ready o) eqn:R.
    - rewrite checkSystemStatus_resume_ready by assumption. reflexivity.
    - rewrite checkSystemStatus_resume_not_ready by assumption.
      destruct o as [e|[]]; cbn zeta;
        try match goal with |- context [has_text ?r] => destruct (has_text r) end;
        reflexivity. }
  split; [rewrite En; tauto|]. split; [|split].
  - intros data b1 b2 -> F1 F2. rewrite En. unfold status_ready.
    rewrite F1, F2. cbn [truthy]. apply andb_true_iff.
  - intros R. subst s'. rewrite checkSystemStatus_resume_ready by assumption.
    repeat split; reflexivity.
  - intros R. subst s'. rewrite checkSystemStatus_resume_not_ready by assumption.
    unfold status_reason.
    destruct o as [e|[]]; cbn zeta;
      try match goal with |- context [has_text ?r] => destruct (has_text r) end;
      cbn [showToast showToast_icon disableChat updateStatusIndicator
      set_clock log set_toast set_sendBtn_disabled set_messageInput
      set_statusIndicator statusIndicator messageInput sendBtn_disabled
      input_disabled trace toast toast_show toast_message fst status_reason];
      rewrite ?notifications_app, ?app_nil_r; repeat split; reflexivity.
Qed.


(** *** sendMessage while a send is in flight *)

Lemma sendMessage_typing (s : State) : isTyping s = true -> sendMessage s = s.
Proof. intros H. unfold sendMessage. rewrite H, orb_true_r. reflexivity. Qed.

(** C2. Invoked while the in-flight flag is set, [sendMessage] does nothing
    at all: the state is the one before, so the transcript has the length it
    had, [conversationHistory] is unchanged, and no chat request is issued or
    left under way. *)
Theorem sendMessage_in_flight_is_noop (s : State) :
  isTyping s = true ->
  sendMessage s = s /\
  length (transcript (sendMessage s)) = length (transcript s) /\
  conversationHistory (sendMessage s) = conversationHistory s /\
  chat_requests (trace (sendMessage s)) = chat_requests (trace s) /\
  pending (sendMessage s) = pending s.
Proof.
  intros H. rewrite (sendMessage_typing s H). repeat split; reflexivity.
Qed.

(** The same through the suggestion entry point, which first writes the
    input field. *)
Lemma sendSuggestion_in_flight (message : jsstring) (s : State) :
  isTyping s = true ->
  sendSuggestion message s =
  set_messageInput
    {| input_value := message;
       input_disabled := input_disabled (messageInput s);
       input_placeholder := input_placeholder (messageInput s) |} s.
Proof.
  intros H. unfold sendSuggestion.
  apply sendMessage_typing. exact H.
Qed.

(** *** clearConversation *)

Lemma clearConversation_resume_not_success (data : json) (s : State) :
  is_string (field data "status") "success" = false ->
  settle (clearConversation_resume (Resolved data)) s =
  match data with
  | JNull =>
      showToast "error" (str "Failed to clear conversation")
        (log (ConsoleError (js "Clear conversation error:")) s)
  | _ => s
  end.
Proof.
  intros H.
  unfold settle, clearConversation_resume, try_catch, bind, response_json, ret.
  rewrite get_field by reflexivity.
  destruct data; cbn [eval ret throw] in *; try rewrite H; reflexivity.
Qed.

Lemma clearConversation_resume_rejected (e : failure) (s : State) :
  settle (clearConversation_resume (Rejected e)) s =
  showToast "error" (str "Failed to clear conversation")
    (log (ConsoleError (js "Clear conversation error:")) s).
Proof. reflexivity. Qed.

(** C5, at the failing input.  A confirmed [clearConversation] whose
    response resolves with a status other than "success" leaves the state as
    it was, as the claim says, but shows no notification: the function has no
    branch for that case.  When the request throws, the error notification is
    shown and neither the history nor the transcript changes. *)
Theorem clearConversation_failure_status_shows_nothing (s : State) :
  let data := JObj [(js "status", JStr (js "error"));
                    (js "message", JStr (js "Failed to clear conversation"))] in
  settle (clearConversation_resume (Resolved data)) s = s /\
  notifications (trace (settle (clearConversation_resume (Resolved data)) s)) =
    notifications (trace s) /\
  (forall e,
      let s' := settle (clearConversation_resume (Rejected e)) s in
      conversationHistory s' = conversationHistory s /\
      messagesContainer s' = messagesContainer s /\
      notifications (trace s') =
        notifications (trace s) ++
        [Notified (js "error") (js "Failed to clear conversation")]).
Proof.
  intros data.
  assert (E : settle (clearConversation_resume (Resolved data)) s = s)
    by (apply (clearConversation_resume_not_success data s); reflexivity).
  rewrite E. repeat split; try reflexivity.
  cbn [clearConversation_resume settle trace showToast log set_clock set_toast].
  rewrite clearConversation_resume_rejected.
  cbn [trace showToast log set_clock set_toast].
  rewrite !notifications_app, app_nil_r. reflexivity.
Qed.

(** *** showToast and its timer *)

(** C9, at the failing input.  A toast shown 3000 ms after another one is
    hidden 2000 ms later, when the timer of the first runs: [showToast] sets
    a timer at every call and cancels none. *)
Theorem showToast_second_toast_hidden_early (s : State) :
  let s1 := showToast "error" (str "Failed to send message") s in
  let s2 := elapse 3000 s1 in
  let s3 := showToast "success" (str "Conversation cleared") s2 in
  let s4 := elapse 2000 s3 in
  toast_show (toast s3) = true /\
  toast_message (toast s3) = js "Conversation cleared" /\
  now s4 = (now s3 + 2000)%Z /\
  toast_message (toast s4) = js "Conversation cleared" /\
  toast_show (toast s4) = false.
Proof.
  intros s1 s2 s3 s4.
  assert (T : existsb (fun due => Z.leb due (now s3 + Z.of_N 2000)) (timers s3) = true).
  { apply existsb_exists. exists (now s + 5000)%Z. split.
    - subst s3 s2 s1. unfold showToast at 1. cbn [timers set_clock].
      apply in_or_app; left.
      unfold elapse.
      match goal with |- context [if ?b then _ else _] => destruct b end;
        cbn [hideToast timers set_toast set_clock];
        apply filter_In; (split; [cbn [showToast timers set_clock]; apply in_or_app; right; now left |
                                  cbn [showToast now set_clock log set_toast]; apply Z.ltb_lt; lia]).
    - subst s3 s2 s1. cbn [showToast now set_clock]. unfold elapse.
      match goal with |- context [if ?b then _ else _] => destruct b end;
        cbn [hideToast now set_toast set_clock showToast log]; apply Z.leb_le; lia. }
  repeat split; try reflexivity.
  - subst s4. unfold elapse. rewrite T. reflexivity.
  - subst s4. unfold elapse. rewrite T. reflexivity.
  - subst s4. unfold elapse. rewrite T. reflexivity.
Qed.

(** A toast on its own does stay the full delay: it is shown until 5000 ms
    have passed, and hidden then. *)
Lemma showToast_alone_stays_5s (type : string) (message : jsval) (s : State) (ms : N) :
  timers s = [] ->
  toast_show (toast (elapse ms (showToast type message s))) = N.ltb ms 5000.
Proof.
  intros H. unfold elapse. cbn [showToast timers set_clock now log set_toast].
  rewrite H. cbn [app existsb orb].
  rewrite orb_false_r.
  destruct (N.ltb_spec ms 5000) as [L|L].
  - replace (Z.leb _ _) with false by (symmetry; apply Z.leb_gt; lia). reflexivity.
  - replace (Z.leb _ _) with true by (symmetry; apply Z.leb_le; lia). reflexivity.
Qed.


(** *** loadConversationHistory *)

Lemma loadConversationHistory_resume_rejected (e : failure) (s : State) :
  settle (loadConversationHistory_resume (Rejected e)) s =
  log (ConsoleError (js "Load history error:")) s.
Proof. reflexivity. Qed.

Lemma loadConversationHistory_resume_not_success (data : json) (s : State) :
  is_string (field data "status") "success" = false ->
  settle (loadConversationHistory_resume (Resolved data)) s =
  match data with
  | JNull => log (ConsoleError (js "Load history error:")) s
  | _ => s
  end.
Proof.
  intros H.
  unfold settle, loadConversationHistory_resume, try_catch, bind, response_json, ret.
  rewrite get_field by reflexivity.
  destruct data; cbn [eval ret throw] in *; try rewrite H; reflexivity.
Qed.

Lemma loadConversationHistory_resume_empty (data : json) (s : State) :
  is_string (field data "status") "success" = true ->
  field data "history" = Some (JArr []) ->
  settle (loadConversationHistory_resume (Resolved data)) s = s.
Proof.
  intros H1 H2.
  unfold settle, loadConversationHistory_resume, try_catch, bind, response_json, ret.
  rewrite !get_field by reflexivity.
  destruct data; try discriminate.
  cbn [eval ret]. rewrite H1. cbn [eval ret]. rewrite H2. reflexivity.
Qed.

(** C10. When the history request fails (the request throws or the body is
    not JSON), resolves with a status other than "success", or returns an
    empty history, [loadConversationHistory] changes nothing the user sees:
    [conversationHistory] keeps its value, no message is rendered, the toast
    is untouched and no notification is emitted. *)
Theorem loadConversationHistory_silent_on_failure (s : State) :
  (forall e, history_silent (Rejected e) s) /\
  (forall data,
      is_string (field data "status") "success" = false ->
      history_silent (Resolved data) s) /\
  (forall data,
      is_string (field data "status") "success" = true ->
      field data "history" = Some (JArr []) ->
      history_silent (Resolved data) s).
Proof.
  unfold history_silent. split; [|split].
  - intros e. rewrite loadConversationHistory_resume_rejected.
    cbn [log conversationHistory messagesContainer toast trace].
    rewrite notifications_app, app_nil_r. repeat split; reflexivity.
  - intros data H. rewrite loadConversationHistory_resume_not_success by assumption.
    destruct data; try (repeat split; reflexivity).
    cbn [log conversationHistory messagesContainer toast trace].
    rewrite notifications_app, app_nil_r. repeat split; reflexivity.
  - intros data H1 H2. rewrite loadConversationHistory_resume_empty by assumption.
    repeat split; reflexivity.
Qed.

(** *** The status gate and the suggestion entry point *)

(** C4, at the failing input.  After a status response that reports the
    system not ready the indicator is offline and the field and the button
    are disabled, and a click on a suggestion still issues a chat request:
    [sendSuggestion] writes the field and calls [sendMessage], which tests
    the in-flight flag and nothing else. *)
Theorem sendSuggestion_sends_while_offline (page : Page) :
  let s0 := step (Settles 0 (Resolved not_ready_response)) (new_CementGPT page) in
  let s1 := step (SuggestionClick (js "What is in my corpus?")) s0 in
  fst (statusIndicator s0) = js "status-indicator offline" /\
  chat_enabled s0 = false /\
  fst (statusIndicator s1) = js "status-indicator offline" /\
  chat_enabled s1 = false /\
  chat_requests (trace s0) = [] /\
  chat_requests (trace s1) =
    [Fetch (js "/api/chat") (js "POST")
       (Some (JObj [(js "message", JStr (js "What is in my corpus?"))]))] /\
  isTyping s1 = true.
Proof.
  intros s0 s1. subst s1 s0. vm_compute. repeat split; reflexivity.
Qed.

(** Through the field and the button the gate holds: while they are disabled
    neither the Enter key nor a click reaches [sendMessage]. *)
Lemma disabled_controls_send_nothing (s : State) :
  chat_enabled s = false ->
  input_disabled (messageInput s) = sendBtn_disabled s ->
  step EnterKey s = s /\ step SendClick s = s.
Proof.
  unfold chat_enabled. intros H E. cbn [step]. rewrite <- E in *.
  destruct (input_disabled (messageInput s)); [split; reflexivity|discriminate].
Qed.


(** *** sendMessage, run symbolically *)

Lemma sendMessage_sends (s : State) :
  isTyping s = false ->
  trim (input_value (messageInput s)) <> [] ->
  sendMessage s =
  let message := trim (input_value (messageInput s)) in
  let typingId := js "typing-" ++ decimal (now s) in
  fetch "/api/chat" "POST" (Some (JObj [(js "message", JStr message)]))
    (ChatRequest typingId message)
    (appendChild (typing_element typingId)
       (set_isTyping true
          (appendChild (message_element (str "user") false message (now s))
             (set_messageInput
                {| input_value := [];
                   input_disabled := input_disabled (messageInput s);
                   input_placeholder := input_placeholder (messageInput s) |} s)))).
Proof.
  intros T M. unfold sendMessage. rewrite T.
  destruct (trim (input_value (messageInput s))) as [|c m] eqn:E; [congruence|].
  reflexivity.
Qed.

Lemma sendMessage_empty (s : State) :
  trim (input_value (messageInput s)) = [] -> sendMessage s = s.
Proof. intros E. unfold sendMessage. rewrite E. reflexivity. Qed.

Lemma has_text_ToString (v : jsval) :
  has_text v = match ToString v with Ok _ => true | TypeError => false end.
Proof. destruct v as [[]|]; reflexivity. Qed.

Lemma sendMessage_resume_settled (typingId message : jsstring) (o : outcome) (s : State) :
  settle (sendMessage_resume typingId message o) s = chat_settled typingId message o s.
Proof.
  destruct o as [e|data]; [reflexivity|].
  unfold settle, sendMessage_resume, finally, try_catch, chat_settled, chat_resolved.
  cbn [bind response_json ret exec_].
  rewrite get_field by reflexivity.
  destruct data; cbn [eval ret throw bind]; try reflexivity.
  generalize (removeTypingIndicator typingId s) as s1. intros s1.
  destruct (is_string (field (JObj fields) "status") "success");
    cbn [bind]; rewrite get_field by reflexivity; cbn [eval ret].
  - destruct (field (JObj fields) "response") as [[]|]; try reflexivity.
    cbn [bind ret addMessage str ToString ToString_json]. unfold push.
    destruct (conversationHistory (appendChild _ _)) as [[]|]; reflexivity.
  - unfold bind at 1. cbn [ret]. unfold bind at 1, showToast_value.
    rewrite has_text_ToString.
    destruct (ToString (field (JObj fields) "message")); reflexivity.
Qed.


(** *** Elements and the container *)

Lemma class_tokens_message (rest : jsstring) :
  class_tokens [] (js "message " ++ rest) = js "message" :: class_tokens [] rest.
Proof. reflexivity. Qed.

Lemma message_element_class (role : jsval) (isError : bool) (c : jsstring) (t : Z) :
  has_class "message" (message_element role isError c t) = true.
Proof.
  unfold has_class, message_element. cbn [el_className].
  rewrite class_tokens_message. cbn [existsb].
  now rewrite str_eqb_refl.
Qed.

Lemma typing_element_class (typingId : jsstring) :
  has_class "message" (typing_element typingId) = true.
Proof. reflexivity. Qed.

Lemma welcome_class : has_class "message" welcome = true.
Proof. reflexivity. Qed.





Lemma container_ok_app (l : list element) (e : element) :
  container_ok l -> has_class "message" e = true -> id_ok e ->
  container_ok (l ++ [e]).
Proof.
  intros ([rest ->] & C & I) He Ie. repeat split.
  - now exists (rest ++ [e]).
  - apply Forall_app. split; [assumption|now constructor].
  - apply Forall_app. split; [assumption|now constructor].
Qed.

Lemma typing_children_no_id (id : jsstring) :
  find_nodes (node_has_id id) typing_children = None.
Proof. reflexivity. Qed.

Lemma id_ok_with_children (id : jsstring) (e : element) (c : list node) :
  id_ok e -> find_nodes (node_has_id id) (el_children e) <> None ->
  id_ok (with_children c e).
Proof.
  intros [H|[i ->]] F; [now left|].
  exfalso. apply F. apply typing_children_no_id.
Qed.

Lemma remove_in_container_Forall (P : element -> Prop) (id : jsstring)
    (l : list element) :
  (forall e c, P e -> find_nodes (node_has_id id) (el_children e) <> None ->
               P (with_children c e)) ->
  Forall P l -> Forall P (remove_in_container id l).
Proof.
  intros W. induction 1 as [|e l He Hl IH]; [constructor|].
  cbn [remove_in_container]. destruct (has_id id e); [assumption|].
  destruct (find_nodes (node_has_id id) (el_children e)) eqn:F.
  - constructor; [|assumption]. apply W; [assumption|congruence].
  - now constructor.
Qed.

Lemma container_ok_remove (id : jsstring) (l : list element) :
  container_ok l -> container_ok (remove_in_container id l).
Proof.
  intros ([rest ->] & C & I). repeat split.
  - exists (remove_in_container id rest). reflexivity.
  - apply remove_in_container_Forall; [|assumption]. intros e c H _. exact H.
  - apply remove_in_container_Forall; [|assumption].
    intros e c H F. now apply (id_ok_with_children id).
Qed.




Lemma keep_first_message_seen (l : list element) :
  Forall (fun e => has_class "message" e = true) l ->
  keep_first_message true l = ([], cleared l).
Proof.
  induction 1 as [|e l He Hl IH]; [reflexivity|].
  cbn [keep_first_message cleared flat_map]. rewrite He, IH.
  destruct (prune_all true (el_children e)) as ((c & inner) & b). reflexivity.
Qed.

Lemma keep_first_message_welcome (l : list element) :
  container_ok l ->
  keep_first_message false l = ([welcome], cleared (tl l)).
Proof.
  intros ([rest ->] & C & I). inversion C as [|? ? Hw Hr]; subst.
  cbn [keep_first_message tl]. rewrite Hw, (keep_first_message_seen rest Hr).
  reflexivity.
Qed.

Lemma container_ok_welcome : container_ok [welcome].
Proof.
  split; [now exists []|]. split.
  - constructor; [reflexivity|constructor].
  - constructor; [now left|constructor].
Qed.

Lemma fold_log_core (l : list effect) (s : State) :
  core (fold_left (fun s e => log e s) l s) = core s.
Proof. revert s; induction l as [|e l IH]; intros s; [reflexivity|]. cbn [fold_left]. now rewrite IH. Qed.

Lemma remove_messages_container (s : State) :
  container_ok (messagesContainer s) ->
  messagesContainer (remove_messages s) = [welcome].
Proof.
  intros H. unfold remove_messages. rewrite (keep_first_message_welcome _ H).
  pose proof (fold_log_core (cleared (tl (messagesContainer s)))
                (set_messagesContainer [welcome] s)) as E.
  unfold core in E. now injection E.
Qed.

Lemma remove_messages_core (s : State) :
  container_ok (messagesContainer s) ->
  core (remove_messages s) = core (set_messagesContainer [welcome] s).
Proof.
  intros H. unfold remove_messages. rewrite (keep_first_message_welcome _ H).
  apply fold_log_core.
Qed.

(** *** Blocks that keep a property *)

Lemma preserves_ret {A} (P : State -> Prop) (a : A) : preserves P (ret a).
Proof. intros s H. exact H. Qed.

Lemma preserves_throw {A} (P : State -> Prop) : preserves P (@throw A).
Proof. intros s H. exact H. Qed.

Lemma preserves_bind {A B} (P : State -> Prop) (m : M A) (f : A -> M B) :
  preserves P m -> (forall a, preserves P (f a)) -> preserves P (bind m f).
Proof.
  intros Hm Hf s H. unfold bind. specialize (Hm s H).
  destruct (m s) as [a s'|s']; [apply Hf, Hm|exact Hm].
Qed.

Lemma preserves_exec (P : State -> Prop) (f : State -> State) :
  keeps P f -> preserves P (exec_ f).
Proof. intros Hf s H. apply Hf, H. Qed.

Lemma preserves_eval {A} (P : State -> Prop) (r : result A) : preserves P (eval r).
Proof. destruct r; intros s H; exact H. Qed.

Lemma preserves_try_catch (P : State -> Prop) (body handler : M unit) :
  preserves P body -> preserves P handler -> preserves P (try_catch body handler).
Proof.
  intros Hb Hh s H. unfold try_catch. specialize (Hb s H).
  destruct (body s) as [a s'|s']; [exact Hb|apply Hh, Hb].
Qed.

Lemma preserves_response_json (P : State -> Prop) (o : outcome) :
  preserves P (response_json o).
Proof. destruct o; intros s H; exact H. Qed.

Lemma preserves_for_each (P : State -> Prop) (f : json -> M unit) (l : list json) :
  (forall item, preserves P (f item)) -> preserves P (for_each f l).
Proof.
  intros Hf. induction l as [|item l IH]; [apply preserves_ret|].
  cbn [for_each]. apply preserves_bind; [apply Hf|intros _; exact IH].
Qed.

Lemma preserves_forEach (P : State -> Prop) (history : jsval) (f : json -> M unit) :
  (forall item, preserves P (f item)) -> preserves P (forEach history f).
Proof.
  intros Hf. destruct history as [[]|]; try apply preserves_throw.
  now apply preserves_for_each.
Qed.

Lemma settle_keeps (P : State -> Prop) (m : M unit) :
  preserves P m -> keeps P (settle m).
Proof. intros Hm s H. unfold settle. specialize (Hm s H). destruct (m s); exact Hm. Qed.

Lemma keeps_core (P : State -> Prop) (f : State -> State) :
  stable P -> (forall s, core (f s) = core s) -> keeps P f.
Proof. intros HP Hf s H. apply (HP s); [apply Hf|exact H]. Qed.

Lemma preserves_console_error (P : State -> Prop) (label : string) :
  stable P -> preserves P (console_error label).
Proof. intros HP. apply preserves_exec, keeps_core; [exact HP|reflexivity]. Qed.

Lemma keeps_showToast (P : State -> Prop) (type : string) (message : jsval) :
  stable P -> keeps P (showToast type message).
Proof. intros HP. apply keeps_core; [exact HP|reflexivity]. Qed.

Lemma preserves_showToast_value (P : State -> Prop) (type : string) (message : jsval) :
  stable P -> preserves P (showToast_value type message).
Proof.
  intros HP s H. unfold showToast_value.
  destruct (has_text message); (apply (HP s); [reflexivity|exact H]).
Qed.

Lemma keeps_updateStatusIndicator (P : State -> Prop) (status message : string) :
  stable P -> keeps P (updateStatusIndicator status message).
Proof. intros HP. apply keeps_core; [exact HP|reflexivity]. Qed.

Lemma keeps_enableChat (P : State -> Prop) : stable P -> keeps P enableChat.
Proof. intros HP. apply keeps_core; [exact HP|reflexivity]. Qed.

Lemma keeps_disableChat (P : State -> Prop) : stable P -> keeps P disableChat.
Proof. intros HP. apply keeps_core; [exact HP|reflexivity]. Qed.

Lemma keeps_set_conversationHistory (P : State -> Prop) (h : jsval) :
  stable P -> keeps P (set_conversationHistory h).
Proof. intros HP. apply keeps_core; [exact HP|reflexivity]. Qed.

Lemma preserves_push (P : State -> Prop) (a b : State -> json) :
  stable P -> preserves P (fun s => push (a s) (b s) s).
Proof.
  intros HP s H. unfold push. destruct (conversationHistory s) as [[]|]; try exact H.
  apply (HP s); [reflexivity|exact H].
Qed.

Lemma preserves_addMessage (P : State -> Prop) (role content : jsval) (isError : bool) :
  (forall c t, keeps P (appendChild (message_element role isError c t))) ->
  preserves P (addMessage role content isError).
Proof.
  intros HP s H. unfold addMessage.
  destruct (ToString role); destruct content as [[]|]; try exact H.
  apply HP, H.
Qed.

(** *** The container stays well formed *)

Lemma stable_page_ok : stable page_ok.
Proof.
  intros s s' E. unfold core in E. injection E as _ _ E1 E2.
  unfold page_ok. now rewrite E1, E2.
Qed.

Lemma keeps_page_ok_append (e : element) :
  has_class "message" e = true -> id_ok e -> keeps page_ok (appendChild e).
Proof.
  intros He Ie s [H1 H2]. split; [|exact H2].
  cbn [appendChild log set_messagesContainer messagesContainer].
  now apply container_ok_app.
Qed.

Lemma message_element_id_ok role isError c t : id_ok (message_element role isError c t).
Proof. now left. Qed.

Lemma keeps_page_ok_message role isError c t :
  keeps page_ok (appendChild (message_element role isError c t)).
Proof.
  apply keeps_page_ok_append; [apply message_element_class|apply message_element_id_ok].
Qed.

Lemma keeps_page_ok_typing (id : jsstring) :
  keeps page_ok (appendChild (typing_element id)).
Proof. apply keeps_page_ok_append; [reflexivity|right; now exists id]. Qed.

Lemma keeps_page_ok_removeTypingIndicator (id : jsstring) :
  keeps page_ok (removeTypingIndicator id).
Proof.
  intros s [H1 H2]. unfold removeTypingIndicator.
  destruct (getElementById id s) as [[e|n|n]|]; try (now split);
    (split; [|exact H2]);
    cbn [log set_messagesContainer messagesContainer]; now apply container_ok_remove.
Qed.

Lemma keeps_page_ok_remove_messages : keeps page_ok remove_messages.
Proof.
  intros s [H1 H2]. pose proof (remove_messages_core s H1) as E.
  unfold core in E. injection E as _ _ E1 E2.
  unfold page_ok. rewrite E1, E2. split; [apply container_ok_welcome|exact H2].
Qed.

Lemma keeps_page_ok_set_isTyping (b : bool) : keeps page_ok (set_isTyping b).
Proof. intros s H. exact H. Qed.

Ltac pres_step lem_add :=
  lazymatch goal with
  | |- preserves _ (try_catch _ _) => apply preserves_try_catch
  | |- preserves _ (bind _ _) => apply preserves_bind; [|intros ?]
  | |- preserves _ (response_json _) => apply preserves_response_json
  | |- preserves _ (eval _) => apply preserves_eval
  | |- preserves _ (ret _) => apply preserves_ret
  | |- preserves _ throw => apply preserves_throw
  | |- preserves _ (console_error _) => apply preserves_console_error
  | |- preserves _ (forEach _ _) => apply preserves_forEach; intros ?
  | |- preserves _ (fun s => push _ _ s) => apply preserves_push
  | |- preserves _ (addMessage _ _ _) =>
      apply preserves_addMessage; intros ? ?; apply lem_add
  | |- preserves _ (showToast_value _ _) => apply preserves_showToast_value
  | |- preserves _ (exec_ _) => apply preserves_exec
  | |- preserves _ (if ?b then _ else _) => destruct b
  | |- keeps _ (showToast _ _) => apply keeps_showToast
  | |- keeps _ (updateStatusIndicator _ _) => apply keeps_updateStatusIndicator
  | |- keeps _ enableChat => apply keeps_enableChat
  | |- keeps _ disableChat => apply keeps_disableChat
  | |- keeps _ (set_conversationHistory _) => apply keeps_set_conversationHistory
  end.

Lemma preserves_finally (P : State -> Prop) (body final : M unit) :
  preserves P body -> preserves P final -> preserves P (finally body final).
Proof.
  intros Hb Hf s H. unfold finally. specialize (Hb s H).
  destruct (body s) as [a s'|s']; [apply Hf, Hb|].
  specialize (Hf s' Hb). destruct (final s'); exact Hf.
Qed.

Lemma resume_page_ok (r : request) (o : outcome) : preserves page_ok (resume r o).
Proof.
  destruct r; cbn [resume].
  - unfold checkSystemStatus_resume.
    repeat pres_step keeps_page_ok_message; apply stable_page_ok.
  - unfold sendMessage_resume. apply preserves_finally.
    + repeat pres_step keeps_page_ok_message;
        try apply stable_page_ok; apply keeps_page_ok_removeTypingIndicator.
    + apply preserves_exec, keeps_page_ok_set_isTyping.
  - unfold clearConversation_resume.
    repeat pres_step keeps_page_ok_message;
      try apply stable_page_ok; apply keeps_page_ok_remove_messages.
  - unfold loadConversationHistory_resume.
    repeat pres_step keeps_page_ok_message; apply stable_page_ok.
Qed.


(** *** One send at a time *)

Lemma stable_flight_kept b q ph : stable (flight_kept b q ph).
Proof.
  intros s s' E [H1 H2]. split; [now apply (stable_page_ok s)|].
  unfold core in E. injection E as E1 E2 E3 E4.
  unfold placeholders. now rewrite E1, E2, E3.
Qed.

Lemma placeholders_append (e : element) (s : State) :
  placeholders (appendChild e s) =
  placeholders s ++ (if is_placeholder e then [e] else []).
Proof.
  unfold placeholders. cbn [appendChild log set_messagesContainer messagesContainer].
  now rewrite filter_app.
Qed.

Lemma keeps_flight_message b q ph role isError c t :
  keeps (flight_kept b q ph) (appendChild (message_element role isError c t)).
Proof.
  intros s (H1 & H2 & H3 & H4). split; [now apply keeps_page_ok_message|].
  rewrite placeholders_append. cbn [is_placeholder message_element el_inner].
  rewrite app_nil_r. auto.
Qed.

Lemma keeps_flight_remove_messages b q ph :
  keeps (flight_kept b q ph) remove_messages.
Proof.
  intros s (H1 & H2 & H3 & H4).
  split; [now apply keeps_page_ok_remove_messages|].
  destruct H1 as [H1 _]. pose proof (remove_messages_core s H1) as E.
  unfold core in E. injection E as E1 E2 E3 _. cbn in E1, E2, E3.
  unfold placeholders. rewrite E1, E2, E3. auto.
Qed.

Lemma nonchat_resume_flight (r : request) (o : outcome) b q ph :
  is_chat r = false -> preserves (flight_kept b q ph) (resume r o).
Proof.
  destruct r; [intros _|discriminate|intros _|intros _]; cbn [resume].
  - unfold checkSystemStatus_resume.
    repeat pres_step (keeps_flight_message b q ph); apply stable_flight_kept.
  - unfold clearConversation_resume.
    repeat pres_step (keeps_flight_message b q ph);
      try apply stable_flight_kept; apply keeps_flight_remove_messages.
  - unfold loadConversationHistory_resume.
    repeat pres_step (keeps_flight_message b q ph); apply stable_flight_kept.
Qed.


Lemma filter_remove_nth {A} (p : A -> bool) (l : list A) (i : nat) (x : A) :
  nth_error l i = Some x ->
  if p x
  then exists a b, filter p l = a ++ x :: b /\ filter p (remove_nth i l) = a ++ b
  else filter p (remove_nth i l) = filter p l.
Proof.
  revert i; induction l as [|y l IH]; intros [|i] H; try discriminate.
  - cbn in H. injection H as ->. cbn [remove_nth filter].
    destruct (p x); [now exists [], (filter p l)|reflexivity].
  - cbn in H. specialize (IH i H). cbn [remove_nth filter].
    destruct (p x).
    + destruct IH as (a & b & E1 & E2). destruct (p y).
      * exists (y :: a), b. now rewrite E1, E2.
      * now exists a, b.
    + now rewrite IH.
Qed.



Lemma removeTypingIndicator_flight (id : jsstring) (s : State) :
  pending (removeTypingIndicator id s) = pending s /\
  isTyping (removeTypingIndicator id s) = isTyping s.
Proof.
  unfold removeTypingIndicator.
  destruct (getElementById id s) as [[e|n|n]|]; split; reflexivity.
Qed.





(** *** The invariant of the event loop *)

Lemma stable_invariant : stable invariant.
Proof.
  intros s s' E (H1 & H2 & H3). unfold core in E. injection E as E1 E2 E3 E4.
  unfold invariant, one_flight in *.
  now rewrite E1, E2, E3, E4.
Qed.



Lemma single_one_flight (s : State) : single_flight s -> one_flight s.
Proof.
  unfold single_flight, one_flight.
  destruct (filter is_chat (pending s)) as [|[] [|]]; tauto.
Qed.

Lemma new_CementGPT_invariant (page : Page) : invariant (new_CementGPT page).
Proof.
  split; [|split].
  - reflexivity.
  - apply container_ok_welcome.
  - reflexivity.
Qed.


Lemma idle_one_flight (s : State) :
  one_flight s -> isTyping s = false -> filter is_chat (pending s) = [].
Proof.
  unfold one_flight. intros H T.
  destruct (filter is_chat (pending s)) as [|[] [|]]; try contradiction;
    congruence.
Qed.


Lemma sendMessage_invariant (s : State) : invariant s -> invariant (sendMessage s).
Proof.
  intros H.
  destruct (isTyping s) eqn:T.
  { now rewrite (sendMessage_typing s T). }
  destruct (trim (input_value (messageInput s))) as [|c m] eqn:M.
  { now rewrite (sendMessage_empty s M). }
  rewrite sendMessage_sends by (assumption || congruence). rewrite M.
  destruct H as (H1 & H2 & H3).
  pose proof (idle_one_flight s H1 T) as Q.
  split; [|split].
  - unfold one_flight in *.
    cbn [fetch set_pending log appendChild set_messagesContainer set_isTyping
         set_messageInput pending isTyping messagesContainer].
    rewrite !filter_app, Q. reflexivity.
  - cbn [fetch set_pending log appendChild set_messagesContainer set_isTyping
         set_messageInput messagesContainer].
    apply container_ok_app; [apply container_ok_app; [assumption| |]| |].
    + apply message_element_class.
    + apply message_element_id_ok.
    + reflexivity.
    + right. eexists. reflexivity.
  - exact H3.
Qed.


(** A method from its response on leaves the requests under way as they
    are. *)
Lemma remove_messages_pending (s : State) :
  pending (remove_messages s) = pending s /\
  isTyping (remove_messages s) = isTyping s.
Proof.
  unfold remove_messages.
  destruct (keep_first_message false (messagesContainer s)) as [kept removed].
  pose proof (fold_log_core removed (set_messagesContainer kept s)) as E.
  unfold core in E. injection E as E1 E2 _ _. now split.
Qed.

Lemma resume_pending (q : list request) (r : request) (o : outcome) :
  preserves (fun s => pending s = q) (resume r o).
Proof.
  assert (S : stable (fun s => pending s = q)).
  { intros s s' E H. unfold core in E. injection E as _ E _ _. congruence. }
  assert (A : forall e, keeps (fun s => pending s = q) (appendChild e))
    by (intros e s H; exact H).
  destruct r; cbn [resume].
  - unfold checkSystemStatus_resume. repeat pres_step A; exact S.
  - unfold sendMessage_resume. apply preserves_finally.
    + repeat pres_step A; try exact S.
      all: intros s H; now rewrite (proj1 (removeTypingIndicator_flight _ s)).
    + apply preserves_exec. intros s H. exact H.
  - unfold clearConversation_resume. repeat pres_step A; try exact S.
    intros s H. now rewrite (proj1 (remove_messages_pending s)).
  - unfold loadConversationHistory_resume. repeat pres_step A; exact S.
Qed.

Lemma flight_kept_one (s s' : State) (ph : list element) :
  one_flight s ->
  flight_kept (isTyping s) (filter is_chat (pending s)) ph s' ->
  one_flight s'.
Proof.
  unfold one_flight. intros H (_ & H2 & H3 & _). now rewrite H3, H2.
Qed.

Lemma settles_invariant (i : nat) (o : outcome) (r : request) (s : State) :
  invariant s -> nth_error (pending s) i = Some r ->
  invariant (settle (resume r o) (set_pending (remove_nth i (pending s)) s)).
Proof.
  intros H N. pose proof H as (H1 & H2 & H3).
  set (s1 := set_pending (remove_nth i (pending s)) s).
  assert (O1 : page_ok s1) by (now split).
  pose proof (settle_keeps page_ok _ (resume_page_ok r o) s1 O1) as [C S].
  split; [|now split].
  pose proof (filter_remove_nth is_chat (pending s) i r N) as F.
  destruct (is_chat r) eqn:R.
  - destruct r as [|id message| |]; try discriminate.
    destruct F as (a & b & F1 & F2).
    assert (Q : filter is_chat (pending s1) = []).
    { unfold s1. cbn [pending set_pending]. rewrite F2.
      unfold one_flight in H1. rewrite F1 in H1.
      destruct a as [|x [|y a]]; cbn in H1.
      - destruct b; [reflexivity|contradiction].
      - destruct x; contradiction.
      - destruct x; contradiction. }
    pose proof (settle_keeps _ _ (resume_pending (pending s1) (ChatRequest id message) o)
                  s1 eq_refl) as B.
    cbn beta in B. unfold one_flight. rewrite B, Q.
    cbn [resume]. rewrite sendMessage_resume_settled. reflexivity.
  - apply (flight_kept_one s _ (placeholders s1)).
    + exact H1.
    + apply (settle_keeps _ _ (nonchat_resume_flight r o _ _ _ R)).
      split; [exact O1|]. repeat split.
      * unfold s1. cbn [pending set_pending]. exact F.
      * now right.
Qed.


Lemma step_invariant (e : event) (s : State) : invariant s -> invariant (step e s).
Proof.
  intros H. destruct e; cbn [step].
  - destruct (input_disabled (messageInput s)); [exact H|].
    apply (stable_invariant s); [reflexivity|exact H].
  - destruct (input_disabled (messageInput s)); [exact H|].
    now apply sendMessage_invariant.
  - destruct (sendBtn_disabled s); [exact H|].
    now apply sendMessage_invariant.
  - unfold sendSuggestion. apply sendMessage_invariant.
    apply (stable_invariant s); [reflexivity|exact H].
  - unfold clearConversation. destruct confirmed; cbn [negb]; [|exact H].
    destruct H as (H1 & H2 & H3). split; [|now split].
    unfold one_flight in *.
    cbn [fetch set_pending log pending isTyping messagesContainer].
    rewrite filter_app. cbn [filter is_chat]. now rewrite app_nil_r.
  - destruct (nth_error (pending s) i) as [r|] eqn:N; [|exact H].
    now apply settles_invariant.
  - unfold elapse.
    match goal with |- context [if ?b then _ else _] => destruct b end;
      (apply (stable_invariant s); [reflexivity|exact H]).
Qed.


(** Every state the client reaches satisfies the invariant: at most one send
    is in flight, the flag is set exactly then, the welcome message stays
    first, and the field [systemStatus] is never written. *)
Lemma reachable_invariant (page : Page) (s : State) :
  reachable page s -> invariant s.
Proof.
  induction 1 as [|e s R IH]; [apply new_CementGPT_invariant|].
  now apply step_invariant.
Qed.

(** *** What a settled send did to the page *)

Lemma removals_app (a b : list effect) : removals (a ++ b) = removals a ++ removals b.
Proof. apply filter_app. Qed.





















Lemma fold_log_trace (l : list effect) (s : State) :
  trace (fold_left (fun s e => log e s) l s) = trace s ++ l.
Proof.
  revert s; induction l as [|e l IH]; intros s; [now rewrite app_nil_r|].
  cbn [fold_left]. rewrite IH. cbn [log trace]. now rewrite <- app_assoc.
Qed.

Lemma fold_log_history (l : list effect) (s : State) :
  conversationHistory (fold_left (fun s e => log e s) l s) = conversationHistory s.
Proof. revert s; induction l as [|e l IH]; intros s; [reflexivity|]. cbn [fold_left]. now rewrite IH. Qed.

Lemma removals_cleared (l : list element) : removals (cleared l) = map Removed l.
Proof.
  unfold removals, cleared. induction l as [|e l IH]; [reflexivity|].
  cbn [flat_map map]. rewrite <- app_comm_cons. cbn [filter].
  rewrite filter_app, IH. f_equal.
  assert (D : forall ns, filter (fun e => match e with Removed _ => true | _ => false end)
                           (map Detached ns) = [])
    by (induction ns as [|? ? IHn]; [reflexivity|exact IHn]).
  now rewrite D.
Qed.

Lemma notifications_cleared (l : list element) : notifications (cleared l) = [].
Proof.
  unfold notifications, cleared. induction l as [|e l IH]; [reflexivity|].
  cbn [flat_map]. rewrite <- app_comm_cons. cbn [filter].
  rewrite filter_app, IH, app_nil_r.
  induction (snd (fst (prune_all true (el_children e)))) as [|? ? IHn];
    [reflexivity|exact IHn].
Qed.

Lemma remove_messages_trace (s : State) :
  container_ok (messagesContainer s) ->
  trace (remove_messages s) = trace s ++ cleared (tl (messagesContainer s)).
Proof.
  intros C. unfold remove_messages. rewrite (keep_first_message_welcome _ C).
  now rewrite fold_log_trace.
Qed.

Lemma clearConversation_resume_success (data : json) (s : State) :
  is_string (field data "status") "success" = true ->
  settle (clearConversation_resume (Resolved data)) s =
  showToast "success" (str "Conversation cleared")
    (set_conversationHistory (Some (JArr [])) (remove_messages s)).
Proof.
  intros H.
  unfold settle, clearConversation_resume, try_catch, bind, response_json, ret.
  rewrite get_field by reflexivity.
  destruct data; try discriminate. cbn [eval ret]. rewrite H. reflexivity.
Qed.

(** *** The history stays a sequence *)

Lemma sendMessage_history (s : State) :
  conversationHistory (sendMessage s) = conversationHistory s.
Proof.
  destruct (isTyping s) eqn:T.
  { now rewrite (sendMessage_typing s T). }
  destruct (trim (input_value (messageInput s))) as [|c m] eqn:M.
  { now rewrite (sendMessage_empty s M). }
  rewrite sendMessage_sends by (assumption || congruence). reflexivity.
Qed.

Lemma chat_failed_history (id : jsstring) (s : State) :
  conversationHistory (chat_failed id s) = conversationHistory s.
Proof.
  unfold chat_failed, removeTypingIndicator.
  destruct (getElementById id _) as [[e|n|n]|]; reflexivity.
Qed.

Lemma chat_settled_history (id message : jsstring) (o : outcome) (s : State) :
  is_array (conversationHistory s) ->
  is_array (conversationHistory (chat_settled id message o s)).
Proof.
  intros A. unfold chat_settled. cbn [set_isTyping conversationHistory].
  destruct o as [e|data]; [now rewrite chat_failed_history|].
  assert (A1 : is_array (conversationHistory (removeTypingIndicator id s))).
  { unfold removeTypingIndicator.
    destruct (getElementById id s) as [[e|n|n]|]; exact A. }
  generalize dependent (removeTypingIndicator id s). intros s1 A1.
  unfold chat_resolved.
  destruct data; try exact A1; try (now rewrite chat_failed_history).
  destruct (is_string _ _);
    [|destruct (ToString _); [exact A1|now rewrite chat_failed_history]].
  destruct (field _ _) as [[]|]; try (now rewrite chat_failed_history).
  cbn [conversationHistory appendChild log set_messagesContainer].
  destruct A1 as [l ->]. eexists. reflexivity.
Qed.

Lemma keeps_history_append (h : jsval) role isError c t :
  keeps (fun s => conversationHistory s = h)
    (appendChild (message_element role isError c t)).
Proof. intros s H. exact H. Qed.

Lemma loadConversationHistory_resume_history (data : json) (s : State) :
  is_array (conversationHistory s) ->
  (is_string (field data "status") "success" = true -> is_array (field data "history")) ->
  is_array (conversationHistory (settle (loadConversationHistory_resume (Resolved data)) s)).
Proof.
  intros A W.
  destruct (is_string (field data "status") "success") eqn:S.
  2:{ rewrite loadConversationHistory_resume_not_success by assumption.
      destruct data; exact A. }
  destruct (W eq_refl) as [l Hl].
  unfold settle, loadConversationHistory_resume, try_catch, response_json.
  destruct data; try discriminate.
  unfold bind at 1 2. cbn [ret].
  rewrite (get_field _ "status" eq_refl). cbn [eval ret]. rewrite S.
  unfold bind at 1 2 3.
  rewrite (get_field (JObj fields) "history" eq_refl). cbn [eval ret]. rewrite Hl.
  change (get (Some (JArr l)) (js "length"))
    with (@Ok jsval (Some (JNum (count (length l))))).
  cbn [eval ret gt_zero count num_positive].
  destruct (Nat.ltb 0 (length l)); [|exact A].
  unfold bind at 1 2. cbn [eval ret exec_ forEach].
  assert (P : preserves (fun s => conversationHistory s = Some (JArr l))
                (for_each
                   (fun item =>
                      role <- eval (get (Some item) (js "role")) ;;
                      message <- eval (get (Some item) (js "message")) ;;
                      addMessage role message false) l)).
  { apply preserves_for_each. intros item.
    apply preserves_bind; [apply preserves_eval|intros role].
    apply preserves_bind; [apply preserves_eval|intros message].
    apply preserves_addMessage. intros c t. apply keeps_history_append. }
  specialize (P (set_conversationHistory (Some (JArr l)) s) eq_refl).
  destruct (for_each _ l _) as [u s'|s'].
  - exists l. exact P.
  - cbn [console_error exec_ log conversationHistory]. exists l. exact P.
Qed.

Lemma step_history_array (e : event) (s : State) :
  is_array (conversationHistory s) ->
  history_well_formed e s ->
  is_array (conversationHistory (step e s)).
Proof.
  intros A W. destruct e; cbn [step].
  - destruct (input_disabled (messageInput s)); exact A.
  - destruct (input_disabled (messageInput s)); [exact A|now rewrite sendMessage_history].
  - destruct (sendBtn_disabled s); [exact A|now rewrite sendMessage_history].
  - unfold sendSuggestion. now rewrite sendMessage_history.
  - unfold clearConversation. destruct confirmed; exact A.
  - destruct (nth_error (pending s) i) as [r|] eqn:N; [|exact A].
    set (s1 := set_pending (remove_nth i (pending s)) s).
    assert (A1 : is_array (conversationHistory s1)) by exact A.
    destruct r; cbn [resume].
    + destruct (status_ready o) eqn:R.
      * now rewrite checkSystemStatus_resume_ready.
      * rewrite checkSystemStatus_resume_not_ready by assumption.
        destruct o as [f|[]]; try exact A1; cbn zeta;
          destruct (has_text _); exact A1.
    + rewrite sendMessage_resume_settled. now apply chat_settled_history.
    + destruct o as [f|data]; [exact A1|].
      destruct (is_string (field data "status") "success") eqn:S.
      * rewrite clearConversation_resume_success by assumption. now exists [].
      * rewrite clearConversation_resume_not_success by assumption.
        destruct data; exact A1.
    + destruct o as [f|data]; [exact A1|].
      apply loadConversationHistory_resume_history; [exact A1|].
      intros S. exact (W i data eq_refl N S).
  - unfold elapse.
    match goal with |- context [if ?b then _ else _] => destruct b end; exact A.
Qed.

(** As long as the history endpoint answers as its contract says, the
    history of the client is a sequence in every state it reaches. *)
Lemma history_is_a_sequence (page : Page) (es : list event) :
  let states := fun es => run_events es (new_CementGPT page) in
  (forall n e, nth_error es n = Some e -> history_well_formed e (states (firstn n es))) ->
  reachable page (states es) /\ is_array (conversationHistory (states es)).
Proof.
  intros states. induction es as [|e es IH] using rev_ind; intros W.
  - split; [apply reach_new|now exists []].
  - assert (W' : forall n e0, nth_error es n = Some e0 ->
                   history_well_formed e0 (states (firstn n es))).
    { intros n e0 N. assert (L : n < length es) by (apply nth_error_Some; congruence).
      specialize (W n e0). rewrite nth_error_app1, firstn_app in W by assumption.
      replace (n - length es) with 0 in W by lia. rewrite firstn_O, app_nil_r in W.
      now apply W. }
    destruct (IH W') as [R A].
    unfold states in *. unfold run_events in *. rewrite fold_left_app. cbn [fold_left].
    split; [now apply reach_step|].
    apply step_history_array; [exact A|].
    specialize (W (length es) e).
    rewrite nth_error_app2, Nat.sub_diag, firstn_app, Nat.sub_diag, firstn_all in W by lia.
    rewrite firstn_O, app_nil_r in W. now apply W.
Qed.

(* ------------------------------------------------------------------ *)
(** ** The formatter *)

Lemma formatMessage_converted (content : jsstring) :
  formatMessage content =
  if includes (js "<br>") (converted content) || includes (js "</p>") (converted content)
  then js "<p>" ++ converted content ++ js "</p>"
  else converted content.
Proof. reflexivity. Qed.

Lemma wraps_iff (content : jsstring) :
  wraps content <->
  includes (js "<br>") (converted content) || includes (js "</p>") (converted content) = true.
Proof.
  unfold wraps. rewrite formatMessage_converted.
  destruct (includes (js "<br>") (converted content) || includes (js "</p>") (converted content)).
  - tauto.
  - split; [|discriminate]. intros H. apply (f_equal (@length N)) in H.
    rewrite !length_app in H.
    change (length (js "<p>")) with 3 in H. change (length (js "</p>")) with 4 in H.
    lia.
Qed.

(** C8, as amended.  For every input string [formatMessage] marks, from
    left to right, each span [**x**] as bold, then each span [*x*] as italic,
    then each span [`x`] as code (a span being the delimiter, text [x] on one
    line, and the nearest delimiter after it); it then turns every double
    newline into a paragraph break and every newline left into a line break,
    so that no newline stays; and it wraps the converted text in a paragraph
    element exactly when that text contains ["<br>"] or ["</p>"], which is
    so whenever the input had a newline, and also when the input already
    held that markup.  The example of the claim yields bold, italic and code
    markup with a paragraph break before "next para". *)
Theorem formatMessage_marks_spans_and_breaks (content : jsstring) :
  spans_marked (js "**") (js "<strong>") (js "</strong>")
    content (bold_pass content) /\
  spans_marked (js "*") (js "<em>") (js "</em>")
    (bold_pass content) (italic_pass (bold_pass content)) /\
  spans_marked (js "`") (js "<code>") (js "</code>")
    (italic_pass (bold_pass content)) (code_pass (italic_pass (bold_pass content))) /\
  breaks_marked (code_pass (italic_pass (bold_pass content))) (converted content) /\
  ~ In newline (formatMessage content) /\
  (formatMessage content = converted content \/ wraps content) /\
  (wraps content <->
   includes (js "<br>") (converted content) || includes (js "</p>") (converted content) = true) /\
  (In newline content -> wraps content) /\
  formatMessage example_input =
    js "<p><strong>bold</strong> and <em>italic</em> and <code>code</code></p><p>next para</p>".
Proof.
  assert (Hb : spans_marked (js "**") (js "<strong>") (js "</strong>")
                 content (bold_pass content))
    by (unfold bold_pass; rewrite bold_re_delim; apply replace_delim_spans).
  assert (Hi : spans_marked (js "*") (js "<em>") (js "</em>")
                 (bold_pass content) (italic_pass (bold_pass content)))
    by (unfold italic_pass; rewrite italic_re_delim; apply replace_delim_spans).
  assert (Hc : spans_marked (js "`") (js "<code>") (js "</code>")
                 (italic_pass (bold_pass content))
                 (code_pass (italic_pass (bold_pass content))))
    by (unfold code_pass; rewrite code_re_delim; apply replace_delim_spans).
  pose proof (breaks_passes (code_pass (italic_pass (bold_pass content)))) as Hbr.
  fold (converted content) in Hbr.
  assert (Hn : ~ In newline (converted content)) by apply line_pass_no_newline.
  do 4 (split; [assumption|]).
  split; [|split; [|split; [apply wraps_iff|split]]].
  - rewrite formatMessage_converted. destruct (_ || _); [|exact Hn].
    intros H. rewrite !in_app_iff in H.
    destruct H as [H|[H|H]]; [|contradiction|];
      vm_compute in H; intuition discriminate.
  - unfold wraps. rewrite formatMessage_converted. destruct (_ || _); tauto.
  - intros H. apply wraps_iff. apply (breaks_show_newline _ _ Hbr).
    apply (spans_keep_newline backtick [] _ _ _ _ ltac:(vm_compute; intuition discriminate) Hc).
    apply (spans_keep_newline star [] _ _ _ _ ltac:(vm_compute; intuition discriminate) Hi).
    apply (spans_keep_newline star [star] _ _ _ _ ltac:(vm_compute; intuition discriminate) Hb).
    exact H.
  - vm_compute. reflexivity.
Qed.

(** C8 as stated fails: the text ["<br>"] has no newline, so that no break
    is produced, and it is wrapped in a paragraph all the same. *)
Lemma formatMessage_wraps_without_break :
  ~ (wraps (js "<br>") <-> In newline (js "<br>")).
Proof.
  intros [H _].
  assert (W : wraps (js "<br>")) by (vm_compute; reflexivity).
  specialize (H W). vm_compute in H. intuition discriminate.
Qed.


(* ------------------------------------------------------------------ *)
(** ** The corpus dialog *)

Lemma trim_start_blank (s : jsstring) :
  trim_start s = [] <-> Forall (fun c => is_blank c = true) s.
Proof.
  induction s as [|c s IH]; cbn [trim_start].
  - split; [constructor|reflexivity].
  - fold (is_blank c). destruct (is_blank c) eqn:B.
    + rewrite IH. split; [now constructor|now inversion 1].
    + split; [discriminate|]. inversion 1; congruence.
Qed.

Lemma trim_start_kept (s : jsstring) (c : N) :
  is_blank c = false -> trim_start (s ++ [c]) <> [].
Proof.
  intros B. induction s as [|d s IH]; cbn [trim_start app].
  - fold (is_blank c). rewrite B. discriminate.
  - fold (is_blank d). destruct (is_blank d); [exact IH|discriminate].
Qed.

Lemma trim_start_head (s : jsstring) (c : N) (r : jsstring) :
  trim_start s = c :: r -> is_blank c = false.
Proof.
  induction s as [|d s IH]; cbn [trim_start]; [discriminate|].
  fold (is_blank d). destruct (is_blank d) eqn:B; [exact IH|].
  intros E. injection E as <- _. exact B.
Qed.

(** [trim] leaves nothing exactly of the strings made of white space and
    line terminators. *)
Lemma trim_empty_iff (s : jsstring) :
  trim s = [] <-> Forall (fun c => is_blank c = true) s.
Proof.
  rewrite <- trim_start_blank. unfold trim. split.
  - intros E. destruct (trim_start s) as [|c r] eqn:T; [reflexivity|].
    exfalso. apply (trim_start_kept (rev r) c (trim_start_head s c r T)).
    apply (f_equal (@rev N)) in E. rewrite rev_involutive in E. exact E.
  - intros ->. reflexivity.
Qed.

Lemma refreshCorpora_resume_finish (o : outcome) (a : Client) :
  finish (refreshCorpora_resume o) a =
  match panel_after o with
  | PanelError text =>
      if answered o && negb (succeeded o)
      then set_corporaList (PanelError text) a
      else set_corporaList (PanelError text)
             (on_chat (log (ConsoleError (js "Refresh corpora error:"))) a)
  | p => set_corporaList p a
  end.
Proof.
  destruct o as [e|data]; [reflexivity|].
  unfold finish, refreshCorpora_resume, try_else, and_then at 1 2, json_of, done.
  rewrite get_field by reflexivity.
  destruct data; cbn [value_of done raise panel_after answered succeeded field
                      undefined is_string andb negb]; try reflexivity.
  destruct (is_string (lookup (js "status") fields) "success");
    unfold and_then at 1; rewrite get_field by reflexivity;
    cbn [value_of done field andb negb orb].
  - destruct (lookup (js "response") fields) as [[]|]; reflexivity.
  - rewrite has_text_ToString. unfold and_then.
    destruct (ToString (lookup (js "message") fields)); reflexivity.
Qed.

Lemma createCorpus_resume_finish (corpusName : jsstring) (o : outcome) (a : Client) :
  finish (createCorpus_resume corpusName o) a =
  hideLoadingOverlay
    (if succeeded o then
       refreshCorpora
         (set_newCorpusName []
            (on_chat (showToast "success" (Some (JStr (created_message corpusName)))) a))
     else if answered o then
       on_chat (showToast "error"
                  (match o with Resolved data => field data "message" | _ => undefined end)) a
     else
       on_chat (showToast "error" (str "Failed to create corpus"))
         (on_chat (log (ConsoleError (js "Create corpus error:"))) a)).
Proof.
  destruct o as [e|data]; [reflexivity|].
  unfold finish, createCorpus_resume, at_last, try_else, and_then at 1 2, json_of, done.
  rewrite get_field by reflexivity.
  destruct data; cbn [value_of done raise answered succeeded field undefined is_string];
    try reflexivity;
    try (unfold and_then at 1; rewrite get_field by reflexivity; reflexivity).
  destruct (is_string (lookup (js "status") fields) "success"); [reflexivity|].
  unfold and_then at 1. rewrite get_field by reflexivity.
  cbn [value_of done orb field]. unfold on_chat_block, showToast_value.
  destruct (has_text (lookup (js "message") fields)); reflexivity.
Qed.

Lemma addDocument_resume_finish (o : outcome) (a : Client) :
  finish (addDocument_resume o) a =
  hideLoadingOverlay
    (if succeeded o then
       set_documentUrl []
         (set_targetCorpus []
            (on_chat (showToast "success" (str "Document added successfully")) a))
     else if answered o then
       on_chat (showToast "error"
                  (match o with Resolved data => field data "message" | _ => undefined end)) a
     else
       on_chat (showToast "error" (str "Failed to add document"))
         (on_chat (log (ConsoleError (js "Add document error:"))) a)).
Proof.
  destruct o as [e|data]; [reflexivity|].
  unfold finish, addDocument_resume, at_last, try_else, and_then at 1 2, json_of, done.
  rewrite get_field by reflexivity.
  destruct data; cbn [value_of done raise answered succeeded field undefined is_string];
    try reflexivity;
    try (unfold and_then at 1; rewrite get_field by reflexivity; reflexivity).
  destruct (is_string (lookup (js "status") fields) "success"); [reflexivity|].
  unfold and_then at 1. rewrite get_field by reflexivity.
  cbn [value_of done orb field]. unfold on_chat_block, showToast_value.
  destruct (has_text (lookup (js "message") fields)); reflexivity.
Qed.


Lemma corpus_requests_app (a b : list effect) :
  corpus_requests (a ++ b) = corpus_requests a ++ corpus_requests b.
Proof. apply filter_app. Qed.

Lemma chat_requests_app (a b : list effect) :
  chat_requests (a ++ b) = chat_requests a ++ chat_requests b.
Proof. apply filter_app. Qed.

Lemma nth_error_last {A} (l : list A) (x : A) :
  nth_error (l ++ [x]) (length l) = Some x.
Proof. now rewrite nth_error_app2, Nat.sub_diag by lia. Qed.

Lemma remove_nth_last {A} (l : list A) (x : A) :
  remove_nth (length l) (l ++ [x]) = l.
Proof. induction l as [|y l IH]; [reflexivity|]. cbn. now rewrite IH. Qed.

(** [refreshCorpora] shows the loading text and asks for the list; when the
    request is over the panel shows the formatted list, the server's reason,
    or the plain failure text, and nothing else tells of a failure: no
    notification is shown, and the toast, the overlay and the modal are as
    they were. *)
Theorem refreshCorpora_reports_in_panel (o : outcome) (a : Client) :
  let a1 := refreshCorpora a in
  let a2 := client_step (CorpusSettles (length (corpus_pending a)) o) a1 in
  corporaList a1 = PanelLoading /\
  corpus_pending a1 = corpus_pending a ++ [ListRequest] /\
  trace (chat a1) = trace (chat a) ++ [Fetch (js "/api/corpus/list") (js "GET") None] /\
  corporaList a2 = panel_after o /\
  corpus_pending a2 = corpus_pending a /\
  notifications (trace (chat a2)) = notifications (trace (chat a)) /\
  corpus_requests (trace (chat a2)) = corpus_requests (trace (chat a1)) /\
  toast (chat a2) = toast (chat a) /\
  loadingOverlay_show a2 = loadingOverlay_show a /\
  corpusModal_show a2 = corpusModal_show a.
Proof.
  intros a1 a2.
  assert (P1 : corpus_pending a1 = corpus_pending a ++ [ListRequest]) by reflexivity.
  assert (E : a2 = finish (refreshCorpora_resume o)
                     (set_corpus_pending (corpus_pending a) a1)).
  { unfold a2. cbn [client_step]. rewrite P1, nth_error_last, remove_nth_last.
    reflexivity. }
  do 3 (split; [reflexivity|]).
  rewrite E, refreshCorpora_resume_finish.
  assert (N : forall l : list effect,
             notifications (l ++ [Fetch (js "/api/corpus/list") (js "GET") None]) =
             notifications l)
    by (intros l; rewrite notifications_app; apply app_nil_r).
  destruct (panel_after o) eqn:P;
    try (repeat split; try reflexivity; apply N).
  destruct (answered o && negb (succeeded o)).
  - repeat split; try reflexivity. apply N.
  - repeat split; try reflexivity.
    + cbn [set_corporaList chat set_corpus_pending on_chat set_chat log trace
           set_panel_nodes].
      rewrite notifications_app. cbn [notifications filter]. rewrite app_nil_r. apply N.
    + cbn [set_corporaList chat set_corpus_pending on_chat set_chat log trace
           set_panel_nodes].
      rewrite corpus_requests_app. cbn [corpus_requests filter]. apply app_nil_r.
Qed.


Lemma createCorpus_sends (a : Client) :
  trim (newCorpusName a) <> [] ->
  createCorpus a =
  corpus_fetch "/api/corpus/create" "POST"
    (Some (JObj [(js "name", JStr (trim (newCorpusName a)))]))
    (CreateRequest (trim (newCorpusName a)))
    (showLoadingOverlay a).
Proof.
  intros H. unfold createCorpus.
  destruct (trim (newCorpusName a)); [congruence|reflexivity].
Qed.

(** [createCorpus] with a name that is empty once trimmed issues no
    request: it shows the warning [Please enter a corpus name] and leaves the
    overlay, the field and the requests under way as they are. *)
Theorem createCorpus_blank_name_only_warns (a : Client) :
  Forall (fun c => is_blank c = true) (newCorpusName a) ->
  let a' := createCorpus a in
  trace (chat a') =
    trace (chat a) ++ [Notified (js "warning") (js "Please enter a corpus name")] /\
  toast_show (toast (chat a')) = true /\
  corpus_pending a' = corpus_pending a /\
  loadingOverlay_show a' = loadingOverlay_show a /\
  newCorpusName a' = newCorpusName a /\
  corporaList a' = corporaList a.
Proof.
  intros H a'. apply trim_empty_iff in H. subst a'. unfold createCorpus.
  rewrite H. repeat split; reflexivity.
Qed.

(** [createCorpus] with a name posts the trimmed name and shows the loading
    overlay; whatever the outcome, the overlay is hidden once the request is
    over.  On success the field is cleared, a success notification names the
    corpus, and the list is asked for again; otherwise the field, the panel
    and the requests stay as they are and one error notification is shown:
    the server's reason when the response resolved with one that can be
    shown, [Failed to create corpus] when the request or its body failed or
    the reason has no string. *)
Theorem createCorpus_outcomes (o : outcome) (a : Client) :
  trim (newCorpusName a) <> [] ->
  let corpusName := trim (newCorpusName a) in
  let a1 := createCorpus a in
  let a2 := client_step (CorpusSettles (length (corpus_pending a)) o) a1 in
  (corpus_pending a1 = corpus_pending a ++ [CreateRequest corpusName] /\
   trace (chat a1) =
     trace (chat a) ++
     [Fetch (js "/api/corpus/create") (js "POST")
        (Some (JObj [(js "name", JStr corpusName)]))] /\
   loadingOverlay_show a1 = true) /\
  loadingOverlay_show a2 = false /\
  (succeeded o = true ->
     newCorpusName a2 = [] /\
     corporaList a2 = PanelLoading /\
     corpus_pending a2 = corpus_pending a ++ [ListRequest] /\
     trace (chat a2) =
       trace (chat a1) ++
       [Notified (js "success")
          (js "Corpus " ++ [34%N] ++ corpusName ++ [34%N] ++ js " created successfully");
        Fetch (js "/api/corpus/list") (js "GET") None]) /\
  (succeeded o = false ->
     newCorpusName a2 = newCorpusName a /\
     corporaList a2 = corporaList a /\
     corpus_pending a2 = corpus_pending a /\
     notifications (trace (chat a2)) =
       notifications (trace (chat a)) ++
       [Notified (js "error")
          (if answered o then reason_of o else js "Failed to create corpus")] /\
     corpus_requests (trace (chat a2)) = corpus_requests (trace (chat a1))).
Proof.
  intros H corpusName a1 a2.
  assert (E1 : a1 = corpus_fetch "/api/corpus/create" "POST"
                      (Some (JObj [(js "name", JStr corpusName)]))
                      (CreateRequest corpusName) (showLoadingOverlay a))
    by (apply createCorpus_sends, H).
  assert (P1 : corpus_pending a1 = corpus_pending a ++ [CreateRequest corpusName])
    by (rewrite E1; reflexivity).
  assert (E : a2 = finish (createCorpus_resume corpusName o)
                     (set_corpus_pending (corpus_pending a) a1)).
  { unfold a2. cbn [client_step]. rewrite P1, nth_error_last, remove_nth_last.
    reflexivity. }
  split; [rewrite E1; repeat split; reflexivity|].
  rewrite E, createCorpus_resume_finish, E1.
  split; [reflexivity|]. split.
  - intros S. rewrite S. repeat split; try reflexivity.
    cbn [hideLoadingOverlay set_loadingOverlay_show refreshCorpora corpus_fetch
         set_corpus_pending set_corporaList set_newCorpusName on_chat set_chat chat
         showToast set_clock log set_toast trace showLoadingOverlay text_content
         set_panel_nodes
         to_string ToString ToString_json].
    now rewrite <- !app_assoc.
  - intros S. rewrite S.
    destruct (answered o) eqn:A.
    + repeat split; try reflexivity.
      * cbn [hideLoadingOverlay set_loadingOverlay_show corpus_fetch
             set_corpus_pending on_chat set_chat chat showToast set_clock log
             set_toast trace showLoadingOverlay].
        rewrite !notifications_app. cbn [notifications filter]. rewrite app_nil_r.
        destruct o; [discriminate|reflexivity].
      * cbn [hideLoadingOverlay set_loadingOverlay_show corpus_fetch
             set_corpus_pending on_chat set_chat chat showToast set_clock log
             set_toast trace showLoadingOverlay].
        rewrite (corpus_requests_app (_ ++ _)). cbn [corpus_requests filter].
        apply app_nil_r.
    + repeat split; try reflexivity.
      * cbn [hideLoadingOverlay set_loadingOverlay_show corpus_fetch
             set_corpus_pending on_chat set_chat chat showToast set_clock log
             set_toast trace showLoadingOverlay].
        rewrite !notifications_app. cbn [notifications filter].
        now rewrite !app_nil_r.
      * cbn [hideLoadingOverlay set_loadingOverlay_show corpus_fetch
             set_corpus_pending on_chat set_chat chat showToast set_clock log
             set_toast trace showLoadingOverlay].
        rewrite !(corpus_requests_app (_ ++ _)). cbn [corpus_requests filter].
        now rewrite !app_nil_r.
Qed.


Lemma addDocument_sends (a : Client) :
  trim (targetCorpus a) <> [] -> trim (documentUrl a) <> [] ->
  addDocument a =
  corpus_fetch "/api/corpus/add-document" "POST"
    (Some (JObj [(js "corpus_name", JStr (trim (targetCorpus a)));
                 (js "document_url", JStr (trim (documentUrl a)))]))
    AddRequest
    (showLoadingOverlay a).
Proof.
  intros H U. unfold addDocument.
  destruct (trim (targetCorpus a)); [congruence|].
  destruct (trim (documentUrl a)); [congruence|reflexivity].
Qed.

(** [addDocument] needs both fields: when the corpus name or the URL is
    empty once trimmed, it issues no request, shows the warning
    [Please enter both corpus name and document URL], and leaves the overlay
    and both fields as they are. *)
Theorem addDocument_missing_field_only_warns (a : Client) :
  Forall (fun c => is_blank c = true) (targetCorpus a) \/
  Forall (fun c => is_blank c = true) (documentUrl a) ->
  let a' := addDocument a in
  trace (chat a') =
    trace (chat a) ++
    [Notified (js "warning") (js "Please enter both corpus name and document URL")] /\
  toast_show (toast (chat a')) = true /\
  corpus_pending a' = corpus_pending a /\
  loadingOverlay_show a' = loadingOverlay_show a /\
  targetCorpus a' = targetCorpus a /\
  documentUrl a' = documentUrl a.
Proof.
  intros H a'.
  assert (E : a' = on_chat (showToast "warning"
                     (str "Please enter both corpus name and document URL")) a).
  { subst a'. unfold addDocument.
    destruct H as [H|H]; apply trim_empty_iff in H; rewrite H; [reflexivity|].
    destruct (trim (targetCorpus a)); reflexivity. }
  rewrite E. repeat split; reflexivity.
Qed.

(** [addDocument] with both fields posts the trimmed name and URL and shows
    the loading overlay; whatever the outcome, the overlay is hidden once the
    request is over.  On success both fields are cleared and a success
    notification is shown; otherwise both fields keep what the user typed and
    one error notification is shown: the server's reason when the response
    resolved with one that can be shown, [Failed to add document] when the
    request or its body failed or the reason has no string.  The list of
    corpora is not asked for again in either case. *)
Theorem addDocument_outcomes (o : outcome) (a : Client) :
  trim (targetCorpus a) <> [] ->
  trim (documentUrl a) <> [] ->
  let a1 := addDocument a in
  let a2 := client_step (CorpusSettles (length (corpus_pending a)) o) a1 in
  (corpus_pending a1 = corpus_pending a ++ [AddRequest] /\
   trace (chat a1) =
     trace (chat a) ++
     [Fetch (js "/api/corpus/add-document") (js "POST")
        (Some (JObj [(js "corpus_name", JStr (trim (targetCorpus a)));
                     (js "document_url", JStr (trim (documentUrl a)))]))] /\
   loadingOverlay_show a1 = true) /\
  loadingOverlay_show a2 = false /\
  corpus_pending a2 = corpus_pending a /\
  corporaList a2 = corporaList a /\
  corpus_requests (trace (chat a2)) = corpus_requests (trace (chat a1)) /\
  (succeeded o = true ->
     targetCorpus a2 = [] /\ documentUrl a2 = [] /\
     notifications (trace (chat a2)) =
       notifications (trace (chat a)) ++
       [Notified (js "success") (js "Document added successfully")]) /\
  (succeeded o = false ->
     targetCorpus a2 = targetCorpus a /\ documentUrl a2 = documentUrl a /\
     notifications (trace (chat a2)) =
       notifications (trace (chat a)) ++
       [Notified (js "error")
          (if answered o then reason_of o else js "Failed to add document")]).
Proof.
  intros H U a1 a2.
  assert (E1 : a1 = corpus_fetch "/api/corpus/add-document" "POST"
                      (Some (JObj [(js "corpus_name", JStr (trim (targetCorpus a)));
                                   (js "document_url", JStr (trim (documentUrl a)))]))
                      AddRequest (showLoadingOverlay a))
    by (apply addDocument_sends; assumption).
  assert (P1 : corpus_pending a1 = corpus_pending a ++ [AddRequest])
    by (rewrite E1; reflexivity).
  assert (E : a2 = finish (addDocument_resume o)
                     (set_corpus_pending (corpus_pending a) a1)).
  { unfold a2. cbn [client_step]. rewrite P1, nth_error_last, remove_nth_last.
    reflexivity. }
  split; [rewrite E1; repeat split; reflexivity|].
  rewrite E, addDocument_resume_finish, E1.
  split; [reflexivity|].
  split; [destruct (succeeded o), (answered o); reflexivity|].
  split; [destruct (succeeded o), (answered o); reflexivity|].
  split.
  { destruct (succeeded o), (answered o);
      cbn [hideLoadingOverlay set_loadingOverlay_show corpus_fetch set_documentUrl
           set_targetCorpus set_corpus_pending on_chat set_chat chat showToast
           set_clock log set_toast trace showLoadingOverlay];
      rewrite !(corpus_requests_app (_ ++ _)); cbn [corpus_requests filter];
      now rewrite !app_nil_r. }
  split.
  - intros S. rewrite S. repeat split; try reflexivity.
    cbn [hideLoadingOverlay set_loadingOverlay_show corpus_fetch set_documentUrl
         set_targetCorpus set_corpus_pending on_chat set_chat chat showToast
         set_clock log set_toast trace showLoadingOverlay].
    rewrite !notifications_app. cbn [notifications filter]. now rewrite app_nil_r.
  - intros S. rewrite S.
    destruct (answered o) eqn:A; repeat split; try reflexivity;
      cbn [hideLoadingOverlay set_loadingOverlay_show corpus_fetch
           set_corpus_pending on_chat set_chat chat showToast set_clock log
           set_toast trace showLoadingOverlay];
      rewrite !notifications_app; cbn [notifications filter]; rewrite ?app_nil_r.
    + destruct o; [discriminate|reflexivity].
    + reflexivity.
Qed.


(** *** The dialog and the chat *)

Lemma chat_untouched_refl (s : State) : chat_untouched s s.
Proof. repeat split. Qed.

Lemma chat_untouched_trans (s1 s2 s3 : State) :
  chat_untouched s1 s2 -> chat_untouched s2 s3 -> chat_untouched s1 s3.
Proof.
  unfold chat_untouched.
  intros (A1 & A2 & A3 & A4 & A5 & A6 & A7) (B1 & B2 & B3 & B4 & B5 & B6 & B7).
  repeat split; etransitivity; eassumption.
Qed.

Lemma showToast_untouched (type : string) (message : jsval) (s : State) :
  chat_untouched s (showToast type message s).
Proof.
  unfold chat_untouched. do 6 (split; [reflexivity|]).
  cbn [showToast set_clock log set_toast trace].
  rewrite chat_requests_app. apply app_nil_r.
Qed.

Lemma console_untouched (label : jsstring) (s : State) :
  chat_untouched s (log (ConsoleError label) s).
Proof.
  unfold chat_untouched. do 6 (split; [reflexivity|]).
  cbn [log trace]. rewrite chat_requests_app. apply app_nil_r.
Qed.

Lemma corpus_fetch_untouched (url method : string) body r (a : Client) :
  str_eqb (js url) (js "/api/chat") = false ->
  chat_untouched (chat a) (chat (corpus_fetch url method body r a)).
Proof.
  intros U. unfold chat_untouched. do 6 (split; [reflexivity|]).
  cbn [corpus_fetch set_corpus_pending on_chat set_chat chat log trace].
  rewrite chat_requests_app. cbn [chat_requests filter]. rewrite U. apply app_nil_r.
Qed.

Lemma set_corporaList_untouched (p : panel) (a : Client) :
  chat_untouched (chat a) (chat (set_corporaList p a)).
Proof. repeat split. Qed.

Lemma refreshCorpora_untouched (a : Client) :
  chat_untouched (chat a) (chat (refreshCorpora a)).
Proof.
  unfold refreshCorpora.
  eapply chat_untouched_trans; [apply (set_corporaList_untouched PanelLoading)|].
  apply (corpus_fetch_untouched _ _ _ _ (set_corporaList PanelLoading a)).
  reflexivity.
Qed.

Lemma createCorpus_untouched (a : Client) :
  chat_untouched (chat a) (chat (createCorpus a)).
Proof.
  unfold createCorpus. destruct (negb _).
  - apply showToast_untouched.
  - apply (corpus_fetch_untouched _ _ _ _ (showLoadingOverlay a)). reflexivity.
Qed.

Lemma addDocument_untouched (a : Client) :
  chat_untouched (chat a) (chat (addDocument a)).
Proof.
  unfold addDocument. destruct (_ || _).
  - apply showToast_untouched.
  - apply (corpus_fetch_untouched _ _ _ _ (showLoadingOverlay a)). reflexivity.
Qed.

Lemma corpus_resume_untouched (r : corpus_request) (o : outcome) (a : Client) :
  chat_untouched (chat a) (chat (finish (corpus_resume r o) a)).
Proof.
  destruct r as [|corpusName|]; cbn [corpus_resume].
  - rewrite refreshCorpora_resume_finish.
    destruct (panel_after o); try apply set_corporaList_untouched.
    destruct (answered o && negb (succeeded o)); [apply set_corporaList_untouched|].
    eapply chat_untouched_trans;
      [apply (console_untouched (js "Refresh corpora error:"))|].
    apply (set_corporaList_untouched (PanelError text)
             (on_chat (log (ConsoleError (js "Refresh corpora error:"))) a)).
  - rewrite createCorpus_resume_finish.
    destruct (succeeded o); [|destruct (answered o)].
    + apply (chat_untouched_trans _
               (showToast "success" (Some (JStr (created_message corpusName))) (chat a)));
        [apply showToast_untouched|].
      exact (refreshCorpora_untouched
               (set_newCorpusName []
                  (on_chat (showToast "success"
                              (Some (JStr (created_message corpusName)))) a))).
    + apply showToast_untouched.
    + eapply chat_untouched_trans; [apply console_untouched|].
      apply showToast_untouched.
  - rewrite addDocument_resume_finish.
    destruct (succeeded o); [|destruct (answered o)].
    + apply showToast_untouched.
    + apply showToast_untouched.
    + eapply chat_untouched_trans; [apply console_untouched|].
      apply showToast_untouched.
Qed.

Lemma dialog_step_untouched (e : client_event) (a : Client) :
  of_dialog e = true -> chat_untouched (chat a) (chat (client_step e a)).
Proof.
  destruct e; try discriminate; intros _; cbn [client_step];
    try apply chat_untouched_refl.
  - apply (refreshCorpora_untouched (set_corpusModal_show true a)).
  - destruct (str_eqb target (js "corpusModal")); apply chat_untouched_refl.
  - apply createCorpus_untouched.
  - apply addDocument_untouched.
  - apply refreshCorpora_untouched.
  - destruct (nth_error (corpus_pending a) i) as [r|]; [|apply chat_untouched_refl].
    apply (corpus_resume_untouched r o
             (set_corpus_pending (remove_nth i (corpus_pending a)) a)).
Qed.

(** Nothing done in the corpus dialog touches the conversation: whatever
    the event of the dialog (opening and closing it, typing in its fields,
    its three requests and every outcome of them), the in-flight flag, the
    chat's requests under way, the messages on the page, the history, the
    input field, the send button and the status indicator are as they were,
    and no chat request is issued.  Only the toast may change. *)
Theorem dialog_leaves_the_chat (e : client_event) (a : Client) :
  of_dialog e = true ->
  let a' := client_step e a in
  isTyping (chat a') = isTyping (chat a) /\
  pending (chat a') = pending (chat a) /\
  messagesContainer (chat a') = messagesContainer (chat a) /\
  conversationHistory (chat a') = conversationHistory (chat a) /\
  messageInput (chat a') = messageInput (chat a) /\
  sendBtn_disabled (chat a') = sendBtn_disabled (chat a) /\
  statusIndicator (chat a') = statusIndicator (chat a) /\
  chat_requests (trace (chat a')) = chat_requests (trace (chat a)).
Proof.
  intros D a'.
  destruct (dialog_step_untouched e a D) as (C & H & I & B & S & _ & R).
  unfold core in C. injection C as C1 C2 C3 _.
  repeat split; assumption.
Qed.

(** The events of the chat, in their turn, leave the dialog as it is. *)
Lemma chat_step_dialog (e : client_event) (a : Client) :
  of_dialog e = false ->
  corpus_pending (client_step e a) = corpus_pending a /\
  loadingOverlay_show (client_step e a) = loadingOverlay_show a.
Proof.
  destruct e; try discriminate; intros _; cbn [client_step].
  - split; reflexivity.
  - destruct (input_disabled (messageInput (chat a))); split; reflexivity.
Qed.

Lemma client_step_invariant (e : client_event) (a : Client) :
  invariant (chat a) -> invariant (chat (client_step e a)).
Proof.
  intros H. destruct (of_dialog e) eqn:D.
  - apply (stable_invariant (chat a)); [|exact H].
    apply (dialog_step_untouched e a D).
  - destruct e; try discriminate; cbn [client_step].
    + apply step_invariant, H.
    + destruct (input_disabled (messageInput (chat a))); [exact H|].
      unfold keypress. destruct (_ && _); [|exact H].
      apply sendMessage_invariant, H.
Qed.


Lemma client_reachable_invariant (page : Page) (dialog a : Client) :
  client_reachable page dialog a -> invariant (chat a).
Proof.
  induction 1 as [|e a R IH].
  - apply (stable_invariant (new_CementGPT page));
      [reflexivity|apply new_CementGPT_invariant].
  - apply client_step_invariant, IH.
Qed.




(** *** The loading overlay *)

Lemma existsb_remove_nth {A} (p : A -> bool) (l : list A) (i : nat) (x : A) :
  nth_error l i = Some x -> p x = false ->
  existsb p (remove_nth i l) = existsb p l.
Proof.
  revert i; induction l as [|y l IH]; intros [|i]; cbn; try discriminate.
  - intros E P. injection E as ->. now rewrite P.
  - intros E P. now rewrite (IH i E P).
Qed.

Lemma refresh_resume_overlay (o : outcome) (a : Client) :
  loadingOverlay_show (finish (refreshCorpora_resume o) a) = loadingOverlay_show a /\
  corpus_pending (finish (refreshCorpora_resume o) a) = corpus_pending a.
Proof.
  rewrite refreshCorpora_resume_finish.
  destruct (panel_after o); try (split; reflexivity).
  destruct (answered o && negb (succeeded o)); split; reflexivity.
Qed.

(** The loading overlay is never left behind.  From a page whose overlay is
    hidden, the overlay shows only while a request to create a corpus or to
    add a document is under way: every way such a request ends hides it. *)
Theorem overlay_only_while_pending (page : Page) (dialog a : Client) :
  loadingOverlay_show dialog = false ->
  client_reachable page dialog a ->
  loadingOverlay_show a = true ->
  existsb with_overlay (corpus_pending a) = true.
Proof.
  intros D R. induction R as [|e a R IH]; [cbn; congruence|].
  destruct (of_dialog e) eqn:K.
  2:{ destruct (chat_step_dialog e a K) as [-> ->]. exact IH. }
  destruct e; try discriminate; cbn [client_step].
  - cbn [showCorpusModal refreshCorpora corpus_fetch set_corpus_pending
         loadingOverlay_show corpus_pending set_corporaList set_corpusModal_show
         on_chat set_chat].
    intros L. rewrite existsb_app, (IH L). reflexivity.
  - destruct (str_eqb target (js "corpusModal")); exact IH.
  - exact IH.
  - unfold createCorpus. destruct (negb _); [exact IH|].
    intros _. cbn [corpus_fetch set_corpus_pending corpus_pending].
    rewrite existsb_app. cbn. apply orb_true_r.
  - unfold addDocument. destruct (_ || _); [exact IH|].
    intros _. cbn [corpus_fetch set_corpus_pending corpus_pending].
    rewrite existsb_app. cbn. apply orb_true_r.
  - cbn [refreshCorpora corpus_fetch set_corpus_pending
         loadingOverlay_show corpus_pending set_corporaList on_chat set_chat].
    intros L. rewrite existsb_app, (IH L). reflexivity.
  - exact IH.
  - exact IH.
  - exact IH.
  - destruct (nth_error (corpus_pending a) i) as [r|] eqn:N; [|exact IH].
    destruct r as [|corpusName|]; cbn [corpus_resume].
    + destruct (refresh_resume_overlay o
                  (set_corpus_pending (remove_nth i (corpus_pending a)) a)) as [-> ->].
      cbn [set_corpus_pending loadingOverlay_show corpus_pending].
      intros L. rewrite (existsb_remove_nth _ _ _ _ N eq_refl). apply IH, L.
    + rewrite createCorpus_resume_finish. cbn. discriminate.
    + rewrite addDocument_resume_finish. cbn. discriminate.
Qed.


(** *** The history restored *)






(** *** What a send posts, and what it records *)




(** [sendMessage] does nothing at all exactly when a send is in flight or
    the input is blank (empty, or white space and line ends only): in
    either case the field keeps its text, nothing is rendered and nothing is
    requested; in every other case it does send. *)
Theorem sendMessage_noop_iff_busy_or_blank (s : State) :
  sendMessage s = s <->
  isTyping s = true \/
  Forall (fun c => is_blank c = true) (input_value (messageInput s)).
Proof.
  rewrite <- trim_empty_iff. split.
  - intros E. destruct (isTyping s) eqn:T; [now left|right].
    destruct (trim (input_value (messageInput s))) as [|c m] eqn:M; [reflexivity|].
    exfalso. apply (f_equal (fun x => length (trace x))) in E.
    rewrite sendMessage_sends in E by (assumption || congruence).
    cbn [fetch set_pending log appendChild set_messagesContainer set_isTyping
         set_messageInput trace] in E.
    rewrite !length_app in E. cbn [length] in E. lia.
  - intros [T|M]; [now apply sendMessage_typing|now apply sendMessage_empty].
Qed.






(** *** Text without marks *)

Lemma delim_pass_plain (c : N) (d o cl s : jsstring) :
  ~ In c s -> replace_all (delim_re c d) [Lit o; Group1; Lit cl] s = s.
Proof.
  induction s as [|a s IH]; intros H.
  - apply replace_all_nil. rewrite exec_delim. reflexivity.
  - rewrite replace_all_nomatch.
    + f_equal. apply IH. intros I. apply H. now right.
    + rewrite exec_delim. cbn [starts_with].
      destruct (N.eqb_spec c a) as [->|Hc]; [|reflexivity].
      exfalso. apply H. now left.
Qed.

Lemma para_pass_plain (s : jsstring) : ~ In newline s -> para_pass s = s.
Proof.
  induction s as [|a s IH]; intros H; [reflexivity|].
  rewrite para_pass_single.
  - f_equal. apply IH. intros I. apply H. now right.
  - left. intros ->. apply H. now left.
Qed.

Lemma line_pass_plain (s : jsstring) : ~ In newline s -> line_pass s = s.
Proof.
  induction s as [|a s IH]; intros H; [reflexivity|].
  rewrite line_pass_cons, IH by (intros I; apply H; now right).
  destruct (N.eqb_spec a newline) as [->|Ha]; [|reflexivity].
  exfalso. apply H. now left.
Qed.

(** [formatMessage] escapes nothing.  A text without asterisk, backtick
    and newline comes out as it went in, markup included: whatever tags it
    holds are still there, and the only change is the paragraph wrapped
    around a text that itself holds the tag [<br>] or [</p>]. *)
Theorem formatMessage_keeps_markup (content : jsstring) :
  plain content ->
  formatMessage content =
  if includes (js "<br>") content || includes (js "</p>") content
  then js "<p>" ++ content ++ js "</p>"
  else content.
Proof.
  intros (S & B & N).
  rewrite formatMessage_converted.
  assert (C : converted content = content).
  { unfold converted, bold_pass, italic_pass, code_pass.
    rewrite bold_re_delim, italic_re_delim, code_re_delim.
    rewrite (delim_pass_plain star [star] _ _ content S).
    rewrite (delim_pass_plain star [] _ _ content S).
    rewrite (delim_pass_plain backtick [] _ _ content B).
    rewrite para_pass_plain, line_pass_plain by assumption. reflexivity. }
  now rewrite C.
Qed.

(** *** The toast and its timers, in general *)

(** No toast outlives its five seconds: whatever timers are pending,
    5000 ms after [showToast] the toast is hidden. *)
Theorem showToast_hidden_after_5s (type : string) (message : jsval) (s : State)
    (ms : N) :
  (5000 <= ms)%N ->
  toast_show (toast (elapse ms (showToast type message s))) = false.
Proof.
  intros H. unfold elapse.
  cbn [showToast timers set_clock now log set_toast].
  rewrite existsb_app. cbn [existsb].
  replace (Z.leb (now s + 5000) (now s + Z.of_N ms)) with true
    by (symmetry; apply Z.leb_le; lia).
  rewrite orb_true_r. reflexivity.
Qed.

(** A toast shown while the timer of an earlier one is pending is cut
    short: shown [d1] ms after the first, with [d1] below 5000, it is hidden
    when the first timer runs, [5000 - d1] ms later, whatever its type and
    message, and stays hidden: [showToast] cancels no timer. *)
Theorem showToast_cut_short_by_earlier_timer (type1 type2 : string)
    (message1 message2 : jsval) (s : State) (d1 d2 : N) :
  (d1 < 5000)%N ->
  (5000 <= d1 + d2)%N ->
  let s1 := showToast type1 message1 s in
  let s2 := showToast type2 message2 (elapse d1 s1) in
  toast_show (toast s2) = true /\
  toast_message (toast s2) = text_content message2 /\
  toast_show (toast (elapse d2 s2)) = false.
Proof.
  intros H1 H2 s1 s2. split; [reflexivity|]. split; [reflexivity|].
  assert (Nw : now (elapse d1 s1) = (now s + Z.of_N d1)%Z).
  { unfold elapse. destruct (existsb _ _); reflexivity. }
  assert (Tm : In (now s + 5000)%Z (timers (elapse d1 s1))).
  { unfold elapse.
    assert (I : In (now s + 5000)%Z
                  (filter (fun due => Z.ltb (now s1 + Z.of_N d1) due) (timers s1))).
    { apply filter_In. split.
      - unfold s1. cbn [showToast timers set_clock]. apply in_or_app. right. now left.
      - unfold s1. cbn [showToast now set_clock]. apply Z.ltb_lt. lia. }
    destruct (existsb _ _); exact I. }
  unfold elapse at 1.
  replace (existsb _ (timers s2)) with true; [reflexivity|].
  symmetry. apply existsb_exists. exists (now s + 5000)%Z. split.
  - unfold s2. cbn [showToast timers set_clock]. apply in_or_app. now left.
  - unfold s2. cbn [showToast now set_clock]. rewrite Nw. apply Z.leb_le. lia.
Qed.


(** *** A clear while a send is in flight *)






(** *** A settled send, on the whole page *)






(** C7. A confirmed [clearConversation] issues the clear request and
    touches nothing else; when the response has status "success", whatever
    was done on the page before, in the chat or in the corpus dialog, every
    element of the container but the first, the welcome message, is removed,
    so that the transcript is exactly the welcome message,
    [conversationHistory] becomes the empty sequence, and a success
    notification is shown. *)
Theorem clearConversation_success_leaves_welcome (page : Page) (dialog a : Client)
    (data : json) :
  client_reachable page dialog a ->
  is_string (field data "status") "success" = true ->
  let s := chat a in
  let s0 := clearConversation true s in
  let s' := settle (clearConversation_resume (Resolved data)) s in
  (pending s0 = pending s ++ [ClearRequest] /\
   trace s0 = trace s ++ [Fetch (js "/api/clear-conversation") (js "POST") None] /\
   messagesContainer s0 = messagesContainer s /\
   conversationHistory s0 = conversationHistory s) /\
  messagesContainer s' = [welcome] /\
  transcript s' = [welcome] /\
  removals (trace s') = removals (trace s) ++ map Removed (tl (messagesContainer s)) /\
  conversationHistory s' = Some (JArr []) /\
  notifications (trace s') =
    notifications (trace s) ++ [Notified (js "success") (js "Conversation cleared")].
Proof.
  intros R H s s0 s'. split; [repeat split|].
  pose proof (client_reachable_invariant page dialog a R) as (_ & C & _). fold s in C.
  subst s'. rewrite clearConversation_resume_success by assumption.
  assert (Cm : messagesContainer (remove_messages s) = [welcome])
    by (now apply remove_messages_container).
  pose proof (remove_messages_trace s C) as Tm.
  unfold transcript.
  cbn [showToast set_clock log set_toast set_conversationHistory messagesContainer
       trace conversationHistory].
  rewrite Cm, Tm, !removals_app, !notifications_app.
  rewrite removals_cleared, notifications_cleared. cbn. rewrite !app_nil_r.
  repeat split.
Qed.



(** *** The status is checked once *)

Ltac ctl_step :=
  lazymatch goal with
  | |- preserves _ (try_catch _ _) => apply preserves_try_catch
  | |- preserves _ (finally _ _) => apply preserves_finally
  | |- preserves _ (bind _ _) => apply preserves_bind; [|intros ?]
  | |- preserves _ (response_json _) => apply preserves_response_json
  | |- preserves _ (eval _) => apply preserves_eval
  | |- preserves _ (ret _) => apply preserves_ret
  | |- preserves _ throw => apply preserves_throw
  | |- preserves _ (console_error _) => unfold console_error
  | |- preserves _ (forEach _ _) => apply preserves_forEach; intros ?
  | |- preserves _ (addMessage _ _ _) => apply preserves_addMessage; intros ? ?
  | |- preserves _ (showToast_value _ ?m) =>
      let s := fresh "s" in
      let H := fresh "H" in
      intros s H; unfold showToast_value; destruct (has_text m); exact H
  | |- preserves _ (exec_ _) => apply preserves_exec
  | |- preserves _ (if ?b then _ else _) => destruct b
  end.

Lemma fold_log_controls (l : list effect) (s : State) :
  controls (fold_left (fun s e => log e s) l s) = controls s /\
  pending (fold_left (fun s e => log e s) l s) = pending s.
Proof.
  revert s; induction l as [|e l IH]; intros s; [now split|].
  cbn [fold_left]. destruct (IH (log e s)) as [-> ->]. now split.
Qed.

Lemma keeps_controls_remove_messages k q :
  keeps (fun s => controls s = k /\ pending s = q) remove_messages.
Proof.
  intros s H. unfold remove_messages. destruct (keep_first_message _ _) as [kept removed].
  destruct (fold_log_controls removed (set_messagesContainer kept s)) as [-> ->].
  exact H.
Qed.

Lemma keeps_controls_removeTypingIndicator k q (id : jsstring) :
  keeps (fun s => controls s = k /\ pending s = q) (removeTypingIndicator id).
Proof.
  intros s H. unfold removeTypingIndicator.
  destruct (getElementById id s) as [[e|n|n]|]; exact H.
Qed.

Lemma preserves_controls_push k q (a b : State -> json) :
  preserves (fun s => controls s = k /\ pending s = q) (fun s => push (a s) (b s) s).
Proof.
  intros s H. unfold push. destruct (conversationHistory s) as [[]|]; exact H.
Qed.

Lemma resume_controls k q (r : request) (o : outcome) :
  is_status r = false ->
  preserves (fun s => controls s = k /\ pending s = q) (resume r o).
Proof.
  destruct r; try discriminate; intros _; cbn [resume].
  - unfold sendMessage_resume.
    repeat ctl_step;
      try apply preserves_controls_push;
      try apply keeps_controls_removeTypingIndicator;
      intros s H; exact H.
  - unfold clearConversation_resume.
    repeat ctl_step;
      try apply keeps_controls_remove_messages;
      intros s H; exact H.
  - unfold loadConversationHistory_resume.
    repeat ctl_step; intros s H; exact H.
Qed.

Lemma existsb_nth_error {A} (p : A -> bool) (l : list A) (i : nat) (x : A) :
  nth_error l i = Some x -> existsb p l = false -> p x = false.
Proof.
  revert i; induction l as [|y l IH]; intros [|i]; cbn; try discriminate.
  - intros E. injection E as ->. now intros [H _]%orb_false_iff.
  - intros E [_ H]%orb_false_iff. exact (IH i E H).
Qed.

Lemma existsb_remove_nth_false {A} (p : A -> bool) (l : list A) (i : nat) :
  existsb p l = false -> existsb p (remove_nth i l) = false.
Proof.
  revert i; induction l as [|y l IH]; intros [|i]; cbn; try reflexivity.
  - now intros [_ H]%orb_false_iff.
  - intros [H1 H2]%orb_false_iff. now rewrite H1, IH.
Qed.

Lemma sendMessage_controls (s : State) :
  controls (sendMessage s) = controls s /\
  existsb is_status (pending (sendMessage s)) = existsb is_status (pending s).
Proof.
  destruct (isTyping s) eqn:T.
  { now rewrite (sendMessage_typing s T). }
  destruct (trim (input_value (messageInput s))) as [|c m] eqn:M.
  { now rewrite (sendMessage_empty s M). }
  rewrite sendMessage_sends by (assumption || congruence).
  split; [reflexivity|].
  cbn [fetch set_pending log appendChild set_messagesContainer set_isTyping
       set_messageInput pending].
  rewrite existsb_app. cbn. now rewrite orb_false_r.
Qed.

Lemma step_controls (e : event) (s : State) :
  existsb is_status (pending s) = false ->
  controls (step e s) = controls s /\
  existsb is_status (pending (step e s)) = false.
Proof.
  intros H. destruct e; cbn [step].
  - destruct (input_disabled (messageInput s)) eqn:D; [now split|].
    split; [|exact H]. unfold controls. cbn [set_messageInput messageInput
      input_disabled input_placeholder sendBtn_disabled statusIndicator].
    now rewrite D.
  - destruct (input_disabled (messageInput s)); [now split|].
    destruct (sendMessage_controls s) as [-> ->]. now split.
  - destruct (sendBtn_disabled s); [now split|].
    destruct (sendMessage_controls s) as [-> ->]. now split.
  - unfold sendSuggestion.
    match goal with |- context [sendMessage ?x] =>
      destruct (sendMessage_controls x) as [-> ->] end.
    now split.
  - unfold clearConversation. destruct confirmed; cbn [negb]; [|now split].
    split; [reflexivity|].
    cbn [fetch set_pending log pending]. rewrite existsb_app, H. reflexivity.
  - destruct (nth_error (pending s) i) as [r|] eqn:N; [|now split].
    pose proof (existsb_nth_error _ _ _ _ N H) as Hr.
    pose proof (settle_keeps _ _
                  (resume_controls (controls s) (remove_nth i (pending s)) r o Hr)
                  (set_pending (remove_nth i (pending s)) s)
                  (conj eq_refl eq_refl)) as [C P].
    split; [exact C|]. rewrite P. now apply existsb_remove_nth_false.
  - unfold elapse. destruct (existsb _ (timers s)); now split.
Qed.

(** The status is checked once, when the object is built, and what its
    response decides is final.  Once that request is over, no run of events
    (typing, sends, suggestions, clears, responses of any kind, time)
    changes whether the field and the button take input, the placeholder or
    the indicator, and no event issues a new status request: a chat disabled
    by a failed check stays disabled. *)
Theorem status_check_is_final (es : list event) (s : State) :
  existsb is_status (pending s) = false ->
  let s' := run_events es s in
  controls s' = controls s /\
  chat_enabled s' = chat_enabled s /\
  existsb is_status (pending s') = false.
Proof.
  intros H s'. subst s'. unfold run_events.
  revert s H; induction es as [|e es IH]; intros s H; [now repeat split|].
  cbn [fold_left]. destruct (step_controls e s H) as [C P].
  destruct (IH (step e s) P) as (C' & E' & P').
  assert (E : chat_enabled (step e s) = chat_enabled s).
  { unfold controls in C. injection C as C1 _ C3 _. unfold chat_enabled.
    now rewrite C1, C3. }
  split; [congruence|]. split; [congruence|exact P'].
Qed.


(** No newline survives [formatMessage]: whatever the text, every newline
    of it has become a paragraph break or a line break, also the newlines
    inside what look like spans. *)
Theorem formatMessage_leaves_no_newline (content : jsstring) :
  ~ In newline (formatMessage content).
Proof.
  rewrite formatMessage_converted.
  assert (C : ~ In newline (converted content)) by apply line_pass_no_newline.
  destruct (_ || _); [|exact C].
  intros H. apply in_app_or in H as [H|H].
  - vm_compute in H. intuition discriminate.
  - apply in_app_or in H as [H|H]; [exact (C H)|].
    vm_compute in H. intuition discriminate.
Qed.

(** *** Two list requests at once *)

Lemma list_settles (i : nat) (o : outcome) (a : Client) :
  nth_error (corpus_pending a) i = Some ListRequest ->
  corporaList (client_step (CorpusSettles i o) a) = panel_after o /\
  corpus_pending (client_step (CorpusSettles i o) a) = remove_nth i (corpus_pending a).
Proof.
  intros N. cbn [client_step]. rewrite N. cbn [corpus_resume].
  rewrite refreshCorpora_resume_finish.
  destruct (panel_after o); try (split; reflexivity).
  destruct (answered o && negb (succeeded o)); split; reflexivity.
Qed.

(** The panel shows the response that arrived last, not the one asked for
    last: [refreshCorpora] neither cancels the request before it nor checks
    which request a response answers.  With two list requests under way, if
    the second is answered first, the answer to the first overwrites it. *)
Theorem refreshCorpora_stale_response_wins (o1 o2 : outcome) (a : Client) :
  let n := length (corpus_pending a) in
  let a2 := refreshCorpora (refreshCorpora a) in
  let a3 := client_step (CorpusSettles (S n) o2) a2 in
  let a4 := client_step (CorpusSettles n o1) a3 in
  corpus_pending a2 = corpus_pending a ++ [ListRequest; ListRequest] /\
  corporaList a3 = panel_after o2 /\
  corporaList a4 = panel_after o1 /\
  corpus_pending a4 = corpus_pending a.
Proof.
  intros n a2 a3 a4.
  assert (P2 : corpus_pending a2 = (corpus_pending a ++ [ListRequest]) ++ [ListRequest])
    by reflexivity.
  assert (N2 : nth_error (corpus_pending a2) (S n) = Some ListRequest).
  { rewrite P2. replace (S n) with (length (corpus_pending a ++ [ListRequest]))
      by (rewrite length_app; cbn; lia).
    apply nth_error_last. }
  destruct (list_settles (S n) o2 a2 N2) as [L3 P3]. fold a3 in L3, P3.
  assert (P3' : corpus_pending a3 = corpus_pending a ++ [ListRequest]).
  { rewrite P3, P2.
    replace (S n) with (length (corpus_pending a ++ [ListRequest]))
      by (rewrite length_app; cbn; lia).
    apply remove_nth_last. }
  assert (N3 : nth_error (corpus_pending a3) n = Some ListRequest)
    by (rewrite P3'; apply nth_error_last).
  destruct (list_settles n o1 a3 N3) as [L4 P4]. fold a4 in L4, P4.
  split; [now rewrite P2, <- app_assoc|]. split; [exact L3|]. split; [exact L4|].
  rewrite P4, P3'. apply remove_nth_last.
Qed.

End Client.

(* ------------------------------------------------------------------ *)
(** ** The theorems at work on sample runs

    The browser is fixed here: the renderings of the clock at one instant, a
    reader of markup, and a page whose messages come before the corpus
    dialog; the theorems above hold for any. *)

Lemma sendMessage_in_flight_is_noop_witness :
  let s := (sample_busy sample_toISOString sample_toLocaleTimeString sample_string_gt_zero sample_parse_html sample_panel_first) in
  (isTyping s = true /\
   input_value (messageInput s) = js " and then? " /\
   trim (input_value (messageInput s)) = js "and then?" /\
   pending s =
     [StatusRequest; HistoryRequest;
      ChatRequest (js "typing-1700000000000") (js "hello")] /\
   length (transcript s) = 2) /\
  (sendMessage sample_toLocaleTimeString sample_parse_html) s = s /\
  length (transcript ((sendMessage sample_toLocaleTimeString sample_parse_html) s)) = 2 /\
  chat_requests (trace ((sendMessage sample_toLocaleTimeString sample_parse_html) s)) =
    [Fetch (js "/api/chat") (js "POST")
       (Some (JObj [(js "message", JStr (js "hello"))]))] /\
  input_value (messageInput ((sendMessage sample_toLocaleTimeString sample_parse_html) s)) = js " and then? ".
Proof.
  intros s.
  pose proof ((sendMessage_in_flight_is_noop sample_toLocaleTimeString sample_parse_html) s ltac:(vm_compute; reflexivity))
    as (A & _).
  split; [vm_compute; repeat split; reflexivity|].
  rewrite A. vm_compute. repeat split; reflexivity.
Defined.



Lemma sample_client_answered_reachable :
  (client_reachable sample_toISOString sample_toLocaleTimeString sample_string_gt_zero sample_parse_html sample_panel_first) sample_page sample_dialog (sample_client_answered sample_toISOString sample_toLocaleTimeString sample_string_gt_zero sample_parse_html sample_panel_first).
Proof. do 3 apply client_next. apply client_new. Defined.







Lemma checkSystemStatus_enables_iff_ready_witness :
  let s := new_CementGPT sample_page in
  let ready := settle (checkSystemStatus_resume sample_ready) s in
  let half := settle (checkSystemStatus_resume sample_half_ready) s in
  let silent := settle (checkSystemStatus_resume sample_silent) s in
  let down := settle (checkSystemStatus_resume (Rejected NetworkError)) s in
  let odd :=
    settle
      (checkSystemStatus_resume
         (Resolved (JObj [(js "rag_available", JBool false);
                          (js "message", JObj [(js "toString", JNull)])]))) s in
  (chat_enabled s = true /\
   statusIndicator s = (js "status-indicator checking", js "Checking...")) /\
  (chat_enabled ready = true /\
   statusIndicator ready = (js "status-indicator online", js "System Ready") /\
   notifications (trace ready) = []) /\
  (chat_enabled half = false /\
   input_disabled (messageInput half) = true /\
   sendBtn_disabled half = true /\
   statusIndicator half = (js "status-indicator offline", js "System Unavailable") /\
   notifications (trace half) =
     [Notified (js "error") (js "Vertex AI is not initialized")] /\
   toast_message (toast half) = js "Vertex AI is not initialized") /\
  (chat_enabled silent = false /\
   statusIndicator silent = (js "status-indicator offline", js "System Unavailable") /\
   notifications (trace silent) = [Notified (js "error") (js "System is not ready")]) /\
  (chat_enabled down = false /\
   statusIndicator down = (js "status-indicator offline", js "Connection Failed") /\
   notifications (trace down) =
     [Notified (js "error") (js "Failed to connect to server")]) /\
  (chat_enabled odd = false /\
   statusIndicator odd = (js "status-indicator offline", js "Connection Failed") /\
   notifications (trace odd) =
     [Notified (js "error") (js "Failed to connect to server")]).
Proof.
  intros s ready half silent down odd.
  pose proof (checkSystemStatus_enables_iff_ready sample_ready s) as (A & _ & B & _).
  pose proof (checkSystemStatus_enables_iff_ready sample_half_ready s)
    as (_ & _ & _ & C).
  specialize (B ltac:(vm_compute; reflexivity)).
  specialize (C ltac:(vm_compute; reflexivity)).
  split; [vm_compute; split; reflexivity|].
  split.
  { split; [apply A; vm_compute; reflexivity|].
    split; [exact (proj1 B)|vm_compute; reflexivity]. }
  split.
  { destruct C as (C1 & C2 & C3 & C4 & _ & C6).
    vm_compute in C2, C3, C4, C6. vm_compute.
    repeat split; try reflexivity; assumption. }
  vm_compute. repeat split; reflexivity.
Defined.

Lemma clearConversation_success_leaves_welcome_witness :
  let a := (sample_client_answered sample_toISOString sample_toLocaleTimeString sample_string_gt_zero sample_parse_html sample_panel_first) in
  let s := chat a in
  let s' := settle (clearConversation_resume sample_cleared) s in
  (length (messagesContainer s) = 3 /\
   conversationHistory s =
     Some (JArr [JObj [(js "role", JStr (js "user"));
                       (js "message", JStr (js "hello"));
                       (js "timestamp", JStr (js "2023-11-14T22:13:20.000Z"))];
                 JObj [(js "role", JStr (js "agent"));
                       (js "message", JStr (js "Hi, **how** can I help?"));
                       (js "timestamp", JStr (js "2023-11-14T22:13:20.000Z"))]]) /\
   notifications (trace s) = []) /\
  messagesContainer s' = [welcome] /\
  transcript s' = [welcome] /\
  length (removals (trace s)) = 1 /\
  length (removals (trace s')) = 3 /\
  conversationHistory s' = Some (JArr []) /\
  notifications (trace s') = [Notified (js "success") (js "Conversation cleared")].
Proof.
  intros a s s'.
  pose proof ((clearConversation_success_leaves_welcome sample_toISOString sample_toLocaleTimeString sample_string_gt_zero sample_parse_html sample_panel_first)
                sample_page sample_dialog a (JObj [(js "status", JStr (js "success"))])
                sample_client_answered_reachable ltac:(vm_compute; reflexivity))
    as (_ & C & T & R & H & Nt).
  split; [vm_compute; repeat split; reflexivity|].
  vm_compute in C, T, H, Nt. apply (f_equal (@length effect)) in R.
  vm_compute in R. vm_compute.
  exact (conj C (conj T (conj eq_refl (conj R (conj H Nt))))).
Defined.

Lemma loadConversationHistory_silent_on_failure_witness :
  let s := new_CementGPT sample_page in
  (history_silent sample_toLocaleTimeString sample_string_gt_zero sample_parse_html) (Rejected ParseError) s /\
  (history_silent sample_toLocaleTimeString sample_string_gt_zero sample_parse_html) (Resolved (JObj [(js "status", JStr (js "error"))])) s /\
  (history_silent sample_toLocaleTimeString sample_string_gt_zero sample_parse_html) (Resolved sample_history_empty) s.
Proof.
  intros s.
  pose proof ((loadConversationHistory_silent_on_failure sample_toLocaleTimeString sample_string_gt_zero sample_parse_html) s) as (A & B & C).
  exact (conj (A ParseError)
           (conj (B (JObj [(js "status", JStr (js "error"))]) eq_refl)
                 (C sample_history_empty eq_refl eq_refl))).
Defined.


Lemma showToast_alone_stays_5s_witness :
  let s := showToast "success" (str "Conversation cleared") (new_CementGPT sample_page) in
  toast_show (toast (elapse 4999 s)) = true /\
  toast_show (toast (elapse 5000 s)) = false.
Proof.
  intros s.
  exact (conj (showToast_alone_stays_5s "success" (str "Conversation cleared")
                 (new_CementGPT sample_page) 4999 eq_refl)
              (showToast_alone_stays_5s "success" (str "Conversation cleared")
                 (new_CementGPT sample_page) 5000 eq_refl)).
Defined.

(** *** The corpus dialog on sample runs *)

Lemma refreshCorpora_reports_in_panel_witness :
  let a := (new_client sample_parse_html) sample_page sample_dialog in
  let a1 := (refreshCorpora sample_parse_html) a in
  let listed :=
    (client_step sample_toISOString sample_toLocaleTimeString sample_string_gt_zero sample_parse_html sample_panel_first)
      (CorpusSettles 0
         (Resolved (JObj [(js "status", JStr (js "success"));
                          (js "response", JStr (js "**manuals**: 2 files"))]))) a1 in
  let refused :=
    (client_step sample_toISOString sample_toLocaleTimeString sample_string_gt_zero sample_parse_html sample_panel_first)
      (CorpusSettles 0
         (Resolved (JObj [(js "status", JStr (js "error"));
                          (js "message", JStr (js "Corpus service is down"))]))) a1 in
  let large :=
    (client_step sample_toISOString sample_toLocaleTimeString sample_string_gt_zero sample_parse_html sample_panel_first)
      (CorpusSettles 0
         (Resolved (JObj [(js "status", JStr (js "error"));
                          (js "message",
                           JNum {| num_zero := false; num_positive := true;
                                   num_text := js "1e+21" |})]))) a1 in
  let odd :=
    (client_step sample_toISOString sample_toLocaleTimeString sample_string_gt_zero sample_parse_html sample_panel_first)
      (CorpusSettles 0
         (Resolved (JObj [(js "status", JStr (js "error"));
                          (js "message", JObj [(js "toString", JNull)])]))) a1 in
  (corporaList a = PanelMarkup /\ trace (chat a) = trace (new_CementGPT sample_page)) /\
  corporaList a1 = PanelLoading /\
  corporaList listed = PanelResponse (js "<strong>manuals</strong>: 2 files") /\
  corporaList refused = PanelError (js "Failed to load corpora: Corpus service is down") /\
  corporaList large = PanelError (js "Failed to load corpora: 1e+21") /\
  corporaList odd = PanelError (js "Failed to load corpora") /\
  notifications (trace (chat refused)) = [] /\
  notifications (trace (chat odd)) = [].
Proof.
  intros a a1 listed refused large odd.
  pose proof ((refreshCorpora_reports_in_panel sample_toISOString sample_toLocaleTimeString sample_string_gt_zero sample_parse_html sample_panel_first)
                (Resolved (JObj [(js "status", JStr (js "error"));
                                 (js "message", JStr (js "Corpus service is down"))]))
                a) as (L & _ & _ & P & _ & Nt & _).
  split; [vm_compute; repeat split; reflexivity|].
  split; [exact L|].
  vm_compute in P, Nt. vm_compute.
  repeat split; first [assumption|reflexivity].
Defined.

Lemma createCorpus_blank_name_only_warns_witness :
  let a := (sample_blank_name sample_toISOString sample_toLocaleTimeString sample_string_gt_zero sample_parse_html sample_panel_first) in
  newCorpusName a = js "  " /\
  trace (chat (createCorpus a)) =
    trace (chat a) ++ [Notified (js "warning") (js "Please enter a corpus name")] /\
  corpus_pending (createCorpus a) = [] /\
  loadingOverlay_show (createCorpus a) = false.
Proof.
  intros a.
  pose proof (createCorpus_blank_name_only_warns a
                ltac:(vm_compute; repeat constructor)) as (A & _ & B & C & _).
  exact (conj eq_refl (conj A (conj B C))).
Defined.

Lemma createCorpus_outcomes_witness :
  let a := (sample_named sample_toISOString sample_toLocaleTimeString sample_string_gt_zero sample_parse_html sample_panel_first) in
  let a1 := createCorpus a in
  let done := (client_step sample_toISOString sample_toLocaleTimeString sample_string_gt_zero sample_parse_html sample_panel_first) (CorpusSettles 1 sample_created) a1 in
  let refused := (client_step sample_toISOString sample_toLocaleTimeString sample_string_gt_zero sample_parse_html sample_panel_first) (CorpusSettles 1 sample_refused) a1 in
  let odd :=
    (client_step sample_toISOString sample_toLocaleTimeString sample_string_gt_zero sample_parse_html sample_panel_first)
      (CorpusSettles 1
         (Resolved (JObj [(js "status", JStr (js "error"));
                          (js "message", JObj [(js "toString", JNull)])]))) a1 in
  (newCorpusName a = js " manuals " /\
   corpus_pending a = [ListRequest] /\
   notifications (trace (chat a)) = []) /\
  (corpus_pending a1 = [ListRequest; CreateRequest (js "manuals")] /\
   loadingOverlay_show a1 = true) /\
  (loadingOverlay_show done = false /\
   newCorpusName done = [] /\
   corporaList done = PanelLoading /\
   corpus_pending done = [ListRequest; ListRequest] /\
   notifications (trace (chat done)) =
     [Notified (js "success")
        (js "Corpus " ++ [34%N] ++ js "manuals" ++ [34%N] ++ js " created successfully")] /\
   toast_message (toast (chat done)) =
     js "Corpus " ++ [34%N] ++ js "manuals" ++ [34%N] ++ js " created successfully") /\
  (loadingOverlay_show refused = false /\
   newCorpusName refused = js " manuals " /\
   corpus_pending refused = [ListRequest] /\
   notifications (trace (chat refused)) =
     [Notified (js "error") (js "Corpus already exists")]) /\
  (loadingOverlay_show odd = false /\
   notifications (trace (chat odd)) =
     [Notified (js "error") (js "Failed to create corpus")]).
Proof.
  intros a a1 done refused odd.
  pose proof ((createCorpus_outcomes sample_toISOString sample_toLocaleTimeString sample_string_gt_zero sample_parse_html sample_panel_first) sample_created a
                ltac:(vm_compute; discriminate)) as ((P & _ & O1) & O2 & S & _).
  pose proof ((createCorpus_outcomes sample_toISOString sample_toLocaleTimeString sample_string_gt_zero sample_parse_html sample_panel_first) sample_refused a
                ltac:(vm_compute; discriminate)) as (_ & O3 & _ & F).
  destruct (S ltac:(vm_compute; reflexivity)) as (Nm & Pl & Pn & Tr).
  destruct (F ltac:(vm_compute; reflexivity)) as (Nm' & _ & Pn' & Nt & _).
  split; [vm_compute; repeat split; reflexivity|].
  vm_compute in P, O1, O2, Nm, Pl, Pn, O3, Nm', Pn', Nt. vm_compute.
  repeat split; first [assumption|reflexivity].
Defined.

Lemma addDocument_missing_field_only_warns_witness :
  let a := (sample_no_url sample_toISOString sample_toLocaleTimeString sample_string_gt_zero sample_parse_html sample_panel_first) in
  targetCorpus a = js "manuals" /\
  documentUrl a = [] /\
  trace (chat (addDocument a)) =
    trace (chat a) ++
    [Notified (js "warning") (js "Please enter both corpus name and document URL")] /\
  corpus_pending (addDocument a) = [] /\
  targetCorpus (addDocument a) = js "manuals".
Proof.
  intros a.
  pose proof (addDocument_missing_field_only_warns a (or_intror (Forall_nil _)))
    as (A & _ & B & _ & C & _).
  exact (conj eq_refl (conj eq_refl (conj A (conj B C)))).
Defined.

Lemma addDocument_outcomes_witness :
  let a := (sample_document sample_toISOString sample_toLocaleTimeString sample_string_gt_zero sample_parse_html sample_panel_first) in
  let a1 := addDocument a in
  let done := (client_step sample_toISOString sample_toLocaleTimeString sample_string_gt_zero sample_parse_html sample_panel_first) (CorpusSettles 0 sample_cleared) a1 in
  let large :=
    (client_step sample_toISOString sample_toLocaleTimeString sample_string_gt_zero sample_parse_html sample_panel_first)
      (CorpusSettles 0
         (Resolved (JObj [(js "status", JStr (js "error"));
                          (js "message",
                           JNum {| num_zero := false; num_positive := true;
                                   num_text := js "1e+21" |})]))) a1 in
  let odd :=
    (client_step sample_toISOString sample_toLocaleTimeString sample_string_gt_zero sample_parse_html sample_panel_first)
      (CorpusSettles 0
         (Resolved (JObj [(js "status", JStr (js "error"));
                          (js "message", JObj [(js "toString", JNull)])]))) a1 in
  trace (chat a1) =
    trace (chat a) ++
    [Fetch (js "/api/corpus/add-document") (js "POST")
       (Some (JObj [(js "corpus_name", JStr (js "manuals"));
                    (js "document_url", JStr (js "https://example.org/kiln.pdf"))]))] /\
  loadingOverlay_show a1 = true /\
  loadingOverlay_show done = false /\
  targetCorpus done = [] /\
  documentUrl done = [] /\
  notifications (trace (chat done)) =
    [Notified (js "success") (js "Document added successfully")] /\
  notifications (trace (chat large)) = [Notified (js "error") (js "1e+21")] /\
  notifications (trace (chat odd)) =
    [Notified (js "error") (js "Failed to add document")].
Proof.
  intros a a1 done large odd.
  pose proof ((addDocument_outcomes sample_toISOString sample_toLocaleTimeString sample_string_gt_zero sample_parse_html sample_panel_first) sample_cleared a
                ltac:(vm_compute; discriminate) ltac:(vm_compute; discriminate))
    as ((_ & F & O1) & O2 & _ & _ & _ & S & _).
  destruct (S ltac:(vm_compute; reflexivity)) as (A & B & Nt).
  vm_compute in F, O1, O2, A, B, Nt. vm_compute.
  repeat split; first [assumption|reflexivity].
Defined.

Lemma dialog_leaves_the_chat_witness :
  let a := (sample_creating sample_toISOString sample_toLocaleTimeString sample_string_gt_zero sample_parse_html sample_panel_first) in
  let a' := (client_step sample_toISOString sample_toLocaleTimeString sample_string_gt_zero sample_parse_html sample_panel_first) (CorpusSettles 1 sample_refused) a in
  toast_message (toast (chat a')) = js "Corpus already exists" /\
  messagesContainer (chat a') = [welcome] /\
  pending (chat a') = [StatusRequest; HistoryRequest] /\
  chat_requests (trace (chat a')) = [].
Proof.
  intros a a'.
  pose proof ((dialog_leaves_the_chat sample_toISOString sample_toLocaleTimeString sample_string_gt_zero sample_parse_html sample_panel_first) (CorpusSettles 1 sample_refused) a eq_refl)
    as (_ & P & M & _ & _ & _ & _ & C).
  exact (conj eq_refl (conj M (conj P C))).
Defined.

Lemma sample_creating_reachable :
  (client_reachable sample_toISOString sample_toLocaleTimeString sample_string_gt_zero sample_parse_html sample_panel_first) sample_page sample_dialog (sample_creating sample_toISOString sample_toLocaleTimeString sample_string_gt_zero sample_parse_html sample_panel_first).
Proof. do 3 apply client_next. apply client_new. Defined.


Lemma overlay_only_while_pending_witness :
  let a := (sample_creating sample_toISOString sample_toLocaleTimeString sample_string_gt_zero sample_parse_html sample_panel_first) in
  loadingOverlay_show a = true /\
  corpus_pending a = [ListRequest; CreateRequest (js "manuals")] /\
  existsb with_overlay (corpus_pending a) = true.
Proof.
  intros a.
  exact (conj eq_refl
           (conj eq_refl
              ((overlay_only_while_pending sample_toISOString sample_toLocaleTimeString sample_string_gt_zero sample_parse_html sample_panel_first) sample_page sample_dialog a
                 eq_refl sample_creating_reachable eq_refl))).
Defined.

(** *** The chat on sample runs *)




Lemma formatMessage_keeps_markup_witness :
  formatMessage (js "<img src=x onerror=alert(1)>") = js "<img src=x onerror=alert(1)>".
Proof.
  exact (formatMessage_keeps_markup (js "<img src=x onerror=alert(1)>")
           ltac:(vm_compute; repeat split; intros H;
                 repeat (destruct H as [H|H]; [discriminate H|]); exact H)).
Defined.

Lemma showToast_hidden_after_5s_witness :
  let s := showToast "error" (str "Failed to send message") (new_CementGPT sample_page) in
  toast_show (toast (elapse 5000 (showToast "success" (str "Conversation cleared") s)))
    = false.
Proof.
  intros s.
  exact (showToast_hidden_after_5s "success" (str "Conversation cleared") s 5000
           ltac:(vm_compute; discriminate)).
Defined.

Lemma showToast_cut_short_by_earlier_timer_witness :
  let s := new_CementGPT sample_page in
  let s1 := showToast "error" (str "Failed to send message") s in
  let s2 := showToast "success" (str "Conversation cleared") (elapse 4000 s1) in
  toast_show (toast s2) = true /\
  toast_show (toast (elapse 1000 s2)) = false.
Proof.
  intros s s1 s2.
  pose proof (showToast_cut_short_by_earlier_timer "error" "success"
                (str "Failed to send message") (str "Conversation cleared") s 4000 1000
                eq_refl ltac:(vm_compute; discriminate)) as (A & _ & B).
  exact (conj A B).
Defined.



Lemma history_is_a_sequence_witness :
  let es := [Settles 1 (Resolved sample_history); Typed (js "hi"); EnterKey] in
  let s := (run_events sample_toISOString sample_toLocaleTimeString sample_string_gt_zero sample_parse_html sample_panel_first) es (new_CementGPT sample_page) in
  length (transcript s) = 4 /\
  is_array (conversationHistory s).
Proof.
  intros es s.
  refine (conj _
            (proj2 ((history_is_a_sequence sample_toISOString sample_toLocaleTimeString sample_string_gt_zero sample_parse_html sample_panel_first) sample_page es _)));
    [vm_compute; reflexivity|].
  intros [|[|[|n]]] e N; cbn in N; try (destruct n; discriminate N);
    injection N as <-; intros i data E P S; try discriminate E.
  injection E as <- <-. eexists. reflexivity.
Defined.

Lemma status_check_is_final_witness :
  let s := (sample_offline sample_toISOString sample_toLocaleTimeString sample_string_gt_zero sample_parse_html sample_panel_first) in
  let s' := (run_events sample_toISOString sample_toLocaleTimeString sample_string_gt_zero sample_parse_html sample_panel_first)
              [SuggestionClick (js "hello"); Settles 1 sample_reply; Elapses 6000] s in
  (pending s = [HistoryRequest] /\
   chat_enabled s = false /\
   statusIndicator s = (js "status-indicator offline", js "System Unavailable") /\
   length (transcript s') = 3) /\
  controls s' = controls s /\
  chat_enabled s' = chat_enabled s /\
  existsb is_status (pending s') = false.
Proof.
  intros s s'. split.
  - vm_compute. repeat split; reflexivity.
  - exact ((status_check_is_final sample_toISOString sample_toLocaleTimeString sample_string_gt_zero sample_parse_html sample_panel_first)
             [SuggestionClick (js "hello"); Settles 1 sample_reply; Elapses 6000] s
             ltac:(vm_compute; reflexivity)).
Defined.
